(** * running_page: the FIT extraction and aggregation pipeline

    A shallow embedding of [scripts/parse_fit.py]: coordinate
    normalisation, the nearest-city geocoder with its memoising cache,
    the per-file activity extractor, the batch loop of [main] and the
    daily, monthly, summary, per-city and histogram aggregators; and of
    the proxy set-up, the activity listing and the file download loop
    of [scripts/sync_garmin.py]; followed by the properties stated
    about them.

    Numbers.  Python's [float] (and [int] where it is mixed with floats)
    is read as an exact rational [Q]: comparisons, truthiness and the
    four operations are those of the rationals.  NaN, infinities and
    rounding are outside this model.  Library functions whose values are
    not rational arithmetic ([math.sin], [float(str)], date formatting,
    ...) are fields of the class [PyLib].

    What this leaves out.  Rational addition is associative and binary64
    addition is not: a statement here equates a float the script
    computes only with the same operations in the same order, never with
    a regrouped sum.  Three exceptions of the script depend on the size
    of a number and do not exist in the model: the [OverflowError] of
    [float(n)] for an [int] beyond the float range (from about 1.8e308),
    which [except (TypeError, ValueError)] does not catch; the
    [OverflowError] of [astimezone] on a [datetime] at the ends of the
    calendar; and the [ZeroDivisionError] of a quotient whose divisor
    underflows to [0.0].  Nothing below states that the extractor
    returns; what is stated about it holds of the activity that it
    returns. *)

From Stdlib Require Import ZArith QArith Qabs Qround Lia Lqa.
From Stdlib Require Import String Ascii List Sorted Permutation OrderedTypeEx.
From stdpp Require Import gmap strings pretty sorting.

Import ListNotations.
Local Open Scope Q_scope.
Local Open Scope string_scope.

(* ===================================================================== *)
(** * Python values                                                       *)
(* ===================================================================== *)

Module Py.

(** A [datetime]: wall-clock microseconds since the epoch, and the UTC
    offset (microseconds) when the object is timezone-aware. *)
Record datetime := mk_datetime { wall_us : Z; tz_offset_us : option Z }.

(** The values a decoded FIT field can hold. [PyInt z] is an [int]
    within the float range. [PyOther s t n] is any other object without
    a [tzinfo] attribute (a tuple, a byte string): [s] is what [str()]
    prints for it, [t] its truth value and [n] what [float()] makes of
    it, [None] when [float()] raises [TypeError] or [ValueError]. *)
Inductive pyval :=
| PyNone
| PyBool (b : bool)
| PyInt (z : Z)
| PyFloat (q : Q)
| PyStr (s : string)
| PyDatetime (d : datetime)
| PyOther (shown : string) (truth : bool) (number : option Q).

(** Uncaught exceptions. *)
Inductive exn := TypeError | ValueError | AttributeError | KeyError
               | ZeroDivisionError.

(** A computation that returns or raises. *)
Inductive py (A : Type) :=
| Ret (a : A)
| Raise (e : exn).
Arguments Ret {A} a.
Arguments Raise {A} e.

Definition bind {A B} (m : py A) (k : A -> py B) : py B :=
  match m with
  | Ret a => k a
  | Raise e => Raise e
  end.

Notation "'let*' x ':=' m 'in' k" := (bind m (fun x => k))
  (at level 10, x name, m at level 100, k at level 200).

(** Library functions used by the script that are not rational
    arithmetic. *)
Class PyLib := {
  (** [float(s)] on a string that reads as a finite number; [None]
      stands for [ValueError]. *)
  float_of_str : string -> option Q;
  (** [str(v)] for a float or a [datetime]. *)
  str_builtin : pyval -> string;
  (** [str.lower]. *)
  str_lower : string -> string;
  math_radians : Q -> Q;
  math_sin : Q -> Q;
  math_cos : Q -> Q;
  math_sqrt : Q -> Q;
  math_atan2 : Q -> Q -> Q;
  (** [dt.isoformat().replace("+00:00", "Z")] of a UTC instant. *)
  isoformat_utc : Z -> string;
  (** [dt.astimezone().isoformat()] in the machine's time zone. *)
  isoformat_local : Z -> string;
  (** [dt.astimezone().date().isoformat()]. *)
  local_date_iso : Z -> string
}.

(** A field map [{field.name: field.value}]; [m.get(k)] is [None] for a
    missing key. *)
Abbreviation fields := (gmap string pyval).

Definition get (m : fields) (k : string) : pyval :=
  match m !! k with
  | Some v => v
  | None => PyNone
  end.

Definition is_none (v : pyval) : bool :=
  match v with PyNone => true | _ => false end.

(** [x > y], [x < y] and [x != 0] on numbers. *)
Definition Qgtb (x y : Q) : bool := negb (Qle_bool x y).
Definition Qltb (x y : Q) : bool := negb (Qle_bool y x).
Definition Qtruthy (x : Q) : bool := negb (Qeq_bool x 0).

(** Truthiness, as [or], [and] and [if] test it. *)
Definition truthy (v : pyval) : bool :=
  match v with
  | PyNone => false
  | PyBool b => b
  | PyInt z => negb (Z.eqb z 0)
  | PyFloat q => Qtruthy q
  | PyStr s => negb (String.eqb s "")
  | PyDatetime _ => true
  | PyOther _ t _ => t
  end.

(** Truthiness of an optional float ([None] or a number). *)
Definition truthy_num (o : option Q) : bool :=
  match o with
  | Some q => Qtruthy q
  | None => false
  end.

(** [a or b] on optional floats, and on an optional string with a
    string default. *)
Definition or_num (a b : option Q) : option Q :=
  if truthy_num a then a else b.

Definition or_str (a : option string) (b : string) : string :=
  match a with
  | Some s => if String.eqb s "" then b else s
  | None => b
  end.

(** [float(v)] under [try ... except (TypeError, ValueError)]: [None]
    when one of the two is raised. For an [int] beyond the float range
    [float] raises [OverflowError], which the handler lets through;
    [PyInt] holds no such [int]. *)
Definition py_float `{PyLib} (v : pyval) : option Q :=
  match v with
  | PyNone => None
  | PyBool b => Some (if b then 1 else 0)
  | PyInt z => Some (inject_Z z)
  | PyFloat q => Some q
  | PyStr s => float_of_str s
  | PyDatetime _ => None
  | PyOther _ _ n => n
  end.

(** [str(v)]; an [int] prints in decimal. *)
Definition py_str `{PyLib} (v : pyval) : string :=
  match v with
  | PyNone => "None"
  | PyBool b => if b then "True" else "False"
  | PyInt z => pretty z
  | PyStr s => s
  | PyOther s _ _ => s
  | PyFloat _ | PyDatetime _ => str_builtin v
  end.

End Py.
Export Py.

(* ===================================================================== *)
(** * Geocoder                                                            *)
(* ===================================================================== *)

Module Geocoder.

(** One entry of [cities.json]; the labels are read with [.get]. *)
Record city_rec := mk_city {
  c_city : option string;
  c_country : option string;
  c_admin1 : option string;
  c_lat : Q;
  c_lon : Q
}.

(** The result pair [(city | None, km | None)]. *)
Abbreviation lookup_result := (option city_rec * option Q)%type.

(** The cache key [(round(lat, 3), round(lon, 3))], each component held
    as its number of thousandths. *)
Abbreviation cache_key := (Z * Z)%type.

Section Geocoder.
Context `{PyLib}.

Definition semicircles_to_deg (value : Q) : Q :=
  value * 180 / (2 ^ 31).

Definition normalize_lat_lon (value : pyval) : option Q :=
  if is_none value then None
  else match py_float value with
       | None => None
       | Some v =>
           (* fitdecode may return raw semicircles or already-scaled degrees. *)
           if Qgtb (Qabs v) 180 then Some (semicircles_to_deg v)
           else Some v
       end.

Definition haversine_km (lat1 lon1 lat2 lon2 : Q) : Q :=
  let r := 6371 in
  let phi1 := math_radians lat1 in
  let phi2 := math_radians lat2 in
  let d_phi := math_radians (lat2 - lat1) in
  let d_lambda := math_radians (lon2 - lon1) in
  let a := math_sin (d_phi / 2) ^ 2
           + math_cos phi1 * math_cos phi2 * math_sin (d_lambda / 2) ^ 2 in
  let c := 2 * math_atan2 (math_sqrt a) (math_sqrt (1 - a)) in
  r * c.

(** One iteration of the scan; the state is [(best, best_km)]. *)
Definition nearest_step (lat lon : Q) (st : lookup_result) (city : city_rec)
  : lookup_result :=
  let d_km := haversine_km lat lon (c_lat city) (c_lon city) in
  match snd st with
  | None => (Some city, Some d_km)
  | Some best_km =>
      if Qltb d_km best_km then (Some city, Some d_km) else st
  end.

Definition find_nearest_city (lat lon : Q) (cities : list city_rec)
    (max_km : option Q) : lookup_result :=
  let '(best, best_km) := fold_left (nearest_step lat lon) cities (None, None) in
  match best with
  | None => (None, None)
  | Some b =>
      match max_km, best_km with
      | Some m, Some bk =>
          if Qgtb bk m then (None, Some bk) else (Some b, Some bk)
      | _, _ => (Some b, best_km)
      end
  end.

(** [round(x, 0)] to an integer, ties to even. *)
Definition round_half_even (x : Q) : Z :=
  let f := Qfloor x in
  match Qcompare (x - inject_Z f) (1 # 2) with
  | Lt => f
  | Gt => (f + 1)%Z
  | Eq => if Z.even f then f else (f + 1)%Z
  end.

(** [round(x, 3)], held as its number of thousandths. *)
Definition round3 (x : Q) : Z := round_half_even (x * 1000).

Definition city_lookup (lat lon : option Q) (cities : list city_rec)
    (cache : gmap cache_key lookup_result) (max_km : option Q)
  : lookup_result * gmap cache_key lookup_result :=
  match lat, lon with
  | Some lat, Some lon =>
      let key := (round3 lat, round3 lon) in
      match cache !! key with
      | Some cached => (cached, cache)
      | None =>
          let result := find_nearest_city lat lon cities max_km in
          (result, <[key := result]> cache)
      end
  | _, _ => ((None, None), cache)
  end.

End Geocoder.
End Geocoder.
Export Geocoder.

(* ===================================================================== *)
(** * Activities                                                          *)
(* ===================================================================== *)

(** The dictionary returned by [parse_fit_file] and read by the
    aggregators. Fields the aggregators read with [.get] are optional. *)
Module Activity.
Record t := mk {
  id : string;
  sourceFile : string;
  sport : string;
  startTime : string;
  startTimeUtc : option string;
  date : string;
  distanceM : option Q;
  durationS : option Q;
  paceSecPerKm : option Q;
  avgHr : option Q;
  lat : option Q;
  lon : option Q;
  city : option string;
  country : option string;
  admin1 : option string
}.
End Activity.

(* ===================================================================== *)
(** * Activity extractor                                                  *)
(* ===================================================================== *)

Module Extractor.
Section Extractor.
Context `{PyLib}.

(** The result is the UTC instant in microseconds. An aware [datetime]
    so close to the first or the last day of the calendar that its UTC
    instant falls outside makes [astimezone] raise [OverflowError]; no
    [datetime] of the model does. *)
Definition ensure_utc (dt_value : pyval) : py (option Z) :=
  match dt_value with
  | PyNone => Ret None
  | PyDatetime d =>
      match tz_offset_us d with
      | None => Ret (Some (wall_us d))
      | Some off => Ret (Some (wall_us d - off)%Z)
      end
  | _ => Raise AttributeError
  end.

(** [x / y] on floats: [ZeroDivisionError] for a zero divisor. The
    divisor is an exact rational here; a float divisor computed as
    [d / 1000.0] is also [0.0] for a [d] below the smallest float times
    1000, which this does not show. *)
Definition py_div (x y : Q) : py Q :=
  if Qeq_bool y 0 then Raise ZeroDivisionError else Ret (x / y).

(** A frame yielded by [fitdecode.FitReader]. *)
Inductive frame :=
| FitDataMessage (name : string) (flds : fields)
| FitOtherFrame.

(** The frame loop: the last session message and all record messages. *)
Definition read_frame (acc : option fields * list fields) (fr : frame)
  : option fields * list fields :=
  match fr with
  | FitDataMessage name flds =>
      if String.eqb name "session" then (Some flds, snd acc)
      else if String.eqb name "record" then (fst acc, (snd acc ++ [flds])%list)
      else acc
  | FitOtherFrame => acc
  end.

Definition read_frames (frames : list frame) : option fields * list fields :=
  fold_left read_frame frames (None, []).

(** The variables of the record loop. *)
Record scan := mk_scan {
  first_ts : option Z;
  last_ts : option Z;
  last_distance : option Q;
  hr_sum : Q;
  hr_count : Z;
  first_lat : option Q;
  first_lon : option Q
}.

Definition scan_init : scan :=
  mk_scan None None None 0 0 None None.

Definition scan_timestamp (ts : option Z) (st : scan) : scan :=
  match ts with
  | Some t =>
      mk_scan (match first_ts st with None => Some t | Some f => Some f end)
              (Some t) (last_distance st) (hr_sum st) (hr_count st)
              (first_lat st) (first_lon st)
  | None => st
  end.

Definition scan_distance (record : fields) (st : scan) : scan :=
  if negb (is_none (get record "distance")) then
    match py_float (get record "distance") with
    | Some d =>
        mk_scan (first_ts st) (last_ts st) (Some d) (hr_sum st) (hr_count st)
                (first_lat st) (first_lon st)
    | None => st
    end
  else st.

Definition scan_heart_rate (record : fields) (st : scan) : scan :=
  let hr := get record "heart_rate" in
  if negb (is_none hr) then
    match py_float hr with
    | Some h =>
        mk_scan (first_ts st) (last_ts st) (last_distance st)
                (hr_sum st + h) (hr_count st + 1)%Z
                (first_lat st) (first_lon st)
    | None => st
    end
  else st.

Definition scan_position (record : fields) (st : scan) : scan :=
  match first_lat st, first_lon st with
  | Some _, Some _ => st
  | _, _ =>
      let lat := normalize_lat_lon (get record "position_lat") in
      let lon := normalize_lat_lon (get record "position_long") in
      match lat, lon with
      | Some la, Some lo =>
          mk_scan (first_ts st) (last_ts st) (last_distance st)
                  (hr_sum st) (hr_count st) (Some la) (Some lo)
      | _, _ => st
      end
  end.

(** The body of [for record in records]. *)
Definition scan_record (st : scan) (record : fields) : py scan :=
  let* ts := ensure_utc (get record "timestamp") in
  Ret (scan_position record
         (scan_heart_rate record
            (scan_distance record
               (scan_timestamp ts st)))).

Fixpoint scan_records (st : scan) (records : list fields) : py scan :=
  match records with
  | [] => Ret st
  | record :: rest =>
      let* st' := scan_record st record in
      scan_records st' rest
  end.

Definition of_float (o : option Q) : pyval :=
  match o with
  | Some q => PyFloat q
  | None => PyNone
  end.

(** [v = float(v)] guarded by [if v is not None] and the [try]. *)
Definition coerce (v : pyval) : option Q :=
  if negb (is_none v) then py_float v else None.

Definition pick_distance (session : fields) (st : scan) : option Q :=
  let distance_m := get session "total_distance" in
  let distance_m :=
    if is_none distance_m then of_float (last_distance st) else distance_m in
  coerce distance_m.

Definition pick_duration (session : fields) (st : scan) : option Q :=
  let duration_s := get session "total_timer_time" in
  let duration_s :=
    match first_ts st, last_ts st with
    | Some f, Some l =>
        if is_none duration_s then PyFloat (inject_Z (l - f) / 1000000)
        else duration_s
    | _, _ => duration_s
    end in
  coerce duration_s.

Definition pick_avg_hr (session : fields) (st : scan) : py (option Q) :=
  let avg_hr := get session "avg_heart_rate" in
  let* avg_hr :=
    if is_none avg_hr && (0 <? hr_count st)%Z then
      let* m := py_div (hr_sum st) (inject_Z (hr_count st)) in
      Ret (PyFloat m)
    else Ret avg_hr in
  Ret (coerce avg_hr).

Definition pick_pace (distance_m duration_s : option Q) : py (option Q) :=
  match distance_m, duration_s with
  | Some d, Some t =>
      if Qtruthy d && Qtruthy t && Qgtb d 0 then
        let* km := py_div d 1000 in
        let* p := py_div t km in
        Ret (Some p)
      else Ret None
  | _, _ => Ret None
  end.

(** The city block: labels and the cache after the lookup. *)
Definition resolve_city (start_lat start_lon : option Q)
    (cities : option (list city_rec))
    (city_cache : gmap cache_key lookup_result) (max_city_km : option Q)
  : (string * option string * option string) * gmap cache_key lookup_result :=
  match cities with
  | Some cs =>
      let '((city, _), cache') :=
        city_lookup start_lat start_lon cs city_cache max_city_km in
      match city with
      | Some c => ((or_str (c_city c) "unknown", c_country c, c_admin1 c), cache')
      | None => (("unknown", None, None), cache')
      end
  | None => (("unknown", None, None), city_cache)
  end.

(** [parse_fit_file] after decoding: [stem] and [name] are [path.stem]
    and [path.name]; [decoded] is [None] when the reader raises
    [FitError]. The result is the returned dictionary ([None] for a
    skipped file) and the cache as the call leaves it. *)
Definition parse_fit_file (stem name : string) (decoded : option (list frame))
    (cities : option (list city_rec))
    (city_cache : gmap cache_key lookup_result) (max_city_km : option Q)
  : py (option Activity.t * gmap cache_key lookup_result) :=
  match decoded with
  | None => Ret (None, city_cache)
  | Some frames =>
  match read_frames frames with
  | (None, _) => Ret (None, city_cache)
  | (Some session, records) =>
      let sport_value := get session "sport" in
      let sport :=
        if negb (is_none sport_value) then str_lower (py_str sport_value)
        else "unknown" in
      if negb (String.eqb sport "running") then Ret (None, city_cache) else
      let start_time :=
        if truthy (get session "start_time") then get session "start_time"
        else get session "timestamp" in
      let* start_time := ensure_utc start_time in
      match start_time with
      | None => Ret (None, city_cache)
      | Some start_time =>
          let* st := scan_records scan_init records in
          let distance_m := pick_distance session st in
          let duration_s := pick_duration session st in
          let* avg_hr := pick_avg_hr session st in
          let start_lat :=
            or_num (normalize_lat_lon (get session "start_position_lat"))
                   (first_lat st) in
          let start_lon :=
            or_num (normalize_lat_lon (get session "start_position_long"))
                   (first_lon st) in
          let* pace_sec_per_km := pick_pace distance_m duration_s in
          let '((city_name, country, admin1), cache') :=
            resolve_city start_lat start_lon cities city_cache max_city_km in
          let activity_id :=
            stem +:+ "_" +:+ pretty (Z.quot start_time 1000000) in
          Ret (Some {|
            Activity.id := activity_id;
            Activity.sourceFile := name;
            Activity.sport := sport;
            Activity.startTime := isoformat_local start_time;
            Activity.startTimeUtc := Some (isoformat_utc start_time);
            Activity.date := local_date_iso start_time;
            Activity.distanceM := distance_m;
            Activity.durationS := duration_s;
            Activity.paceSecPerKm := pace_sec_per_km;
            Activity.avgHr := avg_hr;
            Activity.lat := start_lat;
            Activity.lon := start_lon;
            Activity.city := Some city_name;
            Activity.country := country;
            Activity.admin1 := admin1
          |}, cache')
      end
  end
  end.

End Extractor.
End Extractor.
Export Extractor.

(* ===================================================================== *)
(** * Aggregator                                                          *)
(* ===================================================================== *)

(** A [dict]: its items in insertion order. Assigning to an existing
    key keeps the key's position. *)
Module Dict.
Section Dict.
Context {K V : Type} `{EqDecision K}.

Fixpoint get (d : list (K * V)) (k : K) : option V :=
  match d with
  | [] => None
  | (k', v) :: rest => if decide (k = k') then Some v else get rest k
  end.

Fixpoint set (d : list (K * V)) (k : K) (v : V) : list (K * V) :=
  match d with
  | [] => [(k, v)]
  | (k', v') :: rest =>
      if decide (k = k') then (k, v) :: rest else (k', v') :: set rest k v
  end.

Definition values (d : list (K * V)) : list V := map snd d.
Definition keys (d : list (K * V)) : list K := map fst d.

End Dict.
End Dict.

(** [list.sort]: a stable sort; [le x y] says that [x] may stay in front
    of [y]. *)
Module PySort.
Section PySort.
Context {A : Type} (le : A -> A -> bool).

Fixpoint insert (x : A) (l : list A) : list A :=
  match l with
  | [] => [x]
  | y :: rest => if le x y then x :: l else y :: insert x rest
  end.

Definition sort (l : list A) : list A := fold_right insert [] l.

End PySort.
End PySort.

(** An item of a day's ["activities"] list. *)
Module Digest.
Record t := mk {
  id : string;
  startTime : string;
  startTimeUtc : option string;
  distanceM : option Q;
  durationS : option Q;
  paceSecPerKm : option Q;
  avgHr : option Q
}.
End Digest.

(** An entry of [daily.json]. *)
Module Daily.
Record t := mk {
  date : string;
  distanceM : Q;
  durationS : Q;
  activities : list Digest.t
}.
End Daily.

(** The accumulator of [build_city_stats], and an entry of its result. *)
Module CityEntry.
Record t := mk {
  city : string;
  country : option string;
  admin1 : option string;
  runs : Z;
  distanceM : Q;
  durationS : Q
}.
End CityEntry.

Module CityStat.
Record t := mk {
  city : string;
  country : option string;
  admin1 : option string;
  runs : Z;
  distanceM : Q;
  avgPaceSecPerKm : option Q
}.
End CityStat.

Module Aggregator.

(** [x or 0.0]. *)
Definition or_zero (o : option Q) : Q :=
  match o with
  | Some q => if Qtruthy q then q else 0
  | None => 0
  end.

Definition digest_of (activity : Activity.t) : Digest.t :=
  {| Digest.id := Activity.id activity;
     Digest.startTime := Activity.startTime activity;
     Digest.startTimeUtc := Activity.startTimeUtc activity;
     Digest.distanceM := Activity.distanceM activity;
     Digest.durationS := Activity.durationS activity;
     Digest.paceSecPerKm := Activity.paceSecPerKm activity;
     Digest.avgHr := Activity.avgHr activity |}.

(** The body of the first loop of [build_daily]. *)
Definition daily_step (daily : list (string * Daily.t)) (activity : Activity.t)
  : list (string * Daily.t) :=
  let date := Activity.date activity in
  let entry :=
    match Dict.get daily date with
    | Some e => e
    | None => Daily.mk date 0 0 []
    end in
  let distance_m := or_zero (Activity.distanceM activity) in
  let duration_s := or_zero (Activity.durationS activity) in
  Dict.set daily date
    {| Daily.date := Daily.date entry;
       Daily.distanceM := Daily.distanceM entry + distance_m;
       Daily.durationS := Daily.durationS entry + duration_s;
       Daily.activities := (Daily.activities entry ++ [digest_of activity])%list |}.

(** [item.get("startTimeUtc") or item["startTime"]]. *)
Definition digest_key (item : Digest.t) : string :=
  or_str (Digest.startTimeUtc item) (Digest.startTime item).

Definition sort_activities (entry : Daily.t) : Daily.t :=
  {| Daily.date := Daily.date entry;
     Daily.distanceM := Daily.distanceM entry;
     Daily.durationS := Daily.durationS entry;
     Daily.activities :=
       PySort.sort (fun a b => String.leb (digest_key a) (digest_key b))
                   (Daily.activities entry) |}.

Definition build_daily (activities : list Activity.t) : list Daily.t :=
  let daily := fold_left daily_step activities [] in
  let daily_list :=
    PySort.sort (fun a b => String.leb (Daily.date a) (Daily.date b))
                (Dict.values daily) in
  map sort_activities daily_list.

Abbreviation city_key := (string * option string * option string)%type.

(** The body of the first loop of [build_city_stats]. *)
Definition city_step (stats : list (city_key * CityEntry.t))
    (activity : Activity.t) : list (city_key * CityEntry.t) :=
  let city := or_str (Activity.city activity) "unknown" in
  if String.eqb city "unknown" then stats else
  let key : city_key :=
    (city, Activity.country activity, Activity.admin1 activity) in
  let entry :=
    match Dict.get stats key with
    | Some e => e
    | None => CityEntry.mk (fst (fst key)) (snd (fst key)) (snd key) 0 0 0
    end in
  Dict.set stats key
    {| CityEntry.city := CityEntry.city entry;
       CityEntry.country := CityEntry.country entry;
       CityEntry.admin1 := CityEntry.admin1 entry;
       CityEntry.runs := (CityEntry.runs entry + 1)%Z;
       CityEntry.distanceM :=
         match Activity.distanceM activity with
         | Some d => if Qtruthy d then CityEntry.distanceM entry + d
                     else CityEntry.distanceM entry
         | None => CityEntry.distanceM entry
         end;
       CityEntry.durationS :=
         match Activity.durationS activity with
         | Some d => if Qtruthy d then CityEntry.durationS entry + d
                     else CityEntry.durationS entry
         | None => CityEntry.durationS entry
         end |}.

(** The body of the second loop. *)
Definition city_result (entry : CityEntry.t) : py CityStat.t :=
  let* avg_pace :=
    if Qgtb (CityEntry.distanceM entry) 0 && Qgtb (CityEntry.durationS entry) 0
    then
      let* km := py_div (CityEntry.distanceM entry) 1000 in
      let* p := py_div (CityEntry.durationS entry) km in
      Ret (Some p)
    else Ret None in
  Ret {| CityStat.city := CityEntry.city entry;
         CityStat.country := CityEntry.country entry;
         CityStat.admin1 := CityEntry.admin1 entry;
         CityStat.runs := CityEntry.runs entry;
         CityStat.distanceM := CityEntry.distanceM entry;
         CityStat.avgPaceSecPerKm := avg_pace |}.

Fixpoint city_results (entries : list CityEntry.t) : py (list CityStat.t) :=
  match entries with
  | [] => Ret []
  | entry :: rest =>
      let* r := city_result entry in
      let* rs := city_results rest in
      Ret (r :: rs)
  end.

Definition build_city_stats (activities : list Activity.t)
  : py (list CityStat.t) :=
  let stats := fold_left city_step activities [] in
  let* results := city_results (Dict.values stats) in
  (* sort(key=distanceM, reverse=True) *)
  Ret (PySort.sort
         (fun a b => Qle_bool (CityStat.distanceM b) (CityStat.distanceM a))
         results).

End Aggregator.
Export Aggregator.

(* ===================================================================== *)
(** * Reference notions used in the statements                            *)
(* ===================================================================== *)

Module Reference.
Section Reference.
Context `{PyLib}.

(** Distance from the query point to a city. *)
Definition km_to (lat lon : Q) (c : city_rec) : Q :=
  haversine_km lat lon (c_lat c) (c_lon c).

(** [c] is at index [i] of [cities], no city is nearer to the query
    point, and every city before it is strictly farther. *)
Definition first_nearest (lat lon : Q) (cities : list city_rec)
    (i : nat) (c : city_rec) : Prop :=
  cities !! i = Some c /\
  (forall c', In c' cities -> km_to lat lon c <= km_to lat lon c') /\
  (forall j c', (j < i)%nat -> cities !! j = Some c' ->
                km_to lat lon c < km_to lat lon c').





(** One call of [city_lookup] made by some caller. *)
Record lookup_call := mk_call {
  call_lat : option Q;
  call_lon : option Q;
  call_cities : list city_rec;
  call_max_km : option Q
}.

(** The cache after a series of calls. *)
Definition run_lookups (calls : list lookup_call)
    (cache : gmap cache_key lookup_result) : gmap cache_key lookup_result :=
  fold_left
    (fun cache c =>
       snd (city_lookup (call_lat c) (call_lon c) (call_cities c) cache
                        (call_max_km c)))
    calls cache.

(** The record distances that convert to a number, in file order. *)
Definition record_distances (records : list fields) : list Q :=
  omap (fun record => py_float (get record "distance")) records.

(** The first record whose two coordinates both normalise. *)
Fixpoint first_valid_position (records : list fields) : option (Q * Q) :=
  match records with
  | [] => None
  | record :: rest =>
      match normalize_lat_lon (get record "position_lat"),
            normalize_lat_lon (get record "position_long") with
      | Some la, Some lo => Some (la, lo)
      | _, _ => first_valid_position rest
      end
  end.

(** The pair held by the loop: both coordinates or none. *)
Definition first_pos (st : scan) : option (Q * Q) :=
  match first_lat st, first_lon st with
  | Some la, Some lo => Some (la, lo)
  | _, _ => None
  end.

Definition paired (st : scan) : Prop :=
  first_lat st = fst <$> first_pos st /\ first_lon st = snd <$> first_pos st.

(** Start coordinates chosen pairwise: the session pair when both of its
    coordinates are present, else the first valid record pair. *)
Definition pairwise_start (session : fields) (records : list fields)
  : option Q * option Q :=
  match normalize_lat_lon (get session "start_position_lat"),
        normalize_lat_lon (get session "start_position_long") with
  | Some la, Some lo => (Some la, Some lo)
  | _, _ =>
      match first_valid_position records with
      | Some (la, lo) => (Some la, Some lo)
      | None => (None, None)
      end
  end.

(** The distance rule read with a fallback to the records also when the
    session total is present but not a number. *)
Definition distance_falls_back (session : fields) (records : list fields)
    (a : Activity.t) : Prop :=
  py_float (get session "total_distance") = None ->
  forall d, last (record_distances records) = Some d ->
            Activity.distanceM a = Some d.

End Reference.

(** The pace rule read with no condition on the value of the duration. *)
Definition pace_iff_present (a : Activity.t) : Prop :=
  Activity.paceSecPerKm a <> None <->
  exists d t, Activity.distanceM a = Some d /\
              Activity.durationS a = Some t /\ 0 < d.

(** Distance total of a list of activities, accumulated as
    [build_daily] does. *)
Definition distance_total (activities : list Activity.t) : Q :=
  fold_left (fun acc a => acc + or_zero (Activity.distanceM a)) activities 0.

Definition on_date (d : string) (a : Activity.t) : bool :=
  String.eqb (Activity.date a) d.

(** The sum of [distanceM] over [activities], added from the left; an
    activity without a distance adds nothing. *)
Definition sum_distanceM (activities : list Activity.t) : Q :=
  fold_left
    (fun acc a => acc + match Activity.distanceM a with
                        | Some d => d
                        | None => 0
                        end)
    activities 0.

(** The seven fields of an entry of a day's list, and the same seven
    fields of an activity. *)
Abbreviation digest_tuple :=
  (string * string * option string
   * option Q * option Q * option Q * option Q)%type.

Definition digest_fields (item : Digest.t) : digest_tuple :=
  (Digest.id item, Digest.startTime item, Digest.startTimeUtc item,
   Digest.distanceM item, Digest.durationS item, Digest.paceSecPerKm item,
   Digest.avgHr item).

Definition activity_digest (a : Activity.t) : digest_tuple :=
  (Activity.id a, Activity.startTime a, Activity.startTimeUtc a,
   Activity.distanceM a, Activity.durationS a, Activity.paceSecPerKm a,
   Activity.avgHr a).

(** The key a day's list is ordered by: [startTimeUtc], and [startTime]
    when that is absent (or empty). *)
Definition utc_or_start (item : Digest.t) : string :=
  match Digest.startTimeUtc item with
  | Some (String c s) => String c s
  | Some EmptyString | None => Digest.startTime item
  end.

Definition start_le (a b : Digest.t) : Prop :=
  String.leb (utc_or_start a) (utc_or_start b) = true.

(** The entries of all days, day after day. *)
Definition day_entries (days : list Daily.t) : list digest_tuple :=
  concat (map (fun day => map digest_fields (Daily.activities day)) days).

(** What the dictionary of [build_daily] holds once [activities] have
    been read: under each date, the total and the digests of the
    activities of that date, and no entry for a date without one. *)
Definition daily_holds (activities : list Activity.t)
    (daily : list (string * Daily.t)) : Prop :=
  forall d,
    match Dict.get daily d with
    | Some e =>
        Daily.date e = d /\
        Daily.distanceM e = distance_total (List.filter (on_date d) activities) /\
        Daily.activities e =
          map digest_of (List.filter (on_date d) activities) /\
        List.filter (on_date d) activities <> []
    | None => List.filter (on_date d) activities = []
    end.

Definition date_lt (x y : Daily.t) : Prop :=
  String.ltb (Daily.date x) (Daily.date y) = true.

Definition key_le (a b : Digest.t) : Prop :=
  String.leb (digest_key a) (digest_key b) = true.

(** An activity that [build_city_stats] counts. *)
Definition located (a : Activity.t) : bool :=
  negb (String.eqb (or_str (Activity.city a) "unknown") "unknown").

Definition entry_runs (entries : list CityEntry.t) : Z :=
  fold_right (fun e acc => (CityEntry.runs e + acc)%Z) 0%Z entries.

(** The accumulator after [activities]: no entry is named ["unknown"],
    and the runs add up to the number of counted activities. *)
Definition stats_hold (activities : list Activity.t)
    (stats : list (city_key * CityEntry.t)) : Prop :=
  (forall k e, In (k, e) stats -> CityEntry.city e <> "unknown") /\
  entry_runs (Dict.values stats)
    = Z.of_nat (length (List.filter located activities)).

Definition total_runs (stats : list CityStat.t) : Z :=
  fold_right (fun e acc => (CityStat.runs e + acc)%Z) 0%Z stats.

End Reference.
Export Reference.

(** A sample library, used to run the definitions on examples.
    [float_of_str] reads unsigned decimal integers and rejects every
    other string; [str_lower] leaves lower-case strings as they are;
    dates are printed as the decimal number of seconds. The
    trigonometric functions are their small-angle values, [sin x = x],
    [cos x = 1] and [atan2 y x = y], and the square root is cut after
    six decimals: the distance they give is 0 between equal points, as
    the library's is, and within one part in a thousand of the
    library's for points a few degrees apart. The examples state of a
    distance only that it is 0 or on which side of a radius it lies. *)
Module Sample.

Fixpoint digits_value (s : string) (acc : Z) : option Z :=
  match s with
  | EmptyString => Some acc
  | String c rest =>
      let n := Z.of_nat (nat_of_ascii c) in
      if ((48 <=? n) && (n <=? 57))%Z
      then digits_value rest (10 * acc + (n - 48))%Z
      else None
  end.

Definition lib : PyLib := {|
  float_of_str := fun s =>
    match s with
    | EmptyString => None
    | _ => option_map inject_Z (digits_value s 0)
    end;
  str_builtin := fun _ => "?";
  str_lower := fun s => s;
  math_radians := fun x => x * (355 # 113) / 180;
  math_sin := fun x => x;
  math_cos := fun _ => 1;
  math_sqrt := fun x => inject_Z (Z.sqrt (Qfloor (x * 1000000000000))) / 1000000;
  math_atan2 := fun y _ => y;
  isoformat_utc := fun us => pretty (us / 1000000)%Z +:+ "Z";
  isoformat_local := fun us => pretty (us / 1000000)%Z;
  local_date_iso := fun us => pretty (us / 86400000000)%Z
|}.

Definition city (name : string) (la lo : Q) : city_rec :=
  mk_city (Some name) None None la lo.

(** The fields of a session message of a run that starts at the epoch. *)
Definition session_fields (extra : list (string * pyval)) : fields :=
  list_to_map
    (("sport", PyStr "running")
     :: ("start_time", PyDatetime (mk_datetime 0 (Some 0%Z)))
     :: extra).

Definition session_of (extra : list (string * pyval)) : frame :=
  FitDataMessage "session" (session_fields extra).

Definition record_of (flds : list (string * pyval)) : frame :=
  FitDataMessage "record" (list_to_map flds).

(** Run [parse_fit_file] on a file [run.fit] with city lookup disabled
    and an empty cache. *)
Definition extract (frames : list frame)
  : py (option Activity.t * gmap cache_key lookup_result) :=
  @parse_fit_file lib "run" "run.fit" (Some frames) None ∅ (Some 100).

(** 5 km in 25 minutes. *)
Definition five_km : list frame :=
  [session_of [("total_distance", PyInt 5000);
               ("total_timer_time", PyInt 1500)]].

(** 5 km with a timer total of zero. *)
Definition zero_duration : list frame :=
  [session_of [("total_distance", PyInt 5000);
               ("total_timer_time", PyInt 0)]].

(** A session total that is not a number, over records that carry
    distances. *)
Definition unparsed_total_session : list (string * pyval) :=
  [("total_distance", PyStr "n/a")].
Definition two_distances : list (list (string * pyval)) :=
  [[("distance", PyInt 100)]; [("distance", PyInt 250)]].
Definition unparsed_total : list frame :=
  session_of unparsed_total_session :: map record_of two_distances.

(** No session total; the records carry the distance. *)
Definition no_total : list frame :=
  session_of [] :: map record_of two_distances.

(** A session with a start latitude and no start longitude, over a
    record with a full position. *)
Definition lat_only_session : list (string * pyval) :=
  [("start_position_lat", PyFloat 10)].
Definition one_position : list (list (string * pyval)) :=
  [[("position_lat", PyFloat 20); ("position_long", PyFloat 30)]].
Definition lat_only : list frame :=
  session_of lat_only_session :: map record_of one_position.

(** Two cities and a query at the origin: A is about 157 km away and B
    about 556 km. *)
Definition two_cities : list city_rec := [city "A" 1 1; city "B" 3 4].


(** A session that starts at (1, 1), and a city list whose only entry
    lies there and has an empty name. *)
Definition at_one_one : list frame :=
  [session_of [("start_position_lat", PyFloat 1);
               ("start_position_long", PyFloat 1)]].
Definition nameless : list city_rec :=
  [mk_city (Some "") (Some "XX") None 1 1].

(** Three activities on two dates, as [parse_fit_file] would return
    them. *)
Definition act (id date utc : string) (d : option Q) (city : option string)
  : Activity.t :=
  Activity.mk id "f.fit" "running" utc (Some utc) date d (Some 600) None None
              None None city None None.
Definition three_runs : list Activity.t :=
  [act "b" "2024-05-02" "2024-05-02T07:00:00Z" (Some 3000) (Some "Paris");
   act "a" "2024-05-01" "2024-05-01T18:00:00Z" (Some 5000) (Some "unknown");
   act "c" "2024-05-01" "2024-05-01T06:00:00Z" None (Some "Paris")].

End Sample.

(* ===================================================================== *)
(** * Summary, monthly totals and histograms                              *)
(* ===================================================================== *)

Module Summary.
Record t := mk {
  totalDays : Z;
  totalDistanceM : Q;
  avgDistancePerDayM : Q
}.
End Summary.

Module Monthly.
Record t := mk {
  year : Z;
  month : Z;
  distanceM : Q;
  durationS : Q;
  days : Z
}.
End Monthly.

(** A histogram bin; [end_] is the key ["end"]. *)
Module Bin.
Record t := mk {
  start : Z;
  end_ : Z;
  count : Z;
  distanceM : Q
}.
End Bin.

Module Histogram.
Record t := mk {
  binSize : Z;
  bins : list Bin.t
}.
End Histogram.

Module Distributions.
Record t := mk {
  paceSecPerKm : Histogram.t;
  avgHr : Histogram.t;
  distanceM : Histogram.t
}.
End Distributions.

Module Reports.

Definition PACE_BIN_SEC : Z := 15.
Definition HR_BIN_BPM : Z := 5.
Definition DIST_BIN_M : Z := 1000.

(** [sum(xs)]: starts from 0 and adds from the left. The order is the
    script's; no statement below regroups such a sum. *)
Definition py_sum (xs : list Q) : Q := fold_left Qplus xs 0.

Definition build_summary (daily_list : list Daily.t) : py Summary.t :=
  let total_days := Z.of_nat (length daily_list) in
  let total_distance := py_sum (map Daily.distanceM daily_list) in
  let* avg_distance :=
    if negb (total_days =? 0)%Z
    then py_div total_distance (inject_Z total_days)
    else Ret 0 in
  Ret {| Summary.totalDays := total_days;
         Summary.totalDistanceM := total_distance;
         Summary.avgDistancePerDayM := avg_distance |}.

(** [s.split("-")]. *)
Fixpoint split_dash (s : string) : list string :=
  match s with
  | EmptyString => [EmptyString]
  | String c rest =>
      if Ascii.eqb c "-" then EmptyString :: split_dash rest
      else match split_dash rest with
           | part :: parts => String c part :: parts
           | [] => [String c EmptyString]
           end
  end.

Abbreviation month_key := (Z * Z)%type.

(** Tuple order on [(year, month)]: [a <= b]. *)
Definition month_key_leb (a b : month_key) : bool :=
  (fst a <? fst b)%Z || ((fst a =? fst b)%Z && (snd a <=? snd b)%Z).

Section Monthly.
(** [int(s)] on a string; [None] stands for [ValueError]. *)
Context (int_of_str : string -> option Z).

Definition py_int (s : string) : py Z :=
  match int_of_str s with
  | Some z => Ret z
  | None => Raise ValueError
  end.

(** The body of the loop of [build_monthly]. *)
Definition monthly_step (monthly : list (month_key * Monthly.t))
    (day : Daily.t) : py (list (month_key * Monthly.t)) :=
  match split_dash (Daily.date day) with
  | [year; month; _] =>
      let* y := py_int year in
      let* m := py_int month in
      let key : month_key := (y, m) in
      let entry :=
        match Dict.get monthly key with
        | Some e => e
        | None => Monthly.mk (fst key) (snd key) 0 0 0
        end in
      Ret (Dict.set monthly key
             {| Monthly.year := Monthly.year entry;
                Monthly.month := Monthly.month entry;
                Monthly.distanceM :=
                  Monthly.distanceM entry + Daily.distanceM day;
                Monthly.durationS :=
                  Monthly.durationS entry + Daily.durationS day;
                Monthly.days := (Monthly.days entry + 1)%Z |})
  | _ => Raise ValueError
  end.

Fixpoint monthly_loop (monthly : list (month_key * Monthly.t))
    (daily_list : list Daily.t) : py (list (month_key * Monthly.t)) :=
  match daily_list with
  | [] => Ret monthly
  | day :: rest =>
      let* monthly' := monthly_step monthly day in
      monthly_loop monthly' rest
  end.

Definition build_monthly (daily_list : list Daily.t) : py (list Monthly.t) :=
  let* monthly := monthly_loop [] daily_list in
  Ret (PySort.sort
         (fun a b => month_key_leb (Monthly.year a, Monthly.month a)
                                   (Monthly.year b, Monthly.month b))
         (Dict.values monthly)).

End Monthly.

(** [int(x)] on a float: truncation toward zero. *)
Definition py_trunc (x : Q) : Z :=
  if Qltb x 0 then Qceiling x else Qfloor x.

(** [x // n] on a float and an int. *)
Definition py_floordiv (x : Q) (n : Z) : py Q :=
  if (n =? 0)%Z then Raise ZeroDivisionError
  else Ret (inject_Z (Qfloor (x / inject_Z n))).

Definition add_bin (bin_map : list (Z * Bin.t)) (value distance_m : option Q)
    (bin_size : Z) : py (list (Z * Bin.t)) :=
  match value with
  | None => Ret bin_map
  | Some v =>
      let* q := py_floordiv v bin_size in
      let start := (py_trunc q * bin_size)%Z in
      let entry :=
        match Dict.get bin_map start with
        | Some e => e
        | None => Bin.mk start (start + bin_size) 0 0
        end in
      Ret (Dict.set bin_map start
             {| Bin.start := Bin.start entry;
                Bin.end_ := Bin.end_ entry;
                Bin.count := (Bin.count entry + 1)%Z;
                Bin.distanceM :=
                  match distance_m with
                  | Some d => if Qtruthy d then Bin.distanceM entry + d
                              else Bin.distanceM entry
                  | None => Bin.distanceM entry
                  end |})
  end.

Abbreviation bin_maps :=
  (list (Z * Bin.t) * list (Z * Bin.t) * list (Z * Bin.t))%type.

(** The body of the loop of [build_distributions]; the state is
    [(pace_bins, hr_bins, distance_bins)]. *)
Definition distributions_step (st : bin_maps) (activity : Activity.t)
  : py bin_maps :=
  let '(pace_bins, hr_bins, distance_bins) := st in
  let distance_m := Activity.distanceM activity in
  let* pace_bins' :=
    add_bin pace_bins (Activity.paceSecPerKm activity) distance_m
            PACE_BIN_SEC in
  let* hr_bins' :=
    add_bin hr_bins (Activity.avgHr activity) distance_m HR_BIN_BPM in
  let* distance_bins' :=
    match distance_m with
    | Some _ => add_bin distance_bins distance_m distance_m DIST_BIN_M
    | None => Ret distance_bins
    end in
  Ret (pace_bins', hr_bins', distance_bins').

Fixpoint distributions_loop (st : bin_maps) (activities : list Activity.t)
  : py bin_maps :=
  match activities with
  | [] => Ret st
  | activity :: rest =>
      let* st' := distributions_step st activity in
      distributions_loop st' rest
  end.

Definition to_list (bin_map : list (Z * Bin.t)) : list Bin.t :=
  PySort.sort (fun a b => (Bin.start a <=? Bin.start b)%Z)
              (Dict.values bin_map).

Definition build_distributions (activities : list Activity.t)
  : py Distributions.t :=
  let* st := distributions_loop ([], [], []) activities in
  let '(pace_bins, hr_bins, distance_bins) := st in
  Ret {| Distributions.paceSecPerKm :=
           Histogram.mk PACE_BIN_SEC (to_list pace_bins);
         Distributions.avgHr := Histogram.mk HR_BIN_BPM (to_list hr_bins);
         Distributions.distanceM :=
           Histogram.mk DIST_BIN_M (to_list distance_bins) |}.

End Reports.
Export Reports.

(* ===================================================================== *)
(** * The batch loop of [main]                                            *)
(* ===================================================================== *)

Module Batch.
Section Batch.
Context `{PyLib}.

(** A [.fit] file: [path.stem], [path.name] and what the reader yields
    ([None] when it raises [FitError]). *)
Record fit_file := mk_file {
  f_stem : string;
  f_name : string;
  f_decoded : option (list frame)
}.

(** [for path in fit_files]: the activities appended so far and the
    shared cache. *)
Fixpoint parse_files (fit_files : list fit_file)
    (cities : option (list city_rec)) (max_city_km : option Q)
    (activities : list Activity.t)
    (city_cache : gmap cache_key lookup_result)
  : py (list Activity.t * gmap cache_key lookup_result) :=
  match fit_files with
  | [] => Ret (activities, city_cache)
  | path :: rest =>
      let* r := parse_fit_file (f_stem path) (f_name path) (f_decoded path)
                               cities city_cache max_city_km in
      match fst r with
      | None => parse_files rest cities max_city_km activities (snd r)
      | Some activity =>
          parse_files rest cities max_city_km
                      (activities ++ [activity])%list (snd r)
      end
  end.

(** The activities of a run: parsed with an empty cache, then sorted by
    [startTime]. *)
Definition load_activities (fit_files : list fit_file)
    (cities : option (list city_rec)) (max_city_km : option Q)
  : py (list Activity.t) :=
  let* r := parse_files fit_files cities max_city_km [] ∅ in
  Ret (PySort.sort
         (fun a b => String.leb (Activity.startTime a) (Activity.startTime b))
         (fst r)).

End Batch.
End Batch.
Export Batch.

(* ===================================================================== *)
(** * Garmin synchronisation ([scripts/sync_garmin.py])                   *)
(* ===================================================================== *)

Module Sync.

Definition PROXY_ENV_KEYS : list string :=
  ["HTTP_PROXY"; "HTTPS_PROXY"; "ALL_PROXY";
   "http_proxy"; "https_proxy"; "all_proxy"].

Definition NO_PROXY_KEYS : list string := ["NO_PROXY"; "no_proxy"].

(** [os.environ] is the map [environ]; [proxy] is the [--proxy] option. *)
Definition apply_proxy_env (proxy : option string) (use_env_proxy : bool)
    (environ : gmap string string) : gmap string string :=
  match proxy with
  | Some p =>
      if negb (String.eqb p "") then
        fold_left (fun env key => <[key := p]> env) PROXY_ENV_KEYS environ
      else if negb use_env_proxy then
        fold_left (fun env key => <[key := "*"]> env) NO_PROXY_KEYS
          (fold_left (fun env key => delete key env) PROXY_ENV_KEYS environ)
      else environ
  | None =>
      if negb use_env_proxy then
        fold_left (fun env key => <[key := "*"]> env) NO_PROXY_KEYS
          (fold_left (fun env key => delete key env) PROXY_ENV_KEYS environ)
      else environ
  end.

(** The target directory of [sync_fit_files]: the content of every entry
    directly in it, by name; names are told apart as they are written (a
    case-sensitive file system). *)

(** [s] without its ending [suffix], when it ends with it. *)
Fixpoint strip_suffix (suffix s : string) : option string :=
  if String.eqb s suffix then Some EmptyString
  else match s with
       | EmptyString => None
       | String c rest => option_map (String c) (strip_suffix suffix rest)
       end.

(** [path.stem] of an entry that [glob("*.fit")] yields: the name
    without its last suffix [.fit]; the name [.fit] itself has no suffix
    and is its own stem. *)
Definition fit_stem (name : string) : option string :=
  match strip_suffix ".fit" name with
  | Some EmptyString => Some name
  | o => o
  end.

(** [{path.stem for path in target_dir.glob("*.fit")}]. *)
Definition existing_stems (files : gmap string string) : gset string :=
  set_omap fit_stem (dom files).

(** An id without the path separator [/] and without a NUL
    character. *)
Fixpoint plain (activity_id : string) : bool :=
  match activity_id with
  | EmptyString => true
  | String c rest =>
      negb (Ascii.eqb c "/") && negb (Ascii.eqb c "000") && plain rest
  end.

(** [(target_dir / f"{activity_id}.fit").write_bytes(fit_data)]. For a
    [plain] id this creates or replaces the entry [activity_id.fit] of
    the directory. With a separator in the id the path can name a file
    elsewhere or an entry under another name; the model of one flat
    directory gives no result then. Failures of the file system (a full
    disk, a name that is too long) are not modelled. *)
Definition write_fit (files : gmap string string)
    (activity_id fit_data : string) : option (gmap string string) :=
  if plain activity_id
  then Some (<[activity_id +:+ ".fit" := fit_data]> files)
  else None.

Section Network.
Context `{PyLib}.

(** [fetch_activity_page(client, base_url, start, limit, only_run)] as
    seen by its caller: the decoded page for [start] and [limit], or the
    exception of the request. *)
Context (fetch_activity_page : Z -> Z -> py (list fields)).

(** [[str(item.get("activityId")) for item in page
      if item.get("activityId")]]. *)
Definition page_ids (page : list fields) : list string :=
  map (fun item => py_str (get item "activityId"))
      (List.filter (fun item => truthy (get item "activityId")) page).

(** The [while True] loop of [list_activity_ids], run for at most [fuel]
    pages; [None] when the pages are not exhausted by then. *)
Fixpoint list_activity_ids_loop (fuel : nat) (ids : list string) (start : Z)
  : option (py (list string)) :=
  let limit := 100%Z in
  match fuel with
  | O => None
  | S fuel' =>
      match fetch_activity_page start limit with
      | Raise e => Some (Raise e)
      | Ret page =>
          match page with
          | [] => Some (Ret ids)
          | _ :: _ =>
              let ids' := (ids ++ page_ids page)%list in
              if (Z.of_nat (length page) <? limit)%Z then Some (Ret ids')
              else list_activity_ids_loop fuel' ids' (start + limit)%Z
          end
      end
  end.

Definition list_activity_ids (fuel : nat) : option (py (list string)) :=
  list_activity_ids_loop fuel [] 0%Z.

(** [download_fit(client, base_url, activity_id)] as seen by its
    caller: the file's bytes, [None] for a 404, or an exception. *)
Context (download_fit : string -> py (option string)).

(** The loop of [sync_fit_files]. [files] is the target directory;
    [existing] is the set of stems seen before the loop. The result is
    the directory as the call leaves it and the returned count or the
    exception; there is none when an id is not [plain]. *)
Fixpoint sync_loop (existing : gset string) (activity_ids : list string)
    (files : gmap string string) (downloaded : Z)
  : option (gmap string string * py Z) :=
  match activity_ids with
  | [] => Some (files, Ret downloaded)
  | activity_id :: rest =>
      if decide (activity_id ∈ existing)
      then sync_loop existing rest files downloaded
      else match download_fit activity_id with
           | Raise e => Some (files, Raise e)
           | Ret None => sync_loop existing rest files downloaded
           | Ret (Some fit_data) =>
               match write_fit files activity_id fit_data with
               | Some files' =>
                   sync_loop existing rest files' (downloaded + 1)%Z
               | None => None
               end
           end
  end.

Definition sync_fit_files (activity_ids : list string)
    (files : gmap string string) : option (gmap string string * py Z) :=
  sync_loop (existing_stems files) activity_ids files 0%Z.

End Network.
End Sync.

(* ===================================================================== *)
(** * Reference notions for the reports, the batch and the sync           *)
(* ===================================================================== *)

Module Reference2.
Section Reference2.
Context `{PyLib}.

(** The UTC instants of the records that carry a timestamp. *)
Definition record_instants (records : list fields) : list Z :=
  omap (fun record =>
          match get record "timestamp" with
          | PyDatetime d =>
              Some (match tz_offset_us d with
                    | None => wall_us d
                    | Some off => (wall_us d - off)%Z
                    end)
          | _ => None
          end) records.

(** The heart-rate samples that convert to a number. *)
Definition heart_rates (records : list fields) : list Q :=
  omap (fun record => py_float (get record "heart_rate")) records.

(** What the listing is to give for the activities [all]: [str()] of
    the ["activityId"] of each one that has a truthy one, in order. *)
Definition truthy_ids (all : list fields) : list string :=
  omap (fun item =>
          match item !! "activityId" with
          | Some v => if truthy v then Some (py_str v) else None
          | None => None
          end) all.


(** The value [parse_fit_file] takes as start time. *)
Definition start_value (session : fields) : pyval :=
  if truthy (get session "start_time") then get session "start_time"
  else get session "timestamp".

(** The cache key of an activity's start position. *)
Definition start_key (a : Activity.t) : option cache_key :=
  match Activity.lat a, Activity.lon a with
  | Some la, Some lo => Some (round3 la, round3 lo)
  | _, _ => None
  end.

(** City, country and region of an activity. *)
Definition labels (a : Activity.t)
  : option string * option string * option string :=
  (Activity.city a, Activity.country a, Activity.admin1 a).

(** The labels [parse_fit_file] derives from a lookup result. *)
Definition labels_of (r : lookup_result)
  : option string * option string * option string :=
  match fst r with
  | Some c => (Some (or_str (c_city c) "unknown"), c_country c, c_admin1 c)
  | None => (Some "unknown", None, None)
  end.

(** Every activity with a start key has its labels from the cache entry
    under that key. *)
Definition labelled_from (cache : gmap cache_key lookup_result)
    (activities : list Activity.t) : Prop :=
  forall a k, In a activities -> start_key a = Some k ->
    exists r, cache !! k = Some r /\ labels a = labels_of r.

End Reference2.

(** The bin a value falls in. *)
Definition bin_start (bin_size : Z) (v : Q) : Z :=
  (Qfloor (v / inject_Z bin_size) * bin_size)%Z.

(** A sample: the binned value and the activity's distance. *)
Abbreviation sample := (option Q * option Q)%type.

Definition in_bin (bin_size k : Z) (s : sample) : bool :=
  match fst s with
  | Some v => (bin_start bin_size v =? k)%Z
  | None => false
  end.

(** Distance attributed to a bin: the truthy distances, added from the
    left. *)
Definition bin_distance (samples : list sample) : Q :=
  fold_left
    (fun acc s => match snd s with
                  | Some d => if Qtruthy d then acc + d else acc
                  | None => acc
                  end)
    samples 0.

(** What a bin map holds once [samples] have been added with
    [bin_size]. *)
Definition bins_hold (bin_size : Z) (samples : list sample)
    (bin_map : list (Z * Bin.t)) : Prop :=
  forall k,
    match Dict.get bin_map k with
    | Some e =>
        Bin.start e = k /\ Bin.end_ e = (k + bin_size)%Z /\
        Bin.count e
          = Z.of_nat (length (List.filter (in_bin bin_size k) samples)) /\
        Bin.distanceM e
          = bin_distance (List.filter (in_bin bin_size k) samples) /\
        List.filter (in_bin bin_size k) samples <> []
    | None => List.filter (in_bin bin_size k) samples = []
    end.

Definition pace_samples (activities : list Activity.t) : list sample :=
  map (fun a => (Activity.paceSecPerKm a, Activity.distanceM a)) activities.
Definition hr_samples (activities : list Activity.t) : list sample :=
  map (fun a => (Activity.avgHr a, Activity.distanceM a)) activities.
Definition distance_samples (activities : list Activity.t) : list sample :=
  map (fun a => (Activity.distanceM a, Activity.distanceM a)) activities.

Definition bin_lt (a b : Bin.t) : Prop := (Bin.start a < Bin.start b)%Z.

(** A histogram built from [samples]: strictly increasing bins, each
    holding the count and the distance of the samples that fall in it,
    and no empty bin. *)
Definition histogram_of (bin_size : Z) (samples : list sample)
    (h : Histogram.t) : Prop :=
  Histogram.binSize h = bin_size /\
  StronglySorted bin_lt (Histogram.bins h) /\
  (forall b, In b (Histogram.bins h) ->
     Bin.end_ b = (Bin.start b + bin_size)%Z /\
     (Bin.start b mod bin_size = 0)%Z /\
     (1 <= Bin.count b)%Z /\
     Bin.count b = Z.of_nat
       (length (List.filter (in_bin bin_size (Bin.start b)) samples)) /\
     Bin.distanceM b =
       bin_distance (List.filter (in_bin bin_size (Bin.start b)) samples)) /\
  (forall v d, In (Some v, d) samples ->
     exists b, In b (Histogram.bins h) /\
               inject_Z (Bin.start b) <= v /\ v < inject_Z (Bin.end_ b)).

(** The days counted by a list of monthly entries. *)
Definition monthly_days (l : list Monthly.t) : Z :=
  fold_right Z.add 0%Z (map Monthly.days l).

Definition month_lt (a b : Monthly.t) : Prop :=
  (Monthly.year a < Monthly.year b)%Z \/
  (Monthly.year a = Monthly.year b /\ (Monthly.month a < Monthly.month b)%Z).

(** A date of the form [Y-M-D] whose year and month [int_of_str]
    reads. *)
Definition month_of (int_of_str : string -> option Z) (date : string)
  : option month_key :=
  match split_dash date with
  | [year; month; _] =>
      match int_of_str year, int_of_str month with
      | Some y, Some m => Some (y, m)
      | _, _ => None
      end
  | _ => None
  end.

(** The server keeps the list [all] and answers a request with the
    slice [all[start : start + limit]]. *)
Definition serves (fetch : Z -> Z -> py (list fields)) (all : list fields)
  : Prop :=
  forall start limit,
    (0 <= start)%Z -> (0 <= limit)%Z ->
    fetch start limit
      = Ret (firstn (Z.to_nat limit) (skipn (Z.to_nat start) all)).

(** An id that [sync_fit_files] writes: its stem was not in the
    directory before the call, and the download serves it. *)
Definition fetched (download : string -> py (option string))
    (existing : gset string) (activity_id : string) : bool :=
  if decide (activity_id ∈ existing) then false
  else match download activity_id with
       | Ret (Some _) => true
       | _ => false
       end.

End Reference2.
Export Reference2.

(** Invariants of the grouping loops of the reports. *)
Module Invariants.

Definition in_month (int_of_str : string -> option Z) (k : month_key)
    (day : Daily.t) : bool :=
  match month_of int_of_str (Daily.date day) with
  | Some k' => (fst k' =? fst k)%Z && (snd k' =? snd k)%Z
  | None => false
  end.

(** What the dictionary of [build_monthly] holds once [days] have been
    read. *)
Definition monthly_holds (int_of_str : string -> option Z)
    (days : list Daily.t) (monthly : list (month_key * Monthly.t)) : Prop :=
  forall k,
    match Dict.get monthly k with
    | Some e =>
        (Monthly.year e, Monthly.month e) = k /\
        Monthly.days e
          = Z.of_nat (length (List.filter (in_month int_of_str k) days)) /\
        Monthly.distanceM e
          = fold_left (fun acc d => acc + Daily.distanceM d)
              (List.filter (in_month int_of_str k) days) 0 /\
        Monthly.durationS e
          = fold_left (fun acc d => acc + Daily.durationS d)
              (List.filter (in_month int_of_str k) days) 0 /\
        List.filter (in_month int_of_str k) days <> []
    | None => List.filter (in_month int_of_str k) days = []
    end.

(** Everything the loop of [build_monthly] keeps, for the days read so
    far. *)
Definition monthly_inv (int_of_str : string -> option Z)
    (days : list Daily.t) (monthly : list (month_key * Monthly.t)) : Prop :=
  monthly_holds int_of_str days monthly /\
  NoDup (Dict.keys monthly) /\
  fold_right Z.add 0%Z (map Monthly.days (Dict.values monthly))
    = Z.of_nat (length days).

(** The three bin maps of [build_distributions] after [activities]. *)
Definition distributions_hold (activities : list Activity.t)
    (st : bin_maps) : Prop :=
  bins_hold PACE_BIN_SEC (pace_samples activities) (fst (fst st)) /\
  bins_hold HR_BIN_BPM (hr_samples activities) (snd (fst st)) /\
  bins_hold DIST_BIN_M (distance_samples activities) (snd st).

End Invariants.
Export Invariants.

(** Sample inputs for the reports, the batch and the sync. *)
Module Sample2.

Definition int_of_str (s : string) : option Z :=
  match s with
  | EmptyString => None
  | _ => Sample.digits_value s 0
  end.

Definition day (date : string) (d t : Q) : Daily.t := Daily.mk date d t [].

Definition three_days : list Daily.t :=
  [day "2024-04-30" 1000 300; day "2024-05-01" 5000 1500;
   day "2024-05-02" 3000 900].

(** A run with two timestamped records and two heart-rate samples. *)
Definition timed_records : list (list (string * pyval)) :=
  [[("timestamp", PyDatetime (mk_datetime 1000000 None));
    ("heart_rate", PyInt 140)];
   [("heart_rate", PyStr "n/a")];
   [("timestamp", PyDatetime (mk_datetime 61000000 None));
    ("heart_rate", PyInt 150)]].
Definition timed_run : list frame :=
  Sample.session_of [] :: map Sample.record_of timed_records.



Definition file (stem : string) (frames : list frame) : fit_file :=
  mk_file stem (stem +:+ ".fit") (Some frames).

(** Two runs that start within the same rounded coordinate. *)
Definition start_at (la lo : Q) : list frame :=
  [Sample.session_of [("start_position_lat", PyFloat la);
                      ("start_position_long", PyFloat lo)]].
Definition two_files : list fit_file :=
  [file "r1" (start_at (10001 # 10000) 1);
   file "r2" (start_at (10002 # 10000) 1)].

(** A server with 250 activities numbered from 1, after one without an
    id and one whose id is 0. *)
Definition item (n : nat) : fields :=
  {[ "activityId" := PyInt (Z.of_nat (S n)) ]}.
Definition server_items : list fields :=
  ∅ :: {[ "activityId" := PyInt 0 ]} :: map item (seq 0 250).
Definition server (start limit : Z) : py (list fields) :=
  Ret (firstn (Z.to_nat limit) (skipn (Z.to_nat start) server_items)).

(** A download that serves every id but ["404"]. *)
Definition download (activity_id : string) : py (option string) :=
  if String.eqb activity_id "404" then Ret None else Ret (Some "FIT").

End Sample2.

(* ===================================================================== *)
(** * Comparisons on numbers                                              *)
(* ===================================================================== *)

Lemma Qgtb_true (x y : Q) : Qgtb x y = true <-> y < x.
Proof.
  unfold Qgtb. rewrite negb_true_iff, <- not_true_iff_false, Qle_bool_iff.
  split; [apply Qnot_le_lt | apply Qlt_not_le].
Qed.

Lemma Qgtb_false (x y : Q) : Qgtb x y = false <-> x <= y.
Proof.
  unfold Qgtb. rewrite negb_false_iff. apply Qle_bool_iff.
Qed.

Lemma Qltb_true (x y : Q) : Qltb x y = true <-> x < y.
Proof. apply (Qgtb_true y x). Qed.

Lemma Qltb_false (x y : Q) : Qltb x y = false <-> y <= x.
Proof. apply (Qgtb_false y x). Qed.

Lemma Qtruthy_true (x : Q) : Qtruthy x = true <-> ~ x == 0.
Proof.
  unfold Qtruthy. rewrite negb_true_iff, <- not_true_iff_false, Qeq_bool_iff.
  tauto.
Qed.

Lemma Qtruthy_false (x : Q) : Qtruthy x = false <-> x == 0.
Proof.
  unfold Qtruthy. rewrite negb_false_iff. apply Qeq_bool_iff.
Qed.

(* ===================================================================== *)
(** * Coordinate normalisation                                            *)
(* ===================================================================== *)

Section NormalizeFacts.
Context `{PyLib}.

Lemma py_float_not_none (v : pyval) (x : Q) :
  py_float v = Some x -> is_none v = false.
Proof. destruct v; simpl; congruence. Qed.

Lemma normalize_lat_lon_number (v : pyval) (x : Q) :
  py_float v = Some x ->
  normalize_lat_lon v =
    if Qgtb (Qabs x) 180 then Some (semicircles_to_deg x) else Some x.
Proof.
  intros Hx. unfold normalize_lat_lon.
  rewrite (py_float_not_none v x Hx), Hx. reflexivity.
Qed.

(** C7. A numeric value whose magnitude exceeds 180 is normalised to
    [v * 180 / 2^31]; a value within [-180, 180] is returned unchanged.
    In particular 2147483648 becomes 180 and 45.0 stays 45.0. *)
Theorem normalize_lat_lon_semicircles (v : pyval) (x : Q) :
  py_float v = Some x ->
  (180 < Qabs x -> normalize_lat_lon v = Some (x * 180 / 2 ^ 31)) /\
  (-180 <= x /\ x <= 180 -> normalize_lat_lon v = Some x) /\
  (exists q, normalize_lat_lon (PyInt 2147483648) = Some q /\ q == 180) /\
  normalize_lat_lon (PyFloat 45) = Some 45.
Proof.
  intros Hx. rewrite (normalize_lat_lon_number v x Hx).
  repeat split.
  - intros Hbig. apply Qgtb_true in Hbig. rewrite Hbig. reflexivity.
  - intros Hin. pose proof (proj2 (Qabs_Qle_condition x 180) Hin) as Habs.
    apply Qgtb_false in Habs. rewrite Habs. reflexivity.
  - eexists. split; reflexivity.
Qed.

End NormalizeFacts.

Lemma normalize_lat_lon_semicircles_witness :
  @normalize_lat_lon Sample.lib (PyFloat 200) = Some (200 * 180 / 2 ^ 31).
Proof.
  apply (proj1 (@normalize_lat_lon_semicircles Sample.lib (PyFloat 200) 200
                  eq_refl)).
  reflexivity.
Defined.

(* ===================================================================== *)
(** * Nearest-city search                                                 *)
(* ===================================================================== *)

Section NearestFacts.
Context `{PyLib}.

Lemma scan_snoc (lat lon : Q) (cities : list city_rec) (x : city_rec) :
  fold_left (nearest_step lat lon) (cities ++ [x]) (None, None) =
  nearest_step lat lon (fold_left (nearest_step lat lon) cities (None, None)) x.
Proof. rewrite fold_left_app. reflexivity. Qed.

(** The loop invariant: after scanning [cities] the state holds the
    first nearest city and its distance. *)
Lemma scan_first_nearest (lat lon : Q) (cities : list city_rec) :
  (cities = [] /\
   fold_left (nearest_step lat lon) cities (None, None) = (None, None)) \/
  (exists i c, first_nearest lat lon cities i c /\
     fold_left (nearest_step lat lon) cities (None, None) =
       (Some c, Some (km_to lat lon c))).
Proof.
  induction cities as [| x l IH] using rev_ind.
  - left. split; reflexivity.
  - right. rewrite scan_snoc.
    destruct IH as [[-> Hst] | (i & c & (Hi & Hmin & Hfirst) & Hst)];
      rewrite Hst; unfold nearest_step; simpl.
    + exists 0%nat, x. split; [| reflexivity].
      split; [reflexivity |]. split.
      * intros c' [<- | []]. apply Qle_refl.
      * intros j c' Hj. lia.
    + fold (km_to lat lon x).
      destruct (Qltb (km_to lat lon x) (km_to lat lon c)) eqn:Hlt.
      * apply Qltb_true in Hlt.
        exists (length l), x. split; [| reflexivity].
        split; [apply list_lookup_middle; reflexivity |]. split.
        -- intros c' Hin. apply in_app_or in Hin as [Hin | [<- | []]].
           ++ apply Qlt_le_weak. eapply Qlt_le_trans; [exact Hlt | auto].
           ++ apply Qle_refl.
        -- intros j c' Hj Hj'. rewrite lookup_app_l in Hj' by exact Hj.
           eapply Qlt_le_trans; [exact Hlt |]. apply Hmin.
           apply list_elem_of_In. eapply list_elem_of_lookup_2. exact Hj'.
      * apply Qltb_false in Hlt.
        pose proof (lookup_lt_Some _ _ _ Hi) as Hlen.
        exists i, c. split; [| reflexivity].
        split; [rewrite lookup_app_l by exact Hlen; exact Hi |]. split.
        -- intros c' Hin. apply in_app_or in Hin as [Hin | [<- | []]]; auto.
        -- intros j c' Hj Hj'. apply (Hfirst j c' Hj).
           rewrite lookup_app_l in Hj' by lia. exact Hj'.
Qed.




End NearestFacts.

(* ===================================================================== *)
(** * The lookup cache                                                    *)
(* ===================================================================== *)

Section CacheFacts.
Context `{PyLib}.

Lemma city_lookup_hit (lat lon : Q) (cities : list city_rec)
    (cache : gmap cache_key lookup_result) (max_km : option Q)
    (r : lookup_result) :
  cache !! (round3 lat, round3 lon) = Some r ->
  city_lookup (Some lat) (Some lon) cities cache max_km = (r, cache).
Proof. intros Hhit. unfold city_lookup. rewrite Hhit. reflexivity. Qed.

(** After a lookup the cache holds the returned result under the key. *)
Lemma city_lookup_stores (lat lon : Q) (cities : list city_rec)
    (cache : gmap cache_key lookup_result) (max_km : option Q) :
  snd (city_lookup (Some lat) (Some lon) cities cache max_km)
    !! (round3 lat, round3 lon)
  = Some (fst (city_lookup (Some lat) (Some lon) cities cache max_km)).
Proof.
  unfold city_lookup.
  destruct (cache !! (round3 lat, round3 lon)) as [r |] eqn:Hc; simpl.
  - exact Hc.
  - apply lookup_insert_eq.
Qed.

(** No call overwrites or removes an entry. *)
Lemma city_lookup_keeps (lat lon : option Q) (cities : list city_rec)
    (cache : gmap cache_key lookup_result) (max_km : option Q)
    (k : cache_key) (r : lookup_result) :
  cache !! k = Some r ->
  snd (city_lookup lat lon cities cache max_km) !! k = Some r.
Proof.
  intros Hk. unfold city_lookup.
  destruct lat as [la |], lon as [lo |]; simpl; try exact Hk.
  destruct (cache !! (round3 la, round3 lo)) as [r' |] eqn:Hc; simpl.
  - exact Hk.
  - rewrite lookup_insert_ne; [exact Hk |]. intros <-. congruence.
Qed.

Lemma run_lookups_keeps (calls : list lookup_call)
    (cache : gmap cache_key lookup_result)
    (k : cache_key) (r : lookup_result) :
  cache !! k = Some r -> run_lookups calls cache !! k = Some r.
Proof.
  revert cache. induction calls as [| c calls IH]; intros cache Hk.
  - exact Hk.
  - apply IH. apply city_lookup_keeps. exact Hk.
Qed.

(** A lookup that misses the cache searches at its own coordinates and
    stores what the search gives under the rounded key. *)
Lemma city_lookup_miss (lat lon : Q) (cities : list city_rec)
    (cache : gmap cache_key lookup_result) (max_km : option Q) :
  cache !! (round3 lat, round3 lon) = None ->
  city_lookup (Some lat) (Some lon) cities cache max_km =
    (find_nearest_city lat lon cities max_km,
     <[(round3 lat, round3 lon) := find_nearest_city lat lon cities max_km]>
       cache).
Proof. intros Hmiss. unfold city_lookup. rewrite Hmiss. reflexivity. Qed.

(** C6. Two lookups whose coordinates agree after rounding to three
    decimals. The earlier one, when the cache has no entry under the
    rounded key, returns the result of a nearest-city search at its own
    coordinates and stores it under that key (with an entry it returns
    the entry and stores nothing). The later one, whatever calls came
    between and whatever coordinates, city list and radius it is given,
    returns the result of the earlier one and leaves the cache as it
    is: it makes no search of its own. A negative result of the
    earlier search (no city, with or without a distance) comes back the
    same way. *)
Theorem city_lookup_cached (lat1 lon1 lat2 lon2 : Q)
    (cities1 cities2 : list city_rec) (max1 max2 : option Q)
    (cache0 : gmap cache_key lookup_result) (between : list lookup_call) :
  round3 lat1 = round3 lat2 ->
  round3 lon1 = round3 lon2 ->
  let key := (round3 lat1, round3 lon1) in
  let first := city_lookup (Some lat1) (Some lon1) cities1 cache0 max1 in
  let cache := run_lookups between (snd first) in
  first =
    match cache0 !! key with
    | Some cached => (cached, cache0)
    | None =>
        (find_nearest_city lat1 lon1 cities1 max1,
         <[key := find_nearest_city lat1 lon1 cities1 max1]> cache0)
    end /\
  snd first !! key = Some (fst first) /\
  cache !! key = Some (fst first) /\
  city_lookup (Some lat2) (Some lon2) cities2 cache max2
    = (fst first, cache) /\
  (cache0 !! key = None ->
   forall d, find_nearest_city lat1 lon1 cities1 max1 = (None, d) ->
     city_lookup (Some lat2) (Some lon2) cities2 cache max2
       = ((None, d), cache)).
Proof.
  intros Hlat Hlon key first cache.
  assert (Hfirst : first =
            match cache0 !! key with
            | Some cached => (cached, cache0)
            | None =>
                (find_nearest_city lat1 lon1 cities1 max1,
                 <[key := find_nearest_city lat1 lon1 cities1 max1]> cache0)
            end).
  { unfold first, key.
    destruct (cache0 !! (round3 lat1, round3 lon1)) as [r |] eqn:Hc.
    - apply city_lookup_hit. exact Hc.
    - apply city_lookup_miss. exact Hc. }
  assert (Hstored : snd first !! key = Some (fst first))
    by apply city_lookup_stores.
  assert (Hkept : cache !! key = Some (fst first))
    by (apply run_lookups_keeps; exact Hstored).
  assert (Hsecond : city_lookup (Some lat2) (Some lon2) cities2 cache max2
                    = (fst first, cache)).
  { apply city_lookup_hit. rewrite <- Hlat, <- Hlon. exact Hkept. }
  split; [exact Hfirst |]. split; [exact Hstored |].
  split; [exact Hkept |]. split; [exact Hsecond |].
  intros Hmiss d Hneg. rewrite Hsecond. f_equal.
  rewrite Hfirst. fold key in Hmiss. rewrite Hmiss. exact Hneg.
Qed.

End CacheFacts.

(** The two coordinates of the specification's example share a key. *)
Example round3_same_key :
  (round3 (312304 # 10000), round3 (1214737 # 10000)) = (31230, 121474)%Z /\
  (round3 (3123041 # 100000), round3 (12147372 # 100000)) = (31230, 121474)%Z.
Proof. split; reflexivity. Qed.

(** Ties go to the even neighbour. *)
Example round3_ties :
  round3 (625 # 10000) = 62%Z /\ round3 (1875 # 10000) = 188%Z /\
  round3 (-625 # 10000) = (-62)%Z.
Proof. repeat split. Qed.

(* ===================================================================== *)
(** * The record loop                                                     *)
(* ===================================================================== *)

Section ScanFacts.
Context `{PyLib}.

Lemma scan_record_inv (st st' : scan) (record : fields) :
  scan_record st record = Ret st' ->
  exists ts,
    st' = scan_position record
            (scan_heart_rate record
               (scan_distance record (scan_timestamp ts st))).
Proof.
  unfold scan_record.
  destruct (ensure_utc (get record "timestamp")) as [ts | e]; simpl.
  - intros [= <-]. exists ts. reflexivity.
  - discriminate.
Qed.

Lemma scan_records_cons (st st' : scan) (record : fields)
    (rest : list fields) :
  scan_records st (record :: rest) = Ret st' ->
  exists st1, scan_record st record = Ret st1 /\
              scan_records st1 rest = Ret st'.
Proof.
  simpl. destruct (scan_record st record) as [st1 | e]; simpl.
  - intros Hrest. exists st1. split; [reflexivity | exact Hrest].
  - discriminate.
Qed.

(** ** Last distance *)

Lemma last_distance_timestamp ts st :
  last_distance (scan_timestamp ts st) = last_distance st.
Proof. destruct ts; reflexivity. Qed.

Lemma last_distance_heart_rate record st :
  last_distance (scan_heart_rate record st) = last_distance st.
Proof.
  unfold scan_heart_rate.
  destruct (negb _); [destruct (py_float _) |]; reflexivity.
Qed.

Lemma last_distance_position record st :
  last_distance (scan_position record st) = last_distance st.
Proof.
  unfold scan_position.
  destruct (first_lat st), (first_lon st),
    (normalize_lat_lon (get record "position_lat")),
    (normalize_lat_lon (get record "position_long")); reflexivity.
Qed.

Lemma last_distance_distance record st :
  last_distance (scan_distance record st) =
    match py_float (get record "distance") with
    | Some d => Some d
    | None => last_distance st
    end.
Proof.
  unfold scan_distance.
  destruct (get record "distance"); simpl; try reflexivity.
  - destruct (float_of_str s); reflexivity.
  - destruct number; reflexivity.
Qed.

Lemma record_distances_cons (record : fields) (rest : list fields) :
  record_distances (record :: rest) =
    match py_float (get record "distance") with
    | Some d => d :: record_distances rest
    | None => record_distances rest
    end.
Proof. reflexivity. Qed.

Lemma scan_records_last_distance (records : list fields) (st st' : scan) :
  scan_records st records = Ret st' ->
  last_distance st' =
    match last (record_distances records) with
    | Some d => Some d
    | None => last_distance st
    end.
Proof.
  revert st. induction records as [| record rest IH]; intros st Hscan.
  - injection Hscan as <-. reflexivity.
  - apply scan_records_cons in Hscan as (st1 & Hone & Hrest).
    apply scan_record_inv in Hone as (ts & ->).
    rewrite (IH _ Hrest).
    rewrite last_distance_position, last_distance_heart_rate,
      last_distance_distance, last_distance_timestamp.
    rewrite record_distances_cons.
    destruct (py_float (get record "distance")) as [d |].
    + rewrite last_cons. destruct (last (record_distances rest)); reflexivity.
    + reflexivity.
Qed.

(** ** First valid position *)

Lemma first_pos_timestamp ts st :
  first_lat (scan_timestamp ts st) = first_lat st /\
  first_lon (scan_timestamp ts st) = first_lon st.
Proof. destruct ts; split; reflexivity. Qed.

Lemma first_pos_distance record st :
  first_lat (scan_distance record st) = first_lat st /\
  first_lon (scan_distance record st) = first_lon st.
Proof.
  unfold scan_distance.
  destruct (negb _); [destruct (py_float _) |]; split; reflexivity.
Qed.

Lemma first_pos_heart_rate record st :
  first_lat (scan_heart_rate record st) = first_lat st /\
  first_lon (scan_heart_rate record st) = first_lon st.
Proof.
  unfold scan_heart_rate.
  destruct (negb _); [destruct (py_float _) |]; split; reflexivity.
Qed.

Lemma scan_record_position (st st' : scan) (record : fields) :
  paired st ->
  scan_record st record = Ret st' ->
  paired st' /\
  first_pos st' =
    match first_pos st with
    | Some p => Some p
    | None => first_valid_position [record]
    end.
Proof.
  intros [Hla Hlo] Hone.
  apply scan_record_inv in Hone as (ts & ->).
  set (st3 := scan_heart_rate record
                (scan_distance record (scan_timestamp ts st))).
  assert (Hsame : first_lat st3 = first_lat st /\ first_lon st3 = first_lon st).
  { unfold st3.
    destruct (first_pos_heart_rate record
                (scan_distance record (scan_timestamp ts st))) as [-> ->].
    destruct (first_pos_distance record (scan_timestamp ts st)) as [-> ->].
    apply first_pos_timestamp. }
  destruct Hsame as [Hla3 Hlo3].
  unfold paired, first_pos, scan_position in *. simpl.
  rewrite Hla3, Hlo3.
  destruct (first_lat st) as [la |], (first_lon st) as [lo |];
    simpl in *; try discriminate;
    try (rewrite Hla3, Hlo3; simpl; split; [split |]; reflexivity).
  destruct (normalize_lat_lon (get record "position_lat")) as [la |],
    (normalize_lat_lon (get record "position_long")) as [lo |];
    simpl; rewrite ?Hla3, ?Hlo3; simpl; split; try split; reflexivity.
Qed.

Lemma scan_records_position (records : list fields) (st st' : scan) :
  paired st ->
  scan_records st records = Ret st' ->
  paired st' /\
  first_pos st' =
    match first_pos st with
    | Some p => Some p
    | None => first_valid_position records
    end.
Proof.
  revert st. induction records as [| record rest IH]; intros st Hp Hscan.
  - injection Hscan as <-. split; [exact Hp |].
    destruct (first_pos st); reflexivity.
  - apply scan_records_cons in Hscan as (st1 & Hone & Hrest).
    destruct (scan_record_position st st1 record Hp Hone) as [Hp1 H1].
    destruct (IH st1 Hp1 Hrest) as [Hp' H'].
    split; [exact Hp' |]. rewrite H', H1.
    destruct (first_pos st); [reflexivity |]. simpl.
    destruct (normalize_lat_lon (get record "position_lat")),
      (normalize_lat_lon (get record "position_long")); reflexivity.
Qed.

Lemma scan_init_position (records : list fields) (st : scan) :
  scan_records scan_init records = Ret st ->
  first_lat st = fst <$> first_valid_position records /\
  first_lon st = snd <$> first_valid_position records.
Proof.
  intros Hscan.
  destruct (scan_records_position records scan_init st) as [[Hla Hlo] Hpos];
    [split; reflexivity | exact Hscan |].
  simpl in Hpos. rewrite Hpos in Hla, Hlo. split; assumption.
Qed.

End ScanFacts.

(* ===================================================================== *)
(** * The extractor                                                       *)
(* ===================================================================== *)

Section ExtractorFacts.
Context `{PyLib}.

(** What a returned activity was built from. *)
Lemma parse_fit_file_returned (stem name : string)
    (decoded : option (list frame)) (cities : option (list city_rec))
    (cache cache' : gmap cache_key lookup_result) (max_km : option Q)
    (a : Activity.t) :
  parse_fit_file stem name decoded cities cache max_km = Ret (Some a, cache') ->
  exists frames session records st city_name,
    decoded = Some frames /\
    read_frames frames = (Some session, records) /\
    scan_records scan_init records = Ret st /\
    Activity.distanceM a = pick_distance session st /\
    Activity.durationS a = pick_duration session st /\
    pick_pace (Activity.distanceM a) (Activity.durationS a)
      = Ret (Activity.paceSecPerKm a) /\
    Activity.lat a =
      or_num (normalize_lat_lon (get session "start_position_lat"))
             (first_lat st) /\
    Activity.lon a =
      or_num (normalize_lat_lon (get session "start_position_long"))
             (first_lon st) /\
    Activity.city a = Some city_name /\
    resolve_city (Activity.lat a) (Activity.lon a) cities cache max_km
      = ((city_name, Activity.country a, Activity.admin1 a), cache').
Proof.
  unfold parse_fit_file. intros Hp.
  destruct decoded as [frames |]; [| discriminate].
  destruct (read_frames frames) as [[session |] records] eqn:Hframes;
    [| discriminate].
  destruct (negb _); [discriminate |].
  destruct (ensure_utc _) as [[start |] | e]; simpl in Hp; try discriminate.
  destruct (scan_records scan_init records) as [st | e] eqn:Hscan;
    simpl in Hp; [| discriminate].
  destruct (pick_avg_hr session st) as [avg | e]; simpl in Hp;
    [| discriminate].
  destruct (pick_pace _ _) as [pace | e] eqn:Hpace; simpl in Hp;
    [| discriminate].
  destruct (resolve_city _ _ _ _ _) as [[[cn co] ad] c2] eqn:Hres.
  injection Hp as <- <-. simpl.
  exists frames, session, records, st, cn.
  repeat (split; [reflexivity || assumption |]). exact Hres.
Qed.

(** ** Pace *)

Lemma py_div_nonzero (x y : Q) : ~ y == 0 -> py_div x y = Ret (x / y).
Proof.
  intros Hy. unfold py_div.
  destruct (Qeq_bool y 0) eqn:E; [| reflexivity].
  apply Qeq_bool_iff in E. contradiction.
Qed.

Lemma pick_pace_positive (d t : Q) :
  0 < d -> ~ t == 0 -> pick_pace (Some d) (Some t) = Ret (Some (t / (d / 1000))).
Proof.
  intros Hd Ht. unfold pick_pace.
  assert (Hd0 : ~ d == 0) by (intros E; rewrite E in Hd; discriminate Hd).
  rewrite (proj2 (Qtruthy_true d) Hd0), (proj2 (Qtruthy_true t) Ht),
    (proj2 (Qgtb_true d 0) Hd). cbv [andb].
  rewrite (py_div_nonzero d 1000) by discriminate. cbv [bind].
  rewrite py_div_nonzero; [reflexivity |].
  intros E. apply Hd0.
  assert (Hsplit : d == (d / 1000) * 1000) by field.
  rewrite Hsplit, E. reflexivity.
Qed.

(** On exact rationals the pace step returns, and decides as follows. *)
Lemma pick_pace_cases (dm ds : option Q) :
  (exists d t, dm = Some d /\ ds = Some t /\ 0 < d /\ ~ t == 0 /\
               pick_pace dm ds = Ret (Some (t / (d / 1000)))) \/
  (pick_pace dm ds = Ret None /\
   ~ exists d t, dm = Some d /\ ds = Some t /\ 0 < d /\ ~ t == 0).
Proof.
  destruct dm as [d |], ds as [t |];
    try (right; split; [reflexivity | intros (? & ? & ? & ? & _); congruence]).
  destruct (Qlt_le_dec 0 d) as [Hd | Hd].
  - destruct (Qeq_dec t 0) as [Ht | Ht].
    + right. split.
      * unfold pick_pace. rewrite (proj2 (Qtruthy_false t) Ht).
        rewrite andb_false_r. reflexivity.
      * intros (d' & t' & [= <-] & [= <-] & _ & Hn). contradiction.
    + left. exists d, t. repeat (split; [reflexivity || assumption |]).
      apply pick_pace_positive; assumption.
  - right. split.
    + unfold pick_pace. rewrite (proj2 (Qgtb_false d 0) Hd).
      rewrite andb_false_r. reflexivity.
    + intros (d' & t' & [= <-] & _ & Hpos & _).
      exact (Qlt_not_le _ _ Hpos Hd).
Qed.

(** C1 (amended). In a returned activity [paceSecPerKm] is present if
    and only if [distanceM] and [durationS] are present, [distanceM] is
    positive and [durationS] is not zero; when present it equals
    [durationS / (distanceM / 1000)]. *)
Theorem pace_present_iff (stem name : string)
    (decoded : option (list frame)) (cities : option (list city_rec))
    (cache cache' : gmap cache_key lookup_result) (max_km : option Q)
    (a : Activity.t) :
  parse_fit_file stem name decoded cities cache max_km = Ret (Some a, cache') ->
  (Activity.paceSecPerKm a <> None <->
   exists d t, Activity.distanceM a = Some d /\
               Activity.durationS a = Some t /\ 0 < d /\ ~ t == 0) /\
  (forall p, Activity.paceSecPerKm a = Some p ->
     exists d t, Activity.distanceM a = Some d /\
                 Activity.durationS a = Some t /\ p = t / (d / 1000)).
Proof.
  intros Hp.
  apply parse_fit_file_returned in Hp
    as (frames & session & records & st & cn & _ & _ & _ & _ & _ & Hpace & _).
  destruct (pick_pace_cases (Activity.distanceM a) (Activity.durationS a))
    as [(d & t & Hd & Ht & Hpos & Hnz & Hret) | [Hret Hno]];
    rewrite Hret in Hpace; injection Hpace as Hpace.
  - split.
    + split; [intros _; exists d, t; auto | intros _; congruence].
    + intros p Hpv. exists d, t. repeat split; auto. congruence.
  - split.
    + split; [congruence | intros Hex; contradiction].
    + intros p Hpv. congruence.
Qed.

(** ** Distance *)

Lemma coerce_of_float (o : option Q) : coerce (of_float o) = o.
Proof. destruct o; reflexivity. Qed.

Lemma coerce_py_float (v : pyval) : coerce v = py_float v.
Proof. destruct v; reflexivity. Qed.

(** C2 (amended). When the session's [total_distance] is present,
    [distanceM] is its conversion to a number, and is absent when it
    does not convert; when [total_distance] is absent, [distanceM] is
    the last record distance that converts to a number (absent when
    there is none). *)
Theorem distance_prefers_session (stem name : string)
    (frames : list frame) (cities : option (list city_rec))
    (cache cache' : gmap cache_key lookup_result) (max_km : option Q)
    (a : Activity.t) (session : fields) (records : list fields) :
  parse_fit_file stem name (Some frames) cities cache max_km
    = Ret (Some a, cache') ->
  read_frames frames = (Some session, records) ->
  (get session "total_distance" <> PyNone ->
   Activity.distanceM a = py_float (get session "total_distance")) /\
  (get session "total_distance" = PyNone ->
   Activity.distanceM a = last (record_distances records)).
Proof.
  intros Hp Hframes.
  apply parse_fit_file_returned in Hp
    as (frames' & session' & records' & st & cn & [= <-] & Hframes'
        & Hscan & Hd & _).
  rewrite Hframes in Hframes'. injection Hframes' as <- <-.
  rewrite Hd. unfold pick_distance. split.
  - intros Hpresent.
    destruct (get session "total_distance") eqn:E;
      try contradiction; apply coerce_py_float.
  - intros ->. simpl. rewrite coerce_of_float.
    rewrite (scan_records_last_distance records scan_init st Hscan).
    destruct (last (record_distances records)); reflexivity.
Qed.

(** ** Start coordinates *)

Lemma or_num_nonzero (v : Q) (fallback : option Q) :
  ~ v == 0 -> or_num (Some v) fallback = Some v.
Proof.
  intros Hv. unfold or_num. simpl.
  rewrite (proj2 (Qtruthy_true v) Hv). reflexivity.
Qed.

(** C3 (amended). Each start coordinate is chosen on its own: it is the
    normalised session-level value when that value is present and not
    zero, and the matching coordinate of the first valid record pair
    when the session-level value is absent. *)
Theorem start_coordinates_per_axis (stem name : string)
    (frames : list frame) (cities : option (list city_rec))
    (cache cache' : gmap cache_key lookup_result) (max_km : option Q)
    (a : Activity.t) (session : fields) (records : list fields) :
  parse_fit_file stem name (Some frames) cities cache max_km
    = Ret (Some a, cache') ->
  read_frames frames = (Some session, records) ->
  (forall v, normalize_lat_lon (get session "start_position_lat") = Some v ->
             ~ v == 0 -> Activity.lat a = Some v) /\
  (normalize_lat_lon (get session "start_position_lat") = None ->
   Activity.lat a = fst <$> first_valid_position records) /\
  (forall v, normalize_lat_lon (get session "start_position_long") = Some v ->
             ~ v == 0 -> Activity.lon a = Some v) /\
  (normalize_lat_lon (get session "start_position_long") = None ->
   Activity.lon a = snd <$> first_valid_position records).
Proof.
  intros Hp Hframes.
  apply parse_fit_file_returned in Hp
    as (frames' & session' & records' & st & cn & [= <-] & Hframes'
        & Hscan & _ & _ & _ & Hlat & Hlon & _).
  rewrite Hframes in Hframes'. injection Hframes' as <- <-.
  destruct (scan_init_position records st Hscan) as [Hfla Hflo].
  rewrite Hlat, Hlon, Hfla, Hflo.
  repeat split.
  - intros v -> Hv. apply or_num_nonzero. exact Hv.
  - intros ->. reflexivity.
  - intros v -> Hv. apply or_num_nonzero. exact Hv.
  - intros ->. reflexivity.
Qed.

End ExtractorFacts.

Section CityNameFacts.
Context `{PyLib}.

Lemma or_str_unknown (o : option string) :
  or_str o "unknown" <> "" /\
  (or_str o "unknown" = "unknown" \/ o = Some (or_str o "unknown")) /\
  (o = None \/ o = Some "" -> or_str o "unknown" = "unknown").
Proof.
  destruct o as [s |]; simpl.
  - destruct (String.eqb s "") eqn:E.
    + repeat split; [discriminate | left; reflexivity].
    + apply String.eqb_neq in E. repeat split.
      * exact E.
      * right. reflexivity.
      * intros [|[= ->]]; [discriminate | contradiction].
  - repeat split; [discriminate | left; reflexivity].
Qed.

Lemma city_step_unknown (stats : list (city_key * CityEntry.t))
    (a : Activity.t) :
  Activity.city a = Some "unknown" -> city_step stats a = stats.
Proof. intros Hc. unfold city_step. rewrite Hc. reflexivity. Qed.

(** C10. A returned activity has a non-empty city string: the name of
    the city the geocoder matched, or ["unknown"]. When the matched
    record has no name or an empty name the city is ["unknown"], and
    such an activity leaves the city statistics untouched. *)
Theorem city_is_name_or_unknown (stem name : string)
    (decoded : option (list frame)) (cities : option (list city_rec))
    (cache cache' : gmap cache_key lookup_result) (max_km : option Q)
    (a : Activity.t) :
  parse_fit_file stem name decoded cities cache max_km = Ret (Some a, cache') ->
  exists s,
    Activity.city a = Some s /\ s <> "" /\
    (s = "unknown" \/
     exists cs c d,
       cities = Some cs /\
       fst (city_lookup (Activity.lat a) (Activity.lon a) cs cache max_km)
         = (Some c, d) /\
       c_city c = Some s) /\
    (forall cs c d,
       cities = Some cs ->
       fst (city_lookup (Activity.lat a) (Activity.lon a) cs cache max_km)
         = (Some c, d) ->
       c_city c = None \/ c_city c = Some "" ->
       s = "unknown" /\ forall stats, city_step stats a = stats).
Proof.
  intros Hp.
  apply parse_fit_file_returned in Hp
    as (frames & session & records & st & cn & _ & _ & _ & _ & _ & _ & _ & _
        & Hcity & Hres).
  exists cn. split; [exact Hcity |].
  unfold resolve_city in Hres.
  destruct cities as [cs |].
  - destruct (city_lookup (Activity.lat a) (Activity.lon a) cs cache max_km)
      as [[found d] c2] eqn:Hlook.
    destruct found as [c |]; injection Hres as <- _ _ _.
    + destruct (or_str_unknown (c_city c)) as (Hne & Hor & Hmissing).
      split; [exact Hne |]. split.
      * destruct Hor as [Hu | Hname]; [left; exact Hu |].
        right. exists cs, c, d. rewrite Hlook. auto.
      * intros cs' c' d' [= <-]. rewrite Hlook. simpl. intros [= <- <-] Hm.
        assert (Hu : or_str (c_city c) "unknown" = "unknown") by auto.
        split; [exact Hu |]. intros stats.
        apply city_step_unknown. rewrite Hcity, Hu. reflexivity.
    + split; [discriminate |]. split; [left; reflexivity |].
      intros cs' c' d' [= <-]. rewrite Hlook. discriminate.
  - injection Hres as <- _ _ _.
    split; [discriminate |]. split; [left; reflexivity |]. discriminate.
Qed.

End CityNameFacts.

(* ===================================================================== *)
(** * Dictionaries and sorting                                            *)
(* ===================================================================== *)

Section DictFacts.
Context {K V : Type} `{EqDecision K}.
Implicit Types (d : list (K * V)) (k : K) (v : V).

Lemma dict_get_set_eq d k v : Dict.get (Dict.set d k v) k = Some v.
Proof.
  induction d as [| [k' v'] d IH]; simpl.
  - destruct (decide (k = k)); congruence.
  - destruct (decide (k = k')) as [<- | Hne]; simpl.
    + destruct (decide (k = k)); congruence.
    + destruct (decide (k = k')); [contradiction | exact IH].
Qed.

Lemma dict_get_set_ne d k k' v :
  k <> k' -> Dict.get (Dict.set d k v) k' = Dict.get d k'.
Proof.
  intros Hne. induction d as [| [k0 v0] d IH]; simpl.
  - destruct (decide (k' = k)); congruence.
  - destruct (decide (k = k0)) as [<- | Hne0]; simpl.
    + destruct (decide (k' = k)); congruence.
    + destruct (decide (k' = k0)); [reflexivity | exact IH].
Qed.

Lemma dict_get_None d k : Dict.get d k = None <-> k ∉ Dict.keys d.
Proof.
  induction d as [| [k' v'] d IH]; simpl.
  - split; [intros _ Hin; inversion Hin | reflexivity].
  - rewrite not_elem_of_cons.
    destruct (decide (k = k')) as [<- | Hne].
    + split; [discriminate | intros [Hn _]; congruence].
    + rewrite IH. tauto.
Qed.

Lemma dict_get_In d k v : Dict.get d k = Some v -> (k, v) ∈ d.
Proof.
  induction d as [| [k' v'] d IH]; simpl; [discriminate |].
  destruct (decide (k = k')) as [<- | Hne].
  - intros [= <-]. left.
  - intros Hg. right. auto.
Qed.

Lemma dict_In_get d k v :
  NoDup (Dict.keys d) -> (k, v) ∈ d -> Dict.get d k = Some v.
Proof.
  induction d as [| [k' v'] d IH]; simpl; [intros _ Hin; inversion Hin |].
  rewrite NoDup_cons, elem_of_cons. intros [Hnotin Hnd] [[= <- <-] | Hin].
  - destruct (decide (k = k)); congruence.
  - destruct (decide (k = k')) as [<- | Hne]; [| auto].
    exfalso. apply Hnotin. apply (list_elem_of_fmap_2 fst) in Hin. exact Hin.
Qed.

Lemma dict_keys_set d k v :
  Dict.keys (Dict.set d k v) =
    match Dict.get d k with
    | Some _ => Dict.keys d
    | None => (Dict.keys d ++ [k])%list
    end.
Proof.
  induction d as [| [k' v'] d IH]; simpl; [reflexivity |].
  destruct (decide (k = k')) as [<- | Hne]; simpl; [reflexivity |].
  change (k' :: Dict.keys (Dict.set d k v) =
          match Dict.get d k with
          | Some _ => k' :: Dict.keys d
          | None => k' :: (Dict.keys d ++ [k])%list
          end).
  rewrite IH. destruct (Dict.get d k); reflexivity.
Qed.

Lemma dict_set_NoDup d k v :
  NoDup (Dict.keys d) -> NoDup (Dict.keys (Dict.set d k v)).
Proof.
  intros Hnd. rewrite dict_keys_set.
  destruct (Dict.get d k) eqn:Hg; [exact Hnd |].
  apply dict_get_None in Hg.
  apply NoDup_app. repeat split.
  - exact Hnd.
  - intros x Hx Hx'. apply list_elem_of_singleton in Hx' as ->. contradiction.
  - apply NoDup_singleton.
Qed.

End DictFacts.

Section SortFacts.
Context {A : Type} (le : A -> A -> bool).

Lemma insert_perm (x : A) (l : list A) :
  Permutation (PySort.insert le x l) (x :: l).
Proof.
  induction l as [| y l IH]; simpl; [reflexivity |].
  destruct (le x y); [reflexivity |].
  rewrite IH. apply perm_swap.
Qed.

Lemma sort_perm (l : list A) : Permutation (PySort.sort le l) l.
Proof.
  induction l as [| x l IH]; simpl; [reflexivity |].
  unfold PySort.sort in IH. rewrite insert_perm, IH. reflexivity.
Qed.

Hypothesis le_total : forall x y, le x y = true \/ le y x = true.

Lemma insert_hd (a x : A) (l : list A) :
  le a x = true ->
  HdRel (fun u v => le u v = true) a l ->
  HdRel (fun u v => le u v = true) a (PySort.insert le x l).
Proof.
  intros Hax Hhd. destruct l as [| y l]; simpl.
  - constructor. exact Hax.
  - destruct (le x y); constructor; [exact Hax |].
    inversion Hhd; assumption.
Qed.

Lemma insert_sorted (x : A) (l : list A) :
  Sorted (fun u v => le u v = true) l ->
  Sorted (fun u v => le u v = true) (PySort.insert le x l).
Proof.
  induction 1 as [| y l Hs IH Hhd]; simpl.
  - repeat constructor.
  - destruct (le x y) eqn:Hxy.
    + constructor; [constructor; assumption | constructor; exact Hxy].
    + constructor; [exact IH |].
      apply insert_hd; [| exact Hhd].
      destruct (le_total x y); congruence.
Qed.

Lemma sort_sorted (l : list A) :
  Sorted (fun u v => le u v = true) (PySort.sort le l).
Proof.
  induction l as [| x l IH]; simpl; [constructor |].
  apply insert_sorted. exact IH.
Qed.

End SortFacts.

(* ===================================================================== *)
(** * Daily aggregation                                                   *)
(* ===================================================================== *)

Section StringOrder.

Lemma string_lt_trans (a b c : string) :
  String.ltb a b = true -> String.ltb b c = true -> String.ltb a c = true.
Proof.
  unfold String.ltb. intros Hab Hbc.
  destruct (String.compare a b) eqn:Eab; try discriminate.
  destruct (String.compare b c) eqn:Ebc; try discriminate.
  apply String_as_OT.cmp_lt in Eab, Ebc.
  pose proof (String_as_OT.lt_trans _ _ _ Eab Ebc) as Hac.
  apply String_as_OT.cmp_lt in Hac. unfold String_as_OT.cmp in Hac.
  rewrite Hac. reflexivity.
Qed.

Lemma string_le_neq_lt (a b : string) :
  String.leb a b = true -> a <> b -> String.ltb a b = true.
Proof.
  unfold String.leb, String.ltb. intros Hle Hne.
  destruct (String.compare a b) eqn:E; try discriminate; [| reflexivity].
  apply String.compare_eq_iff in E. contradiction.
Qed.

End StringOrder.

Section DailyFacts.

Lemma distance_total_snoc (l : list Activity.t) (a : Activity.t) :
  distance_total (l ++ [a]) = distance_total l + or_zero (Activity.distanceM a).
Proof. unfold distance_total. rewrite fold_left_app. reflexivity. Qed.

Lemma on_date_same (a : Activity.t) : on_date (Activity.date a) a = true.
Proof. apply String.eqb_refl. Qed.

Lemma on_date_other (d : string) (a : Activity.t) :
  Activity.date a <> d -> on_date d a = false.
Proof. intros Hne. apply String.eqb_neq. exact Hne. Qed.

Lemma daily_step_holds (activities : list Activity.t)
    (daily : list (string * Daily.t)) (a : Activity.t) :
  daily_holds activities daily ->
  daily_holds (activities ++ [a]) (daily_step daily a).
Proof.
  intros Hinv d. unfold daily_step.
  rewrite List.filter_app. simpl.
  destruct (decide (Activity.date a = d)) as [<- | Hne].
  - rewrite dict_get_set_eq, on_date_same. simpl.
    specialize (Hinv (Activity.date a)).
    destruct (Dict.get daily (Activity.date a)) as [e |].
    + destruct Hinv as (Hd & Hdist & Hacts & _).
      rewrite distance_total_snoc, map_app, Hdist, Hacts.
      split; [exact Hd |]. split; [reflexivity |]. split; [reflexivity |].
      intros E. apply app_eq_nil in E as [_ E]. discriminate E.
    + rewrite Hinv. simpl.
      split; [reflexivity |]. split; [reflexivity |]. split; [reflexivity |].
      discriminate.
  - rewrite dict_get_set_ne by exact Hne.
    rewrite (on_date_other d a Hne), app_nil_r. apply Hinv.
Qed.

Lemma fold_daily_snoc (activities : list Activity.t) (a : Activity.t) :
  fold_left daily_step (activities ++ [a]) [] =
  daily_step (fold_left daily_step activities []) a.
Proof. rewrite fold_left_app. reflexivity. Qed.

Lemma fold_daily_holds (activities : list Activity.t) :
  daily_holds activities (fold_left daily_step activities []).
Proof.
  induction activities as [| a l IH] using rev_ind.
  - intros d. reflexivity.
  - rewrite fold_daily_snoc. apply daily_step_holds. exact IH.
Qed.

Lemma fold_daily_NoDup (activities : list Activity.t) :
  NoDup (Dict.keys (fold_left daily_step activities [])).
Proof.
  induction activities as [| a l IH] using rev_ind.
  - constructor.
  - rewrite fold_daily_snoc. unfold daily_step. apply dict_set_NoDup. exact IH.
Qed.

(** Every entry of the dictionary sits under its own date. *)
Lemma fold_daily_key (activities : list Activity.t) (k : string)
    (e : Daily.t) :
  In (k, e) (fold_left daily_step activities []) ->
  Daily.date e = k /\
  Dict.get (fold_left daily_step activities []) k = Some e.
Proof.
  intros Hin. apply list_elem_of_In in Hin.
  apply dict_In_get in Hin; [| apply fold_daily_NoDup].
  pose proof (fold_daily_holds activities k) as Hk.
  rewrite Hin in Hk. destruct Hk as [Hd _]. split; [exact Hd | exact Hin].
Qed.

Lemma fold_daily_entry (activities : list Activity.t) (e : Daily.t) :
  In e (Dict.values (fold_left daily_step activities [])) ->
  Dict.get (fold_left daily_step activities []) (Daily.date e) = Some e.
Proof.
  intros Hin. apply in_map_iff in Hin as ([k e'] & Heq & Hin).
  simpl in Heq. subst e'.
  destruct (fold_daily_key activities k e Hin) as [-> Hget]. exact Hget.
Qed.

Lemma fold_daily_dates (activities : list Activity.t) :
  map Daily.date (Dict.values (fold_left daily_step activities [])) =
  Dict.keys (fold_left daily_step activities []).
Proof.
  pose proof (fold_daily_key activities) as Hkey.
  revert Hkey. generalize (fold_left daily_step activities []).
  intros daily Hkey.
  assert (Hall : forall k e, In (k, e) daily -> Daily.date e = k)
    by (intros k e Hin; apply (Hkey k e Hin)).
  clear Hkey. induction daily as [| [k e] daily IH]; [reflexivity |].
  simpl. f_equal.
  - apply Hall. left. reflexivity.
  - apply IH. intros k' e' Hin. apply Hall. right. exact Hin.
Qed.

Lemma sorted_le_NoDup_lt {A : Type} (f : A -> string) (l : list A) :
  Sorted (fun u v => String.leb (f u) (f v) = true) l ->
  NoDup (map f l) ->
  Sorted (fun u v => String.ltb (f u) (f v) = true) l.
Proof.
  induction 1 as [| x l Hs IH Hhd]; intros Hnd; [constructor |].
  simpl in Hnd. apply NoDup_cons in Hnd as [Hnotin Hnd].
  constructor; [auto |].
  destruct Hhd as [| y l Hxy]; constructor.
  apply string_le_neq_lt; [exact Hxy |].
  intros E. apply Hnotin. simpl. rewrite E. left.
Qed.

Lemma date_lt_transitive : Transitive date_lt.
Proof. intros x y z. apply string_lt_trans. Qed.

Lemma build_daily_structure (activities : list Activity.t) :
  StronglySorted date_lt (build_daily activities) /\
  NoDup (map Daily.date (build_daily activities)) /\
  (forall day, In day (build_daily activities) ->
     Daily.distanceM day =
       distance_total (List.filter (on_date (Daily.date day)) activities) /\
     Sorted key_le (Daily.activities day) /\
     Permutation (Daily.activities day)
       (map digest_of (List.filter (on_date (Daily.date day)) activities))) /\
  (forall day, In day (build_daily activities) ->
     List.filter (on_date (Daily.date day)) activities <> []) /\
  (forall a, In a activities ->
     exists day, In day (build_daily activities) /\
                 Daily.date day = Activity.date a).
Proof.
  unfold build_daily.
  set (daily := fold_left daily_step activities []).
  set (by_date := fun a b => String.leb (Daily.date a) (Daily.date b)).
  set (daily_list := PySort.sort by_date (Dict.values daily)).
  assert (Hperm : Permutation daily_list (Dict.values daily))
    by apply sort_perm.
  assert (Hsorted : Sorted (fun u v => by_date u v = true) daily_list).
  { apply sort_sorted. intros x y. apply String.leb_total. }
  assert (Hnd : NoDup (map Daily.date daily_list)).
  { rewrite (Permutation_map Daily.date Hperm).
    unfold daily. rewrite fold_daily_dates. apply fold_daily_NoDup. }
  assert (Hdates : map Daily.date (map sort_activities daily_list) =
                   map Daily.date daily_list).
  { rewrite map_map. reflexivity. }
  split; [| split; [| split; [| split]]].
  - apply (StronglySorted_fmap sort_activities date_lt date_lt).
    + intros x y Hxy. exact Hxy.
    + apply Sorted_StronglySorted; [exact date_lt_transitive |].
      apply (sorted_le_NoDup_lt Daily.date); assumption.
  - rewrite Hdates. exact Hnd.
  - intros day Hin. apply in_map_iff in Hin as (e & <- & Hin).
    apply (Permutation_in _ Hperm) in Hin.
    apply fold_daily_entry in Hin. fold daily in Hin.
    pose proof (fold_daily_holds activities (Daily.date e)) as Hk.
    fold daily in Hk. rewrite Hin in Hk.
    destruct Hk as (_ & Hdist & Hacts & _).
    simpl. split; [exact Hdist |]. split.
    + apply sort_sorted. intros x y. apply String.leb_total.
    + rewrite sort_perm, Hacts. reflexivity.
  - intros day Hin. apply in_map_iff in Hin as (e & <- & Hin).
    apply (Permutation_in _ Hperm) in Hin.
    apply fold_daily_entry in Hin. fold daily in Hin.
    pose proof (fold_daily_holds activities (Daily.date e)) as Hk.
    fold daily in Hk. rewrite Hin in Hk. destruct Hk as (_ & _ & _ & Hne).
    exact Hne.
  - intros a Hin.
    pose proof (fold_daily_holds activities (Activity.date a)) as Hk.
    fold daily in Hk.
    destruct (Dict.get daily (Activity.date a)) as [e |] eqn:Hget.
    + destruct Hk as (Hd & _).
      exists (sort_activities e). split; [| exact Hd].
      apply in_map. apply (Permutation_in _ (Permutation_sym Hperm)).
      apply dict_get_In, list_elem_of_In in Hget.
      apply (in_map snd _ _ Hget).
    + exfalso.
      assert (Ha : In a (List.filter (on_date (Activity.date a)) activities)).
      { apply filter_In. split; [exact Hin | apply on_date_same]. }
      rewrite Hk in Ha. destruct Ha.
Qed.


(** The total the loop keeps is the sum of the distances. *)
Lemma distance_total_sum_distanceM (activities : list Activity.t) :
  distance_total activities == sum_distanceM activities.
Proof.
  unfold distance_total, sum_distanceM.
  assert (Hgen : forall x y, x == y ->
            fold_left (fun acc a => acc + or_zero (Activity.distanceM a))
              activities x
            == fold_left
                 (fun acc a => acc + match Activity.distanceM a with
                                     | Some d => d
                                     | None => 0
                                     end) activities y).
  { induction activities as [| a l IH]; intros x y Hxy; simpl; [exact Hxy |].
    apply IH. unfold or_zero.
    destruct (Activity.distanceM a) as [d |]; [| rewrite Hxy; reflexivity].
    destruct (Qtruthy d) eqn:Hd; [rewrite Hxy; reflexivity |].
    apply Qtruthy_false in Hd. rewrite Hxy, Hd. reflexivity. }
  apply Hgen. reflexivity.
Qed.

(** The key the code sorts by is [startTimeUtc], or [startTime] when
    that is absent or empty. *)
Lemma digest_key_utc_or_start (item : Digest.t) :
  digest_key item = utc_or_start item.
Proof.
  unfold digest_key, utc_or_start, or_str.
  destruct (Digest.startTimeUtc item) as [[| c s] |]; reflexivity.
Qed.

Lemma digest_fields_of (a : Activity.t) :
  digest_fields (digest_of a) = activity_digest a.
Proof. reflexivity. Qed.

(** C8. The dates of [build_daily] are strictly increasing, so no date
    occurs twice, and every date of the input has its day. A day stands
    for at least one activity; its [distanceM] is the sum of [distanceM]
    over the activities of its date, an activity without a distance
    adding nothing; its activity list holds the seven fields of each of
    those activities, once each, in ascending order of [startTimeUtc],
    or of [startTime] for an entry whose [startTimeUtc] is absent. *)
Theorem build_daily_sorted_totals (activities : list Activity.t) :
  StronglySorted date_lt (build_daily activities) /\
  NoDup (map Daily.date (build_daily activities)) /\
  (forall day, In day (build_daily activities) ->
     let of_day := List.filter (on_date (Daily.date day)) activities in
     of_day <> [] /\
     Daily.distanceM day == sum_distanceM of_day /\
     Sorted start_le (Daily.activities day) /\
     Permutation (map digest_fields (Daily.activities day))
       (map activity_digest of_day)) /\
  (forall a, In a activities ->
     exists day, In day (build_daily activities) /\
                 Daily.date day = Activity.date a).
Proof.
  destruct (build_daily_structure activities)
    as (Hinc & Hnd & Hday & Hne & Hall).
  split; [exact Hinc |]. split; [exact Hnd |]. split; [| exact Hall].
  intros day Hin of_day.
  destruct (Hday day Hin) as (Hdist & Hsorted & Hperm).
  split; [apply Hne; exact Hin |]. split; [| split].
  - rewrite Hdist. apply distance_total_sum_distanceM.
  - clear Hperm. induction Hsorted as [| x l Hs IH Hhd]; constructor.
    + exact IH.
    + destruct Hhd as [| y l' Hxy]; constructor.
      unfold start_le. rewrite <- !digest_key_utc_or_start. exact Hxy.
  - rewrite (Permutation_map digest_fields Hperm), map_map.
    reflexivity.
Qed.

End DailyFacts.

(* ===================================================================== *)
(** * City statistics                                                     *)
(* ===================================================================== *)

Section CityStatsFacts.

Lemma dict_set_In {K V : Type} `{EqDecision K} (d : list (K * V))
    (k k' : K) (v v' : V) :
  In (k', v') (Dict.set d k v) -> In (k', v') d \/ (k' = k /\ v' = v).
Proof.
  induction d as [| [k0 v0] d IH]; simpl.
  - intros [[= <- <-] | []]. right. split; reflexivity.
  - destruct (decide (k = k0)) as [<- | Hne]; simpl.
    + intros [[= <- <-] | Hin]; [right; split; reflexivity | left; right; exact Hin].
    + intros [Heq | Hin]; [left; left; exact Heq |].
      destruct (IH Hin) as [Hd | Hnew]; [left; right; exact Hd | right; exact Hnew].
Qed.

Lemma entry_runs_set (stats : list (city_key * CityEntry.t))
    (k : city_key) (e' : CityEntry.t) :
  entry_runs (Dict.values (Dict.set stats k e')) =
    match Dict.get stats k with
    | Some e => (entry_runs (Dict.values stats) - CityEntry.runs e
                 + CityEntry.runs e')%Z
    | None => (entry_runs (Dict.values stats) + CityEntry.runs e')%Z
    end.
Proof.
  induction stats as [| [k0 e0] stats IH]; simpl.
  - lia.
  - destruct (decide (k = k0)) as [<- | Hne]; simpl.
    + change (map snd stats) with (Dict.values stats). lia.
    + change (map snd (Dict.set stats k e'))
        with (Dict.values (Dict.set stats k e')).
      change (map snd stats) with (Dict.values stats).
      rewrite IH. destruct (Dict.get stats k); lia.
Qed.

Lemma city_step_holds (activities : list Activity.t)
    (stats : list (city_key * CityEntry.t)) (a : Activity.t) :
  stats_hold activities stats ->
  stats_hold (activities ++ [a]) (city_step stats a).
Proof.
  intros [Hnames Hruns]. unfold city_step, stats_hold.
  rewrite List.filter_app, length_app. simpl. unfold located at 2.
  destruct (String.eqb (or_str (Activity.city a) "unknown") "unknown")
    eqn:Hcity; simpl.
  - split; [exact Hnames | lia].
  - apply String.eqb_neq in Hcity.
    set (key := (or_str (Activity.city a) "unknown", Activity.country a,
                 Activity.admin1 a)).
    assert (Hentry : CityEntry.city
              match Dict.get stats key with
              | Some e => e
              | None => CityEntry.mk (or_str (Activity.city a) "unknown")
                          (Activity.country a) (Activity.admin1 a) 0 0 0
              end <> "unknown").
    { destruct (Dict.get stats key) as [e |] eqn:Hget; [| exact Hcity].
      apply dict_get_In, list_elem_of_In in Hget. eapply Hnames, Hget. }
    split.
    + intros k e Hin. apply dict_set_In in Hin as [Hold | [_ ->]].
      * eapply Hnames, Hold.
      * exact Hentry.
    + rewrite entry_runs_set. simpl.
      destruct (Dict.get stats key); simpl; lia.
Qed.

Lemma fold_city_holds (activities : list Activity.t) :
  stats_hold activities (fold_left city_step activities []).
Proof.
  induction activities as [| a l IH] using rev_ind.
  - split; [intros k e [] | reflexivity].
  - rewrite fold_left_app. simpl. apply city_step_holds. exact IH.
Qed.

Lemma km_nonzero (d : Q) : 0 < d -> ~ d / 1000 == 0.
Proof.
  intros Hd E.
  assert (Hsplit : d == (d / 1000) * 1000) by field.
  rewrite Hsplit, E in Hd. discriminate Hd.
Qed.

(** On exact rationals the second loop returns; it copies the name and
    the runs. *)
Lemma city_result_returns (entry : CityEntry.t) :
  exists r, city_result entry = Ret r /\
            CityStat.city r = CityEntry.city entry /\
            CityStat.runs r = CityEntry.runs entry.
Proof.
  unfold city_result.
  destruct (Qgtb (CityEntry.distanceM entry) 0) eqn:Hd;
    destruct (Qgtb (CityEntry.durationS entry) 0); cbv [andb];
    try (cbv [bind]; eexists; repeat split; fail).
  apply Qgtb_true in Hd.
  rewrite (py_div_nonzero _ 1000) by discriminate. cbv [bind].
  rewrite py_div_nonzero by (apply km_nonzero; exact Hd).
  eexists. repeat split.
Qed.

Lemma city_results_return (entries : list CityEntry.t) :
  exists rs, city_results entries = Ret rs /\
             map CityStat.city rs = map CityEntry.city entries /\
             total_runs rs = entry_runs entries.
Proof.
  induction entries as [| e entries (rs & Hrs & Hnames & Hruns)]; simpl.
  - exists []. repeat split.
  - destruct (city_result_returns e) as (r & Hr & Hname & Hrun).
    exists (r :: rs). rewrite Hr, Hrs. simpl.
    rewrite Hname, Hnames, Hrun, Hruns. repeat split.
Qed.

Lemma total_runs_perm (l l' : list CityStat.t) :
  Permutation l l' -> total_runs l = total_runs l'.
Proof.
  induction 1; simpl; lia.
Qed.

(** C9. [build_city_stats] returns a list with no entry whose city is
    ["unknown"]; its runs add up to the number of activities that have a
    city other than ["unknown"], which is at most the number of
    activities. *)
Theorem build_city_stats_known_cities (activities : list Activity.t) :
  exists stats,
    build_city_stats activities = Ret stats /\
    (forall e, In e stats -> CityStat.city e <> "unknown") /\
    total_runs stats = Z.of_nat (length (List.filter located activities)) /\
    (total_runs stats <= Z.of_nat (length activities))%Z.
Proof.
  unfold build_city_stats.
  destruct (fold_city_holds activities) as [Hnames Hruns].
  set (stats := fold_left city_step activities []) in *.
  destruct (city_results_return (Dict.values stats))
    as (rs & Hrs & Hrnames & Hrruns).
  rewrite Hrs. simpl. eexists. split; [reflexivity |].
  set (by_distance :=
         fun a b => Qle_bool (CityStat.distanceM b) (CityStat.distanceM a)).
  pose proof (sort_perm by_distance rs) as Hperm.
  assert (Htotal : total_runs (PySort.sort by_distance rs) =
                   Z.of_nat (length (List.filter located activities))).
  { rewrite (total_runs_perm _ _ Hperm), Hrruns. exact Hruns. }
  split; [| split].
  - intros e Hin. apply (Permutation_in _ Hperm) in Hin.
    apply (in_map CityStat.city) in Hin. rewrite Hrnames in Hin.
    apply in_map_iff in Hin as (e0 & <- & Hin0).
    apply in_map_iff in Hin0 as ([k e1] & <- & Hin1).
    eapply Hnames, Hin1.
  - exact Htotal.
  - rewrite Htotal. apply inj_le. apply List.filter_length_le.
Qed.

End CityStatsFacts.

(* ===================================================================== *)
(** * The statements at sample inputs                                     *)
(* ===================================================================== *)

Lemma pace_present_iff_witness :
  exists a c,
    Sample.extract Sample.five_km = Ret (Some a, c) /\
    (Activity.paceSecPerKm a <> None <->
     exists d t, Activity.distanceM a = Some d /\
                 Activity.durationS a = Some t /\ 0 < d /\ ~ t == 0) /\
    (forall p, Activity.paceSecPerKm a = Some p ->
       exists d t, Activity.distanceM a = Some d /\
                   Activity.durationS a = Some t /\ p = t / (d / 1000)).
Proof.
  eexists. eexists. split; [reflexivity |].
  apply (@pace_present_iff Sample.lib "run" "run.fit" (Some Sample.five_km)
           None ∅ ∅ (Some 100)).
  vm_compute. reflexivity.
Defined.

(** At a timer total of zero the distance is 5000 and the duration is
    present, yet there is no pace. *)
Lemma pace_absent_zero_duration :
  exists a c,
    Sample.extract Sample.zero_duration = Ret (Some a, c) /\
    Activity.distanceM a = Some 5000 /\
    Activity.durationS a = Some 0 /\
    Activity.paceSecPerKm a = None /\
    ~ pace_iff_present a.
Proof.
  eexists. eexists. split; [reflexivity |].
  split; [reflexivity |]. split; [reflexivity |]. split; [reflexivity |].
  intros [_ Hback].
  apply Hback; [| reflexivity].
  exists 5000, 0. repeat split.
Qed.

Lemma distance_prefers_session_witness :
  exists a c,
    Sample.extract Sample.no_total = Ret (Some a, c) /\
    Activity.distanceM a = Some 250.
Proof.
  eexists. eexists. split; [reflexivity |].
  refine (proj2 (@distance_prefers_session Sample.lib "run" "run.fit"
                   Sample.no_total None ∅ ∅ (Some 100) _
                   (Sample.session_fields [])
                   (map list_to_map Sample.two_distances) _ _) _).
  - vm_compute. reflexivity.
  - vm_compute. reflexivity.
  - vm_compute. reflexivity.
Defined.

(** A session total that is not a number leaves [distanceM] absent
    although the records carry distances. *)
Lemma distance_absent_unparsed_total :
  exists a c,
    Sample.extract Sample.unparsed_total = Ret (Some a, c) /\
    read_frames Sample.unparsed_total =
      (Some (Sample.session_fields Sample.unparsed_total_session),
       map list_to_map Sample.two_distances) /\
    Activity.distanceM a = None /\
    ~ @distance_falls_back Sample.lib
        (Sample.session_fields Sample.unparsed_total_session)
        (map list_to_map Sample.two_distances) a.
Proof.
  eexists. eexists. split; [reflexivity |].
  split; [vm_compute; reflexivity |]. split; [reflexivity |].
  intros Hclaim.
  specialize (Hclaim eq_refl 250 eq_refl). discriminate Hclaim.
Qed.

Lemma start_coordinates_per_axis_witness :
  exists a c,
    Sample.extract Sample.lat_only = Ret (Some a, c) /\
    Activity.lat a = Some 10 /\ Activity.lon a = Some 30.
Proof.
  eexists. eexists. split; [reflexivity |].
  destruct (@start_coordinates_per_axis Sample.lib "run" "run.fit"
              Sample.lat_only None ∅ ∅ (Some 100) _
              (Sample.session_fields Sample.lat_only_session)
              (map list_to_map Sample.one_position)
              ltac:(vm_compute; reflexivity) ltac:(vm_compute; reflexivity))
    as (Hlat & _ & _ & Hlon).
  split.
  - apply Hlat; [vm_compute; reflexivity | discriminate].
  - etransitivity; [apply Hlon |]; vm_compute; reflexivity.
Defined.

(** With a session latitude and no session longitude the result mixes
    the session latitude with the record longitude; chosen pairwise it
    would be the record pair (20, 30). *)
Lemma start_coordinates_mixed :
  exists a c,
    Sample.extract Sample.lat_only = Ret (Some a, c) /\
    read_frames Sample.lat_only =
      (Some (Sample.session_fields Sample.lat_only_session),
       map list_to_map Sample.one_position) /\
    (Activity.lat a, Activity.lon a) = (Some 10, Some 30) /\
    @pairwise_start Sample.lib
      (Sample.session_fields Sample.lat_only_session)
      (map list_to_map Sample.one_position) = (Some 20, Some 30) /\
    (Activity.lat a, Activity.lon a) <>
      @pairwise_start Sample.lib
        (Sample.session_fields Sample.lat_only_session)
        (map list_to_map Sample.one_position).
Proof.
  eexists. eexists. split; [reflexivity |].
  split; [vm_compute; reflexivity |].
  split; [vm_compute; reflexivity |].
  split; [vm_compute; reflexivity |].
  vm_compute. discriminate.
Qed.



(** The same search with a radius of 200 km returns A; between two
    places at the query point the first one is returned. *)
Example find_nearest_city_two_cities :
  fst (@find_nearest_city Sample.lib 0 0 Sample.two_cities (Some 200))
    = Some (Sample.city "A" 1 1) /\
  fst (@find_nearest_city Sample.lib 1 1
         [Sample.city "A" 1 1; Sample.city "A2" 1 1] None)
    = Some (Sample.city "A" 1 1).
Proof. split; vm_compute; reflexivity. Qed.


(** The two coordinates of the specification's example, with one city
    at the first of them: the first lookup finds it and stores it; the
    second, given no city at all, returns it from the cache. *)
Lemma city_lookup_cached_witness :
  let home := Sample.city "Shanghai" (312304 # 10000) (1214737 # 10000) in
  let first :=
    @city_lookup Sample.lib (Some (312304 # 10000)) (Some (1214737 # 10000))
      [home] ∅ (Some 100) in
  fst (fst first) = Some home /\
  snd first !! (31230, 121474)%Z = Some (fst first) /\
  @city_lookup Sample.lib (Some (3123041 # 100000)) (Some (12147372 # 100000))
    [] (snd first) None = (fst first, snd first).
Proof.
  intros home first.
  assert (Hlat : round3 (312304 # 10000) = round3 (3123041 # 100000))
    by (vm_compute; reflexivity).
  assert (Hlon : round3 (1214737 # 10000) = round3 (12147372 # 100000))
    by (vm_compute; reflexivity).
  pose proof (@city_lookup_cached Sample.lib
                (312304 # 10000) (1214737 # 10000)
                (3123041 # 100000) (12147372 # 100000)
                [home] [] (Some 100) None ∅ [] Hlat Hlon) as Hcached.
  cbv zeta in Hcached.
  destruct Hcached as (Hfirst & Hstored & _ & Hsecond & _).
  split; [| split; [exact Hstored | exact Hsecond]].
  unfold first. rewrite Hfirst. vm_compute. reflexivity.
Defined.

(** A negative result is replayed: the first lookup finds no city within
    100 km; the second, given a radius of 200 km that would accept city
    A, still returns no city and the distance found before. *)
Example city_lookup_negative_replayed :
  let first :=
    @city_lookup Sample.lib (Some 0) (Some 0) Sample.two_cities ∅ (Some 100) in
  fst (fst first) = None /\
  fst (@city_lookup Sample.lib (Some (1 # 10000)) (Some 0)
         Sample.two_cities (snd first) (Some 200)) = fst first /\
  fst (fst (@city_lookup Sample.lib (Some (1 # 10000)) (Some 0)
              Sample.two_cities ∅ (Some 200))) = Some (Sample.city "A" 1 1).
Proof. repeat split; vm_compute; reflexivity. Qed.

Lemma city_is_name_or_unknown_witness :
  exists a c,
    @parse_fit_file Sample.lib "run" "run.fit" (Some Sample.at_one_one)
      (Some Sample.nameless) ∅ (Some 100) = Ret (Some a, c) /\
    exists s, Activity.city a = Some s /\ s <> "" /\ s = "unknown".
Proof.
  destruct (@parse_fit_file Sample.lib "run" "run.fit"
              (Some Sample.at_one_one) (Some Sample.nameless) ∅ (Some 100))
    as [[[a |] c] | e] eqn:E; try (vm_compute in E; discriminate E).
  exists a, c. split; [reflexivity |].
  destruct (@city_is_name_or_unknown Sample.lib "run" "run.fit"
              (Some Sample.at_one_one) (Some Sample.nameless) ∅ c
              (Some 100) a E)
    as (s & Hs & Hne & _ & Hmissing).
  exists s. split; [exact Hs |]. split; [exact Hne |].
  vm_compute in E. injection E as <- <-.
  refine (proj1 (Hmissing Sample.nameless _ _ eq_refl _ _)).
  - vm_compute. reflexivity.
  - right. reflexivity.
Defined.

(** [build_daily] and [build_city_stats] on three sample activities. *)
Example build_daily_three_runs :
  map (fun day => (Daily.date day, Daily.distanceM day,
                   map Digest.id (Daily.activities day)))
      (build_daily Sample.three_runs)
  = [("2024-05-01", 0 + 5000 + 0, ["c"; "a"]);
     ("2024-05-02", 0 + 3000, ["b"])].
Proof. reflexivity. Qed.

Example build_city_stats_three_runs :
  exists stats,
    build_city_stats Sample.three_runs = Ret stats /\
    map (fun e => (CityStat.city e, CityStat.runs e)) stats
      = [("Paris", 2%Z)].
Proof. eexists. split; reflexivity. Qed.

(* ===================================================================== *)
(** * Further properties of the extractor                                 *)
(* ===================================================================== *)

Section ExtractorMore.
Context `{PyLib}.




End ExtractorMore.

Section ExtractorFallbacks.
Context `{PyLib}.

(** The gate and the time fields of a returned activity. *)
Lemma parse_fit_file_header (stem name : string)
    (decoded : option (list frame)) (cities : option (list city_rec))
    (cache cache' : gmap cache_key lookup_result) (max_km : option Q)
    (a : Activity.t) :
  parse_fit_file stem name decoded cities cache max_km = Ret (Some a, cache') ->
  exists frames session records st t,
    decoded = Some frames /\
    read_frames frames = (Some session, records) /\
    scan_records scan_init records = Ret st /\
    get session "sport" <> PyNone /\
    str_lower (py_str (get session "sport")) = "running" /\
    ensure_utc (start_value session) = Ret (Some t) /\
    Activity.sport a = "running" /\
    Activity.id a = stem +:+ "_" +:+ pretty (Z.quot t 1000000) /\
    Activity.sourceFile a = name /\
    Activity.startTime a = isoformat_local t /\
    Activity.startTimeUtc a = Some (isoformat_utc t) /\
    Activity.date a = local_date_iso t /\
    pick_avg_hr session st = Ret (Activity.avgHr a) /\
    Activity.durationS a = pick_duration session st.
Proof.
  unfold parse_fit_file. intros Hp.
  destruct decoded as [frames |]; [| discriminate].
  destruct (read_frames frames) as [[session |] records] eqn:Hframes;
    [| discriminate].
  destruct (is_none (get session "sport")) eqn:Hnone; simpl in Hp;
    [discriminate |].
  destruct (String.eqb (str_lower (py_str (get session "sport"))) "running")
    eqn:Hsport; simpl in Hp; [| discriminate].
  apply String.eqb_eq in Hsport.
  fold (start_value session) in Hp.
  destruct (ensure_utc (start_value session)) as [[t |] | e] eqn:Hstart;
    simpl in Hp; try discriminate.
  destruct (scan_records scan_init records) as [st | e] eqn:Hscan;
    simpl in Hp; [| discriminate].
  destruct (pick_avg_hr session st) as [avg | e] eqn:Havg; simpl in Hp;
    [| discriminate].
  destruct (pick_pace _ _) as [pace | e]; simpl in Hp; [| discriminate].
  destruct (resolve_city _ _ _ _ _) as [[[cn co] ad] c2].
  injection Hp as <- <-. simpl.
  exists frames, session, records, st, t.
  assert (Hsome : get session "sport" <> PyNone)
    by (intros E; rewrite E in Hnone; discriminate).
  repeat (split; [first [reflexivity | assumption] |]). reflexivity.
Qed.

(** Only running sessions yield an activity: the session's sport,
    printed and lower-cased, is ["running"], and so is the activity's
    [sport]; its id is the file stem, an underscore and the start time
    in whole epoch seconds. *)
Theorem returned_activity_is_running (stem name : string)
    (frames : list frame) (cities : option (list city_rec))
    (cache cache' : gmap cache_key lookup_result) (max_km : option Q)
    (a : Activity.t) (session : fields) (records : list fields) :
  parse_fit_file stem name (Some frames) cities cache max_km
    = Ret (Some a, cache') ->
  read_frames frames = (Some session, records) ->
  get session "sport" <> PyNone /\
  str_lower (py_str (get session "sport")) = "running" /\
  Activity.sport a = "running" /\
  Activity.sourceFile a = name /\
  exists t,
    ensure_utc (start_value session) = Ret (Some t) /\
    Activity.id a = stem +:+ "_" +:+ pretty (Z.quot t 1000000) /\
    Activity.startTimeUtc a = Some (isoformat_utc t).
Proof.
  intros Hp Hframes.
  apply parse_fit_file_header in Hp
    as (frames' & session' & records' & st & t & [= <-] & Hframes' & _
        & Hsome & Hrun & Hstart & Hsport & Hid & Hsrc & _ & Hutc & _).
  rewrite Hframes in Hframes'. injection Hframes' as <- <-.
  repeat (split; [assumption |]).
  exists t. auto.
Qed.

(** ** Duration *)

Lemma times_distance record st :
  first_ts (scan_distance record st) = first_ts st /\
  last_ts (scan_distance record st) = last_ts st.
Proof.
  unfold scan_distance.
  destruct (negb _); [destruct (py_float _) |]; split; reflexivity.
Qed.

Lemma times_heart_rate record st :
  first_ts (scan_heart_rate record st) = first_ts st /\
  last_ts (scan_heart_rate record st) = last_ts st.
Proof.
  unfold scan_heart_rate.
  destruct (negb _); [destruct (py_float _) |]; split; reflexivity.
Qed.

Lemma times_position record st :
  first_ts (scan_position record st) = first_ts st /\
  last_ts (scan_position record st) = last_ts st.
Proof.
  unfold scan_position.
  destruct (first_lat st), (first_lon st),
    (normalize_lat_lon (get record "position_lat")),
    (normalize_lat_lon (get record "position_long")); split; reflexivity.
Qed.

Lemma record_instants_cons (record : fields) (rest : list fields)
    (ts : option Z) :
  ensure_utc (get record "timestamp") = Ret ts ->
  record_instants (record :: rest) =
    match ts with
    | Some t => t :: record_instants rest
    | None => record_instants rest
    end.
Proof.
  unfold record_instants. simpl.
  destruct (get record "timestamp") as [| b | z | q | s | d | s t n];
    simpl; try discriminate.
  - intros [= <-]. reflexivity.
  - destruct (tz_offset_us d); intros [= <-]; reflexivity.
Qed.

Lemma scan_records_times (records : list fields) (st st' : scan) :
  scan_records st records = Ret st' ->
  first_ts st' =
    match first_ts st with
    | Some f => Some f
    | None => head (record_instants records)
    end /\
  last_ts st' =
    match last (record_instants records) with
    | Some l => Some l
    | None => last_ts st
    end.
Proof.
  revert st. induction records as [| record rest IH]; intros st Hscan.
  - injection Hscan as <-. destruct (first_ts st); split; reflexivity.
  - simpl in Hscan. unfold scan_record in Hscan.
    destruct (ensure_utc (get record "timestamp")) as [ts | e] eqn:Hts;
      simpl in Hscan; [| discriminate].
    destruct (IH _ Hscan) as [Hf Hl]. rewrite Hf, Hl.
    rewrite (record_instants_cons record rest ts Hts).
    destruct (times_position record
                (scan_heart_rate record
                   (scan_distance record (scan_timestamp ts st))))
      as [-> ->].
    destruct (times_heart_rate record
                (scan_distance record (scan_timestamp ts st))) as [-> ->].
    destruct (times_distance record (scan_timestamp ts st)) as [-> ->].
    destruct ts as [t |]; simpl.
    + split.
      * destruct (first_ts st); reflexivity.
      * rewrite last_cons. destruct (last (record_instants rest)); reflexivity.
    + split; reflexivity.
Qed.

(** The duration chain: the session's [total_timer_time] converted to a
    number when it is present (absent when it does not convert); when
    it is absent, the time from the first to the last record timestamp,
    in seconds, or nothing when no record has a timestamp. *)
Theorem duration_prefers_session (stem name : string)
    (frames : list frame) (cities : option (list city_rec))
    (cache cache' : gmap cache_key lookup_result) (max_km : option Q)
    (a : Activity.t) (session : fields) (records : list fields) :
  parse_fit_file stem name (Some frames) cities cache max_km
    = Ret (Some a, cache') ->
  read_frames frames = (Some session, records) ->
  (get session "total_timer_time" <> PyNone ->
   Activity.durationS a = py_float (get session "total_timer_time")) /\
  (get session "total_timer_time" = PyNone ->
   Activity.durationS a =
     match head (record_instants records), last (record_instants records) with
     | Some f, Some l => Some (inject_Z (l - f) / 1000000)
     | _, _ => None
     end).
Proof.
  intros Hp Hframes.
  apply parse_fit_file_header in Hp
    as (frames' & session' & records' & st & t & [= <-] & Hframes' & Hscan
        & _ & _ & _ & _ & _ & _ & _ & _ & _ & _ & Hdur).
  rewrite Hframes in Hframes'. injection Hframes' as <- <-.
  destruct (scan_records_times records scan_init st Hscan) as [Hf Hl].
  simpl in Hf, Hl. rewrite Hdur. unfold pick_duration. rewrite Hf, Hl. split.
  - intros Hpresent.
    destruct (head (record_instants records)),
      (last (record_instants records));
      destruct (get session "total_timer_time"); try contradiction;
      reflexivity.
  - intros ->.
    destruct (head (record_instants records)),
      (last (record_instants records)); reflexivity.
Qed.

(** ** Average heart rate *)

Lemma hr_timestamp ts st :
  hr_sum (scan_timestamp ts st) = hr_sum st /\
  hr_count (scan_timestamp ts st) = hr_count st.
Proof. destruct ts; split; reflexivity. Qed.

Lemma hr_distance record st :
  hr_sum (scan_distance record st) = hr_sum st /\
  hr_count (scan_distance record st) = hr_count st.
Proof.
  unfold scan_distance.
  destruct (negb _); [destruct (py_float _) |]; split; reflexivity.
Qed.

Lemma hr_position record st :
  hr_sum (scan_position record st) = hr_sum st /\
  hr_count (scan_position record st) = hr_count st.
Proof.
  unfold scan_position.
  destruct (first_lat st), (first_lon st),
    (normalize_lat_lon (get record "position_lat")),
    (normalize_lat_lon (get record "position_long")); split; reflexivity.
Qed.

Lemma hr_heart_rate record st :
  hr_sum (scan_heart_rate record st) =
    match py_float (get record "heart_rate") with
    | Some h => hr_sum st + h
    | None => hr_sum st
    end /\
  hr_count (scan_heart_rate record st) =
    match py_float (get record "heart_rate") with
    | Some _ => (hr_count st + 1)%Z
    | None => hr_count st
    end.
Proof.
  unfold scan_heart_rate.
  destruct (get record "heart_rate"); simpl; try (split; reflexivity).
  - destruct (float_of_str s); split; reflexivity.
  - destruct number; split; reflexivity.
Qed.

Lemma heart_rates_cons (record : fields) (rest : list fields) :
  heart_rates (record :: rest) =
    match py_float (get record "heart_rate") with
    | Some h => h :: heart_rates rest
    | None => heart_rates rest
    end.
Proof. reflexivity. Qed.

Lemma scan_records_heart_rate (records : list fields) (st st' : scan) :
  scan_records st records = Ret st' ->
  hr_sum st' = fold_left Qplus (heart_rates records) (hr_sum st) /\
  hr_count st' = (hr_count st + Z.of_nat (length (heart_rates records)))%Z.
Proof.
  revert st. induction records as [| record rest IH]; intros st Hscan.
  - injection Hscan as <-. simpl. split; [reflexivity | lia].
  - apply scan_records_cons in Hscan as (st1 & Hone & Hrest).
    apply scan_record_inv in Hone as (ts & ->).
    destruct (IH _ Hrest) as [Hs Hc]. rewrite Hs, Hc.
    destruct (hr_position record
                (scan_heart_rate record
                   (scan_distance record (scan_timestamp ts st))))
      as [-> ->].
    destruct (hr_heart_rate record
                (scan_distance record (scan_timestamp ts st))) as [-> ->].
    destruct (hr_distance record (scan_timestamp ts st)) as [-> ->].
    destruct (hr_timestamp ts st) as [-> ->].
    rewrite heart_rates_cons.
    destruct (py_float (get record "heart_rate")) as [h |].
    + split; [reflexivity |]. rewrite length_cons, Nat2Z.inj_succ. lia.
    + split; reflexivity.
Qed.

(** The heart-rate chain: the session's [avg_heart_rate] converted to a
    number when it is present; when it is absent, the mean of the
    record heart rates that convert to a number, or nothing when there
    is none. *)
Theorem avg_hr_prefers_session (stem name : string)
    (frames : list frame) (cities : option (list city_rec))
    (cache cache' : gmap cache_key lookup_result) (max_km : option Q)
    (a : Activity.t) (session : fields) (records : list fields) :
  parse_fit_file stem name (Some frames) cities cache max_km
    = Ret (Some a, cache') ->
  read_frames frames = (Some session, records) ->
  (get session "avg_heart_rate" <> PyNone ->
   Activity.avgHr a = py_float (get session "avg_heart_rate")) /\
  (get session "avg_heart_rate" = PyNone ->
   Activity.avgHr a =
     match heart_rates records with
     | [] => None
     | hrs => Some (py_sum hrs / inject_Z (Z.of_nat (length hrs)))
     end).
Proof.
  intros Hp Hframes.
  apply parse_fit_file_header in Hp
    as (frames' & session' & records' & st & t & [= <-] & Hframes' & Hscan
        & _ & _ & _ & _ & _ & _ & _ & _ & _ & Havg & _).
  rewrite Hframes in Hframes'. injection Hframes' as <- <-.
  destruct (scan_records_heart_rate records scan_init st Hscan) as [Hs Hc].
  simpl in Hs, Hc. unfold pick_avg_hr in Havg. split.
  - intros Hpresent.
    destruct (get session "avg_heart_rate") eqn:E; try contradiction;
      simpl in Havg; injection Havg as <-; reflexivity.
  - intros E. rewrite E in Havg. simpl in Havg. rewrite Hc, Hs in Havg.
    fold (py_sum (heart_rates records)) in Havg.
    destruct (heart_rates records) as [| h hrs] eqn:Ehr.
    + simpl in Havg. injection Havg as <-. reflexivity.
    + replace (0 <? Z.of_nat (length (h :: hrs)))%Z with true in Havg
        by (symmetry; apply Z.ltb_lt; simpl; lia).
      rewrite py_div_nonzero in Havg.
      * simpl in Havg. injection Havg as <-. reflexivity.
      * intros Hz. unfold Qeq in Hz. simpl in Hz. lia.
Qed.

End ExtractorFallbacks.

(* ===================================================================== *)
(** * The cache across files                                              *)
(* ===================================================================== *)

Section BatchFacts.
Context `{PyLib}.

Lemma parse_fit_file_skip (stem name : string)
    (decoded : option (list frame)) (cities : option (list city_rec))
    (cache cache' : gmap cache_key lookup_result) (max_km : option Q) :
  parse_fit_file stem name decoded cities cache max_km = Ret (None, cache') ->
  cache' = cache.
Proof.
  unfold parse_fit_file. intros Hp.
  destruct decoded as [frames |]; [| congruence].
  destruct (read_frames frames) as [[session |] records]; [| congruence].
  destruct (negb _); [congruence |].
  destruct (ensure_utc _) as [[t |] | e]; simpl in Hp; try congruence.
  destruct (scan_records scan_init records) as [st | e]; simpl in Hp;
    [| discriminate].
  destruct (pick_avg_hr session st) as [avg | e]; simpl in Hp;
    [| discriminate].
  destruct (pick_pace _ _) as [pace | e]; simpl in Hp; [| discriminate].
  destruct (resolve_city _ _ _ _ _) as [[[cn co] ad] c2].
  discriminate.
Qed.

Lemma parse_fit_file_labels (stem name : string)
    (decoded : option (list frame)) (cities : option (list city_rec))
    (cache cache' : gmap cache_key lookup_result) (max_km : option Q)
    (a : Activity.t) :
  parse_fit_file stem name decoded cities cache max_km = Ret (Some a, cache') ->
  match cities with
  | None => cache' = cache /\ labels a = (Some "unknown", None, None)
  | Some cs =>
      cache' = snd (city_lookup (Activity.lat a) (Activity.lon a) cs cache
                                max_km) /\
      labels a = labels_of (fst (city_lookup (Activity.lat a) (Activity.lon a)
                                             cs cache max_km))
  end.
Proof.
  intros Hp.
  apply parse_fit_file_returned in Hp
    as (frames & session & records & st & cn & _ & _ & _ & _ & _ & _ & _ & _
        & Hcity & Hres).
  unfold resolve_city in Hres. unfold labels. rewrite Hcity.
  destruct cities as [cs |].
  - destruct (city_lookup (Activity.lat a) (Activity.lon a) cs cache max_km)
      as [[found d] c2].
    unfold labels_of. simpl.
    destruct found as [c |]; injection Hres as <- <- <- <-;
      split; reflexivity.
  - injection Hres as <- <- <- <-. split; reflexivity.
Qed.

(** [parse_fit_file] never overwrites or removes a cache entry; it
    leaves the cache as it is when the file is skipped and when city
    lookup is disabled. *)
Theorem parse_fit_file_keeps_cache (stem name : string)
    (decoded : option (list frame)) (cities : option (list city_rec))
    (cache cache' : gmap cache_key lookup_result) (max_km : option Q)
    (r : option Activity.t) :
  parse_fit_file stem name decoded cities cache max_km = Ret (r, cache') ->
  (forall k v, cache !! k = Some v -> cache' !! k = Some v) /\
  (r = None -> cache' = cache) /\
  (cities = None -> cache' = cache).
Proof.
  intros Hp. destruct r as [a |].
  - pose proof (parse_fit_file_labels _ _ _ _ _ _ _ _ Hp) as Hl.
    destruct cities as [cs |].
    + destruct Hl as [-> _]. split; [| split; discriminate].
      intros k v Hk. apply city_lookup_keeps. exact Hk.
    + destruct Hl as [-> _]. repeat split; auto.
  - apply parse_fit_file_skip in Hp. subst cache'. repeat split; auto.
Qed.

Lemma labelled_from_step (stem name : string)
    (decoded : option (list frame)) (cs : list city_rec)
    (cache cache' : gmap cache_key lookup_result) (max_km : option Q)
    (activities : list Activity.t) (a : Activity.t) :
  labelled_from cache activities ->
  parse_fit_file stem name decoded (Some cs) cache max_km
    = Ret (Some a, cache') ->
  labelled_from cache' (activities ++ [a]).
Proof.
  intros Hinv Hp a' k Hin Hkey.
  pose proof (parse_fit_file_labels _ _ _ _ _ _ _ _ Hp) as [Hc Hl].
  apply in_app_or in Hin as [Hold | [<- | []]].
  - destruct (Hinv a' k Hold Hkey) as (r & Hr & Hlab).
    exists r. split; [| exact Hlab].
    rewrite Hc. apply city_lookup_keeps. exact Hr.
  - unfold start_key in Hkey.
    destruct (Activity.lat a) as [la |], (Activity.lon a) as [lo |];
      try discriminate.
    injection Hkey as <-.
    exists (fst (city_lookup (Some la) (Some lo) cs cache max_km)).
    split; [| exact Hl].
    rewrite Hc. apply city_lookup_stores.
Qed.

Lemma labelled_from_skip (cache cache' : gmap cache_key lookup_result)
    (activities : list Activity.t) :
  (forall k v, cache !! k = Some v -> cache' !! k = Some v) ->
  labelled_from cache activities -> labelled_from cache' activities.
Proof.
  intros Hkeep Hinv a k Hin Hkey.
  destruct (Hinv a k Hin Hkey) as (r & Hr & Hlab).
  exists r. split; [apply Hkeep; exact Hr | exact Hlab].
Qed.

Lemma parse_files_labelled (fit_files : list fit_file) (cs : list city_rec)
    (max_km : option Q) (activities result : list Activity.t)
    (cache cache' : gmap cache_key lookup_result) :
  labelled_from cache activities ->
  parse_files fit_files (Some cs) max_km activities cache
    = Ret (result, cache') ->
  labelled_from cache' result.
Proof.
  revert activities cache.
  induction fit_files as [| f rest IH]; intros activities cache Hinv Hp.
  - injection Hp as <- <-. exact Hinv.
  - simpl in Hp.
    destruct (parse_fit_file (f_stem f) (f_name f) (f_decoded f) (Some cs)
                cache max_km) as [[[a |] c1] | e] eqn:Hone; simpl in Hp;
      [| | discriminate].
    + eapply IH; [| exact Hp].
      eapply labelled_from_step; eassumption.
    + eapply IH; [| exact Hp].
      apply parse_fit_file_skip in Hone. subst c1. exact Hinv.
Qed.

Lemma parse_files_unlabelled (fit_files : list fit_file)
    (max_km : option Q) (activities result : list Activity.t)
    (cache cache' : gmap cache_key lookup_result) :
  (forall a, In a activities -> labels a = (Some "unknown", None, None)) ->
  parse_files fit_files None max_km activities cache = Ret (result, cache') ->
  cache' = cache /\
  forall a, In a result -> labels a = (Some "unknown", None, None).
Proof.
  revert activities cache.
  induction fit_files as [| f rest IH]; intros activities cache Hinv Hp.
  - injection Hp as <- <-. split; [reflexivity | exact Hinv].
  - simpl in Hp.
    destruct (parse_fit_file (f_stem f) (f_name f) (f_decoded f) None
                cache max_km) as [[[a |] c1] | e] eqn:Hone; simpl in Hp;
      [| | discriminate].
    + pose proof (parse_fit_file_labels _ _ _ _ _ _ _ _ Hone) as [-> Hl].
      eapply IH; [| exact Hp].
      intros a' Hin. apply in_app_or in Hin as [Hold | [<- | []]]; auto.
    + apply parse_fit_file_skip in Hone. subst c1.
      eapply IH; [| exact Hp]. exact Hinv.
Qed.

(** Bookkeeping of the loop: what it returns comes from the files. *)
Lemma parse_files_running (fit_files : list fit_file)
    (cities : option (list city_rec)) (max_km : option Q)
    (activities result : list Activity.t)
    (cache cache' : gmap cache_key lookup_result) :
  parse_files fit_files cities max_km activities cache
    = Ret (result, cache') ->
  (length result <= length activities + length fit_files)%nat /\
  ((forall a, In a activities -> Activity.sport a = "running") ->
   forall a, In a result -> Activity.sport a = "running").
Proof.
  revert activities cache.
  induction fit_files as [| f rest IH]; intros activities cache Hp.
  - injection Hp as <- <-. split; [simpl; lia | auto].
  - simpl in Hp.
    destruct (parse_fit_file (f_stem f) (f_name f) (f_decoded f) cities
                cache max_km) as [[[a |] c1] | e] eqn:Hone; simpl in Hp;
      [| | discriminate].
    + destruct (IH _ _ Hp) as [Hlen Hrun]. split.
      * rewrite length_app in Hlen. simpl in *. lia.
      * intros Hall. apply Hrun. intros a' Hin.
        apply in_app_or in Hin as [Hold | [<- | []]]; [auto |].
        apply parse_fit_file_header in Hone
          as (? & ? & ? & ? & ? & _ & _ & _ & _ & _ & _ & Hsport & _).
        exact Hsport.
    + destruct (IH _ _ Hp) as [Hlen Hrun]. split; [simpl; lia | exact Hrun].
Qed.

(** Within one run, two activities whose start positions round to the
    same key carry the same city, country and region, whatever the
    order of the files. *)
Theorem load_activities_same_key_same_labels (fit_files : list fit_file)
    (cities : option (list city_rec)) (max_km : option Q)
    (activities : list Activity.t) (a b : Activity.t) (k : cache_key) :
  load_activities fit_files cities max_km = Ret activities ->
  In a activities -> In b activities ->
  start_key a = Some k -> start_key b = Some k ->
  labels a = labels b.
Proof.
  unfold load_activities. intros Hload Ha Hb Hka Hkb.
  destruct (parse_files fit_files cities max_km [] ∅)
    as [[parsed cache] | e] eqn:Hp; simpl in Hload; [| discriminate].
  injection Hload as <-.
  apply (Permutation_in _ (sort_perm _ parsed)) in Ha, Hb.
  destruct cities as [cs |].
  - assert (Hinv : labelled_from cache parsed).
    { eapply parse_files_labelled; [| exact Hp]. intros ? ? []. }
    destruct (Hinv a k Ha Hka) as (ra & Hra & ->).
    destruct (Hinv b k Hb Hkb) as (rb & Hrb & ->).
    congruence.
  - assert (Hnone : forall x : Activity.t,
               In x [] -> labels x = (Some "unknown", None, None))
      by (intros x []).
    destruct (parse_files_unlabelled _ _ _ _ _ _ Hnone Hp) as [_ Hall].
    rewrite (Hall a Ha), (Hall b Hb). reflexivity.
Qed.

(** The activities of a run are sorted by [startTime], are all running
    activities, and are no more than the files. *)
Theorem load_activities_sorted_running (fit_files : list fit_file)
    (cities : option (list city_rec)) (max_km : option Q)
    (activities : list Activity.t) :
  load_activities fit_files cities max_km = Ret activities ->
  Sorted (fun a b => String.leb (Activity.startTime a) (Activity.startTime b)
                     = true) activities /\
  (forall a, In a activities -> Activity.sport a = "running") /\
  (length activities <= length fit_files)%nat.
Proof.
  unfold load_activities. intros Hload.
  destruct (parse_files fit_files cities max_km [] ∅)
    as [[parsed cache] | e] eqn:Hp; simpl in Hload; [| discriminate].
  injection Hload as <-.
  destruct (parse_files_running _ _ _ _ _ _ _ Hp) as [Hlen Hrun].
  split; [| split].
  - apply sort_sorted. intros x y. apply String.leb_total.
  - intros a Ha. apply (Permutation_in _ (sort_perm _ parsed)) in Ha.
    apply Hrun; [intros ? [] | exact Ha].
  - rewrite (Permutation_length (sort_perm _ parsed)). simpl in Hlen. lia.
Qed.

End BatchFacts.

(* ===================================================================== *)
(** * Further properties of the geocoder                                  *)
(* ===================================================================== *)

Section GeocoderMore.
Context `{PyLib}.

(** A number within the semicircle range, [|v| <= 2^31], normalises to
    degrees within [-180, 180], and normalising the result again
    changes nothing. *)
Theorem normalize_lat_lon_in_range (v : pyval) (x : Q) :
  py_float v = Some x ->
  Qabs x <= 2147483648 ->
  exists y, normalize_lat_lon v = Some y /\
            -180 <= y /\ y <= 180 /\
            normalize_lat_lon (PyFloat y) = Some y.
Proof.
  intros Hx Hrange.
  rewrite (normalize_lat_lon_number v x Hx).
  assert (Hstay : forall y, -180 <= y -> y <= 180 ->
                            normalize_lat_lon (PyFloat y) = Some y).
  { intros y Hlo Hhi.
    rewrite (normalize_lat_lon_number (PyFloat y) y eq_refl).
    pose proof (proj2 (Qabs_Qle_condition y 180) (conj Hlo Hhi)) as Habs.
    apply Qgtb_false in Habs. rewrite Habs. reflexivity. }
  destruct (Qgtb (Qabs x) 180) eqn:Hbig.
  - apply Qabs_Qle_condition in Hrange as [Hlo Hhi].
    assert (E : semicircles_to_deg x == x * (180 # 2147483648)).
    { unfold semicircles_to_deg. change (2 ^ 31) with 2147483648. field. }
    assert (Hlo' : -180 <= semicircles_to_deg x) by (rewrite E; lra).
    assert (Hhi' : semicircles_to_deg x <= 180) by (rewrite E; lra).
    exists (semicircles_to_deg x). auto.
  - apply Qgtb_false in Hbig.
    apply Qabs_Qle_condition in Hbig as [Hlo Hhi].
    exists x. auto.
Qed.

Lemma find_nearest_city_scan (lat lon : Q) (cities : list city_rec)
    (max_km : option Q) (i : nat) (c : city_rec) :
  fold_left (nearest_step lat lon) cities (None, None)
    = (Some c, Some (km_to lat lon c)) ->
  find_nearest_city lat lon cities max_km =
    match max_km with
    | Some m =>
        if Qgtb (km_to lat lon c) m then (None, Some (km_to lat lon c))
        else (Some c, Some (km_to lat lon c))
    | None => (Some c, Some (km_to lat lon c))
    end.
Proof.
  intros Hst. unfold find_nearest_city. rewrite Hst.
  destruct max_km; reflexivity.
Qed.

(** A city returned by [find_nearest_city] is one of the list, comes
    with its own distance, is no farther than any other city and no
    farther than [max_km]; no city is returned only for an empty list
    or when the nearest city lies beyond [max_km]. *)
Theorem find_nearest_city_sound (lat lon : Q) (cities : list city_rec)
    (max_km : option Q) (found : option city_rec) (d : option Q) :
  find_nearest_city lat lon cities max_km = (found, d) ->
  match found with
  | Some c =>
      In c cities /\ d = Some (km_to lat lon c) /\
      (forall c', In c' cities -> km_to lat lon c <= km_to lat lon c') /\
      (forall m, max_km = Some m -> km_to lat lon c <= m)
  | None =>
      (cities = [] /\ d = None) \/
      (exists m c, max_km = Some m /\ In c cities /\
                   d = Some (km_to lat lon c) /\ m < km_to lat lon c /\
                   forall c', In c' cities ->
                              km_to lat lon c <= km_to lat lon c')
  end.
Proof.
  intros Hres.
  destruct (scan_first_nearest lat lon cities)
    as [[-> _] | (i & c & (Hi & Hmin & _) & Hst)].
  - injection Hres as <- <-. left. split; reflexivity.
  - rewrite (find_nearest_city_scan lat lon cities max_km i c Hst) in Hres.
    assert (Hc : In c cities).
    { apply list_elem_of_In. eapply list_elem_of_lookup_2. exact Hi. }
    destruct max_km as [m |].
    + destruct (Qgtb (km_to lat lon c) m) eqn:Hgt; injection Hres as <- <-.
      * apply Qgtb_true in Hgt. right. exists m, c. auto.
      * apply Qgtb_false in Hgt.
        repeat split; auto. intros m' [= <-]. exact Hgt.
    + injection Hres as <- <-. repeat split; auto. discriminate.
Qed.

(** The reported distance does not depend on the order of the city
    list nor on [max_km]. *)
Theorem find_nearest_city_distance_order_free (lat lon : Q)
    (cities cities' : list city_rec) (max_km max_km' : option Q) :
  Permutation cities cities' ->
  match snd (find_nearest_city lat lon cities max_km),
        snd (find_nearest_city lat lon cities' max_km') with
  | Some d, Some d' => d == d'
  | None, None => True
  | _, _ => False
  end.
Proof.
  intros Hperm.
  destruct (scan_first_nearest lat lon cities)
    as [[-> _] | (i & c & (Hi & Hmin & _) & Hst)].
  - apply Permutation_nil in Hperm. subst cities'. exact I.
  - destruct (scan_first_nearest lat lon cities')
      as [[-> _] | (i' & c' & (Hi' & Hmin' & _) & Hst')].
    + apply Permutation_sym, Permutation_nil in Hperm. subst cities.
      discriminate Hi.
    + rewrite (find_nearest_city_scan lat lon cities max_km i c Hst).
      rewrite (find_nearest_city_scan lat lon cities' max_km' i' c' Hst').
      assert (Hc : In c cities').
      { apply (Permutation_in _ Hperm). apply list_elem_of_In.
        eapply list_elem_of_lookup_2. exact Hi. }
      assert (Hc' : In c' cities).
      { apply (Permutation_in _ (Permutation_sym Hperm)).
        apply list_elem_of_In. eapply list_elem_of_lookup_2. exact Hi'. }
      assert (Heq : km_to lat lon c == km_to lat lon c')
        by (apply Qle_antisym; auto).
      destruct max_km as [m |], max_km' as [m' |]; simpl;
        repeat match goal with
               | |- context [Qgtb ?x ?y] => destruct (Qgtb x y)
               end; simpl; exact Heq.
Qed.

End GeocoderMore.

(* ===================================================================== *)
(** * Days and activities                                                 *)
(* ===================================================================== *)

Section Partition.
Context {A B : Type}.

Lemma concat_map_perm (f g : A -> list B) (l : list A) :
  (forall x, In x l -> Permutation (f x) (g x)) ->
  Permutation (concat (map f l)) (concat (map g l)).
Proof.
  induction l as [| x l IH]; intros Hfg; simpl; [constructor |].
  apply Permutation_app.
  - apply Hfg. left. reflexivity.
  - apply IH. intros y Hy. apply Hfg. right. exact Hy.
Qed.

(** Two tests that never hold together split a list. *)
Lemma filter_disjoint_app (p q : A -> bool) (l : list A) :
  (forall x, p x = true -> q x = true -> False) ->
  Permutation (List.filter p l ++ List.filter q l)
    (List.filter (fun x => p x || q x) l).
Proof.
  intros Hpq. induction l as [| x l IH]; simpl; [constructor |].
  destruct (p x) eqn:Hp, (q x) eqn:Hq; simpl.
  - destruct (Hpq x Hp Hq).
  - constructor. exact IH.
  - rewrite <- IH. symmetry. apply Permutation_middle.
  - exact IH.
Qed.

Lemma filter_all (p : A -> bool) (l : list A) :
  (forall x, In x l -> p x = true) -> List.filter p l = l.
Proof.
  induction l as [| x l IH]; intros Hall; simpl; [reflexivity |].
  rewrite (Hall x) by (left; reflexivity). f_equal.
  apply IH. intros y Hy. apply Hall. right. exact Hy.
Qed.

Lemma dict_set_length {K V : Type} `{EqDecision K}
    (d : list (K * V)) (k : K) (v : V) :
  (length (Dict.set d k v) <= S (length d))%nat.
Proof.
  induction d as [| [k' v'] d IH]; simpl; [lia |].
  destruct (decide (k = k')); simpl; lia.
Qed.

End Partition.

Section DailyPartition.

(** Grouping by the dates of a duplicate-free list that names every
    date loses and repeats nothing. *)
Lemma group_by_date (activities : list Activity.t) (dates : list string) :
  NoDup dates ->
  Permutation
    (concat (map (fun d => List.filter (on_date d) activities) dates))
    (List.filter
       (fun a => existsb (String.eqb (Activity.date a)) dates) activities).
Proof.
  induction dates as [| d dates IH]; intros Hnd.
  - simpl. induction activities as [| a l IHl]; [constructor | exact IHl].
  - apply NoDup_cons in Hnd as [Hnotin Hnd]. simpl.
    rewrite (IH Hnd). apply filter_disjoint_app.
    intros a Hd Hin. apply String.eqb_eq in Hd.
    apply existsb_exists in Hin as (d' & Hd' & Heq).
    apply String.eqb_eq in Heq. apply Hnotin.
    apply list_elem_of_In. congruence.
Qed.

Lemma fold_daily_length (activities : list Activity.t) :
  (length (fold_left daily_step activities []) <= length activities)%nat.
Proof.
  induction activities as [| a l IH] using rev_ind; [reflexivity |].
  rewrite fold_daily_snoc, length_app. simpl. unfold daily_step.
  pose proof (dict_set_length (fold_left daily_step l []) (Activity.date a)).
  etransitivity; [apply H |]. lia.
Qed.

Lemma build_daily_length (activities : list Activity.t) :
  length (build_daily activities)
    = length (fold_left daily_step activities []).
Proof.
  unfold build_daily.
  rewrite length_map, (Permutation_length (sort_perm _ _)).
  unfold Dict.values. apply length_map.
Qed.

(** The dates of the days are the dates of the activities. *)
Lemma build_daily_dates (activities : list Activity.t) (d : string) :
  In d (map Daily.date (build_daily activities)) <->
  In d (map Activity.date activities).
Proof.
  destruct (build_daily_structure activities) as (_ & _ & _ & Hne & Hall).
  split.
  - intros Hin. apply in_map_iff in Hin as (day & <- & Hin).
    specialize (Hne day Hin).
    destruct (List.filter (on_date (Daily.date day)) activities)
      as [| a l] eqn:Hf; [contradiction |].
    assert (Ha : In a (List.filter (on_date (Daily.date day)) activities))
      by (rewrite Hf; left; reflexivity).
    apply filter_In in Ha as [Ha Hd]. apply String.eqb_eq in Hd.
    rewrite <- Hd. apply in_map. exact Ha.
  - intros Hin. apply in_map_iff in Hin as (a & <- & Hin).
    destruct (Hall a Hin) as (day & Hday & <-). apply in_map. exact Hday.
Qed.

(** [build_daily] keeps every activity: the entries of all days
    together are the seven fields of each activity of the input, once
    each. No day is empty, there are no more days than activities, and
    the dates of the days are exactly the dates of the activities. *)
Theorem build_daily_keeps_every_activity (activities : list Activity.t) :
  Permutation (day_entries (build_daily activities))
    (map activity_digest activities) /\
  (forall day, In day (build_daily activities) ->
               Daily.activities day <> []) /\
  (length (build_daily activities) <= length activities)%nat /\
  (forall d, In d (map Daily.date (build_daily activities)) <->
             In d (map Activity.date activities)).
Proof.
  destruct (build_daily_structure activities)
    as (_ & Hnd & Hday & Hne & Hall).
  split; [| split; [| split]].
  - unfold day_entries.
    rewrite (concat_map_perm _
               (fun day => map activity_digest
                  (List.filter (on_date (Daily.date day)) activities))).
    + rewrite <- (map_map Daily.date
                    (fun d => map activity_digest
                                (List.filter (on_date d) activities))).
      rewrite <- (map_map (fun d => List.filter (on_date d) activities)
                    (map activity_digest)).
      rewrite <- concat_map.
      apply Permutation_map.
      rewrite (group_by_date activities _ Hnd).
      rewrite filter_all; [reflexivity |].
      intros a Ha. apply existsb_exists.
      destruct (Hall a Ha) as (day & Hin & Hd).
      exists (Daily.date day). split; [apply in_map; exact Hin |].
      apply String.eqb_eq. symmetry. exact Hd.
    + intros day Hin. destruct (Hday day Hin) as (_ & _ & Hperm).
      rewrite (Permutation_map digest_fields Hperm), map_map. reflexivity.
  - intros day Hin Hnil. destruct (Hday day Hin) as (_ & _ & Hperm).
    rewrite Hnil in Hperm. apply Permutation_nil in Hperm.
    apply map_eq_nil in Hperm. apply (Hne day Hin). exact Hperm.
  - rewrite build_daily_length. apply fold_daily_length.
  - apply build_daily_dates.
Qed.

Lemma fold_add_map {A : Type} (f : A -> Q) (l : list A) (a : Q) :
  fold_left (fun acc x => acc + f x) l a = fold_left Qplus (map f l) a.
Proof.
  revert a. induction l as [| x l IH]; intros a; simpl; [reflexivity |].
  apply IH.
Qed.

(** [build_summary] returns for every daily list: [totalDays] is the
    number of entries and [totalDistanceM] their distances added from
    the left; the average is 0 for no entry and the total divided by
    the number of entries otherwise. On the days of [build_daily],
    [totalDays] is the number of distinct dates of the activities. *)
Theorem build_summary_counts_days (daily_list : list Daily.t) :
  exists s,
    build_summary daily_list = Ret s /\
    Summary.totalDays s = Z.of_nat (length daily_list) /\
    Summary.totalDistanceM s
      = fold_left (fun acc day => acc + Daily.distanceM day) daily_list 0 /\
    (daily_list = [] -> Summary.avgDistancePerDayM s = 0) /\
    (daily_list <> [] ->
     Summary.avgDistancePerDayM s
       = Summary.totalDistanceM s / inject_Z (Summary.totalDays s)) /\
    (forall activities, daily_list = build_daily activities ->
       Summary.totalDays s
         = Z.of_nat (length (remove_dups (map Activity.date activities)))).
Proof.
  unfold build_summary.
  assert (Hcomp : forall activities, daily_list = build_daily activities ->
            Z.of_nat (length daily_list)
            = Z.of_nat (length (remove_dups (map Activity.date activities)))).
  { intros activities ->. f_equal.
    destruct (build_daily_structure activities) as (_ & Hnd & _).
    rewrite <- (length_map Daily.date).
    apply Permutation_length, NoDup_Permutation.
    - exact Hnd.
    - apply NoDup_remove_dups.
    - intros d. rewrite elem_of_remove_dups, !list_elem_of_In.
      apply build_daily_dates. }
  destruct daily_list as [| day rest].
  - simpl. eexists. split; [reflexivity |]. simpl.
    split; [reflexivity |]. split; [reflexivity |]. split; [reflexivity |].
    split; [contradiction |]. exact Hcomp.
  - assert (Hnz : ~ inject_Z (Z.of_nat (length (day :: rest))) == 0).
    { intros E. unfold Qeq in E. simpl in E. lia. }
    replace (negb (Z.of_nat (length (day :: rest)) =? 0)%Z) with true
      by (symmetry; apply negb_true_iff, Z.eqb_neq; simpl; lia).
    rewrite (py_div_nonzero _ _ Hnz). cbv [bind].
    eexists. split; [reflexivity |]. cbn [Summary.totalDays
      Summary.totalDistanceM Summary.avgDistancePerDayM].
    split; [reflexivity |].
    split; [symmetry; apply fold_add_map |]. split; [discriminate |].
    split; [reflexivity |]. exact Hcomp.
Qed.

End DailyPartition.

(* ===================================================================== *)
(** * Monthly totals                                                      *)
(* ===================================================================== *)

Section GroupFacts.

(** Sorted without repetition is strictly sorted. *)
Lemma sorted_strict {A K : Type} (f : A -> K) (le : K -> K -> bool)
    (lt : K -> K -> Prop) (l : list A) :
  (forall x y, le x y = true -> x <> y -> lt x y) ->
  Sorted (fun u v => le (f u) (f v) = true) l ->
  NoDup (map f l) ->
  Sorted (fun u v => lt (f u) (f v)) l.
Proof.
  intros Hstrict. induction 1 as [| x l Hs IH Hhd]; intros Hnd;
    [constructor |].
  simpl in Hnd. apply NoDup_cons in Hnd as [Hnotin Hnd].
  constructor; [auto |].
  destruct Hhd as [| y l Hxy]; constructor.
  apply Hstrict; [exact Hxy |].
  intros E. apply Hnotin. simpl. rewrite E. left.
Qed.

(** When every entry carries its key, the keys can be read off the
    values. *)
Lemma dict_values_keys {K V : Type} `{EqDecision K} (f : V -> K)
    (d : list (K * V)) :
  NoDup (Dict.keys d) ->
  (forall k e, Dict.get d k = Some e -> f e = k) ->
  map f (Dict.values d) = Dict.keys d.
Proof.
  intros Hnd Hkey.
  assert (Hall : forall k e, In (k, e) d -> f e = k).
  { intros k e Hin. apply Hkey. apply dict_In_get; [exact Hnd |].
    apply list_elem_of_In. exact Hin. }
  clear Hnd Hkey. induction d as [| [k e] d IH]; [reflexivity |].
  simpl. f_equal.
  - apply Hall. left. reflexivity.
  - apply IH. intros k' e' Hin. apply Hall. right. exact Hin.
Qed.

Lemma dict_set_sumZ {K V : Type} `{EqDecision K} (f : V -> Z)
    (d : list (K * V)) (k : K) (v : V) :
  (fold_right Z.add 0 (map f (Dict.values (Dict.set d k v)))
   + match Dict.get d k with Some old => f old | None => 0 end
   = fold_right Z.add 0 (map f (Dict.values d)) + f v)%Z.
Proof.
  induction d as [| [k' v'] d IH]; simpl.
  - lia.
  - destruct (decide (k = k')) as [<- | Hne]; simpl.
    + lia.
    + change (map f (map snd (Dict.set d k v)))
        with (map f (Dict.values (Dict.set d k v))).
      change (map f (map snd d)) with (map f (Dict.values d)).
      lia.
Qed.

Lemma sumZ_perm (l l' : list Z) :
  Permutation l l' -> fold_right Z.add 0%Z l = fold_right Z.add 0%Z l'.
Proof. induction 1; simpl; lia. Qed.

End GroupFacts.

Section MonthlyFacts.
Context (int_of_str : string -> option Z).

Lemma month_key_leb_total (a b : month_key) :
  month_key_leb a b = true \/ month_key_leb b a = true.
Proof.
  unfold month_key_leb.
  destruct (Z.ltb_spec (fst a) (fst b)), (Z.ltb_spec (fst b) (fst a)),
    (Z.eqb_spec (fst a) (fst b)), (Z.eqb_spec (fst b) (fst a)),
    (Z.leb_spec (snd a) (snd b)), (Z.leb_spec (snd b) (snd a));
    simpl; auto; lia.
Qed.

Lemma month_key_leb_strict (a b : month_key) :
  month_key_leb a b = true -> a <> b ->
  (fst a < fst b)%Z \/ (fst a = fst b /\ (snd a < snd b)%Z).
Proof.
  unfold month_key_leb. destruct a as [y m], b as [y' m']. simpl.
  intros Hle Hne.
  apply orb_true_iff in Hle as [Hlt | Heq].
  - left. apply Z.ltb_lt. exact Hlt.
  - apply andb_true_iff in Heq as [Hy Hm].
    apply Z.eqb_eq in Hy. apply Z.leb_le in Hm. right.
    split; [exact Hy |].
    assert (m <> m') by congruence. lia.
Qed.

Lemma month_lt_transitive : Transitive month_lt.
Proof. intros x y z. unfold month_lt. lia. Qed.

Lemma in_month_true (k : month_key) (day : Daily.t) :
  in_month int_of_str k day = true <->
  month_of int_of_str (Daily.date day) = Some k.
Proof.
  unfold in_month. destruct (month_of int_of_str (Daily.date day))
    as [[y m] |]; destruct k as [y' m']; simpl.
  - rewrite andb_true_iff, !Z.eqb_eq. split; [intros [-> ->] | intros [= -> ->]];
      auto.
  - split; discriminate.
Qed.

Lemma in_month_same (k : month_key) (day : Daily.t) :
  month_of int_of_str (Daily.date day) = Some k ->
  in_month int_of_str k day = true.
Proof. apply in_month_true. Qed.

Lemma in_month_other (k k' : month_key) (day : Daily.t) :
  month_of int_of_str (Daily.date day) = Some k -> k <> k' ->
  in_month int_of_str k' day = false.
Proof.
  intros Hk Hne. destruct (in_month int_of_str k' day) eqn:E; [| reflexivity].
  apply in_month_true in E. congruence.
Qed.

Lemma monthly_step_bad (monthly : list (month_key * Monthly.t))
    (day : Daily.t) :
  month_of int_of_str (Daily.date day) = None ->
  monthly_step int_of_str monthly day = Raise ValueError.
Proof.
  unfold month_of, monthly_step, py_int.
  destruct (split_dash (Daily.date day)) as [| y [| m [| d [| ? ?]]]];
    try reflexivity.
  destruct (int_of_str y); [| reflexivity]. simpl.
  destruct (int_of_str m); [discriminate | reflexivity].
Qed.

Lemma monthly_step_good (monthly : list (month_key * Monthly.t))
    (day : Daily.t) (k : month_key) :
  month_of int_of_str (Daily.date day) = Some k ->
  monthly_step int_of_str monthly day =
    Ret (Dict.set monthly k
           (let entry :=
              match Dict.get monthly k with
              | Some e => e
              | None => Monthly.mk (fst k) (snd k) 0 0 0
              end in
            {| Monthly.year := Monthly.year entry;
               Monthly.month := Monthly.month entry;
               Monthly.distanceM :=
                 Monthly.distanceM entry + Daily.distanceM day;
               Monthly.durationS :=
                 Monthly.durationS entry + Daily.durationS day;
               Monthly.days := (Monthly.days entry + 1)%Z |})).
Proof.
  unfold month_of, monthly_step, py_int.
  destruct (split_dash (Daily.date day)) as [| y [| m [| d [| ? ?]]]];
    try discriminate.
  destruct (int_of_str y); [| discriminate].
  destruct (int_of_str m); [| discriminate].
  intros [= <-]. reflexivity.
Qed.

Lemma monthly_step_inv (days : list Daily.t)
    (monthly : list (month_key * Monthly.t)) (day : Daily.t)
    (k : month_key) :
  monthly_inv int_of_str days monthly ->
  month_of int_of_str (Daily.date day) = Some k ->
  exists monthly',
    monthly_step int_of_str monthly day = Ret monthly' /\
    monthly_inv int_of_str (days ++ [day]) monthly'.
Proof.
  intros (Hhold & Hnd & Hn) Hk.
  rewrite (monthly_step_good monthly day k Hk).
  eexists. split; [reflexivity |].
  set (entry := match Dict.get monthly k with
                | Some e => e
                | None => Monthly.mk (fst k) (snd k) 0 0 0
                end).
  cbv zeta.
  set (entry' := {| Monthly.year := Monthly.year entry;
                    Monthly.month := Monthly.month entry;
                    Monthly.distanceM :=
                      Monthly.distanceM entry + Daily.distanceM day;
                    Monthly.durationS :=
                      Monthly.durationS entry + Daily.durationS day;
                    Monthly.days := (Monthly.days entry + 1)%Z |}).
  split; [| split].
  - intros k'. rewrite List.filter_app. simpl.
    destruct (decide (k = k')) as [<- | Hne].
    + rewrite dict_get_set_eq, (in_month_same k day Hk).
      specialize (Hhold k). unfold entry', entry.
      destruct (Dict.get monthly k) as [e |]; simpl.
      * destruct Hhold as (Hkey & Hdays & Hdist & Hdur & _).
        rewrite !fold_left_app, length_app, Hdays, Hdist, Hdur. simpl.
        repeat split; [exact Hkey | lia |].
        intros E. apply app_eq_nil in E as [_ E]. discriminate.
      * rewrite Hhold. simpl. destruct k. repeat split. discriminate.
    + rewrite dict_get_set_ne by exact Hne.
      rewrite (in_month_other k k' day Hk Hne), app_nil_r. apply Hhold.
  - apply dict_set_NoDup. exact Hnd.
  - pose proof (dict_set_sumZ Monthly.days monthly k entry') as Hset.
    rewrite length_app, Nat2Z.inj_add. rewrite Hn in Hset.
    unfold entry', entry in *.
    destruct (Dict.get monthly k); simpl in *; lia.
Qed.

Lemma monthly_loop_inv (rest days : list Daily.t)
    (monthly : list (month_key * Monthly.t)) :
  monthly_inv int_of_str days monthly ->
  (forall day, In day rest ->
               month_of int_of_str (Daily.date day) <> None) ->
  exists monthly',
    monthly_loop int_of_str monthly rest = Ret monthly' /\
    monthly_inv int_of_str (days ++ rest) monthly'.
Proof.
  revert days monthly.
  induction rest as [| day rest IH]; intros days monthly Hinv Hwf.
  - exists monthly. rewrite app_nil_r. split; [reflexivity | exact Hinv].
  - destruct (month_of int_of_str (Daily.date day)) as [k |] eqn:Hk.
    + destruct (monthly_step_inv days monthly day k Hinv Hk)
        as (m1 & Hstep & Hinv1).
      destruct (IH (days ++ [day])%list m1 Hinv1) as (m2 & Hloop & Hinv2).
      { intros d Hd. apply Hwf. right. exact Hd. }
      exists m2. simpl. rewrite Hstep. simpl.
      split; [exact Hloop |]. rewrite <- app_assoc in Hinv2. exact Hinv2.
    + exfalso. apply (Hwf day); [left; reflexivity | exact Hk].
Qed.

Lemma monthly_loop_bad (rest : list Daily.t)
    (monthly : list (month_key * Monthly.t)) (day : Daily.t) :
  In day rest ->
  month_of int_of_str (Daily.date day) = None ->
  monthly_loop int_of_str monthly rest = Raise ValueError.
Proof.
  revert monthly. induction rest as [| d rest IH]; intros monthly Hin Hbad.
  - destruct Hin.
  - simpl.
    destruct (month_of int_of_str (Daily.date d)) as [k |] eqn:Hk.
    + rewrite (monthly_step_good monthly d k Hk). simpl.
      destruct Hin as [-> | Hin]; [congruence |].
      apply IH; assumption.
    + rewrite (monthly_step_bad monthly d Hk). reflexivity.
Qed.

(** When every date reads as [Y-M-D] with an integer year and month,
    [build_monthly] returns months in strictly increasing
    [(year, month)] order; a month's [days] is the number of daily
    entries of that month (at least one), its distance and its duration
    are theirs added in the order of the list; over all months the days
    add up to the number of daily entries. *)
Theorem build_monthly_totals (daily_list : list Daily.t) :
  (forall day, In day daily_list ->
               month_of int_of_str (Daily.date day) <> None) ->
  exists months,
    build_monthly int_of_str daily_list = Ret months /\
    StronglySorted month_lt months /\
    (forall m, In m months ->
       let of_month :=
         List.filter (in_month int_of_str (Monthly.year m, Monthly.month m))
                     daily_list in
       Monthly.days m = Z.of_nat (length of_month) /\
       (1 <= Monthly.days m)%Z /\
       Monthly.distanceM m
         = fold_left (fun acc d => acc + Daily.distanceM d) of_month 0 /\
       Monthly.durationS m
         = fold_left (fun acc d => acc + Daily.durationS d) of_month 0) /\
    monthly_days months = Z.of_nat (length daily_list).
Proof.
  intros Hwf.
  assert (Hinit : monthly_inv int_of_str [] []).
  { split; [intros k; reflexivity |].
    split; [constructor | reflexivity]. }
  destruct (monthly_loop_inv daily_list [] [] Hinit Hwf)
    as (monthly & Hloop & Hhold & Hnd & Hn).
  simpl in Hhold, Hn.
  unfold build_monthly. rewrite Hloop. cbv [bind].
  eexists. split; [reflexivity |].
  set (by_month := fun a b =>
         month_key_leb (Monthly.year a, Monthly.month a)
                       (Monthly.year b, Monthly.month b)).
  pose proof (sort_perm by_month (Dict.values monthly)) as Hperm.
  set (key_of := fun m => (Monthly.year m, Monthly.month m)).
  assert (Hkeys : map key_of (Dict.values monthly) = Dict.keys monthly).
  { apply dict_values_keys; [exact Hnd |].
    intros k e Hget. specialize (Hhold k). rewrite Hget in Hhold.
    apply Hhold. }
  split; [| split].
  - apply Sorted_StronglySorted; [exact month_lt_transitive |].
    apply (sorted_strict key_of month_key_leb
             (fun a b => (fst a < fst b)%Z
                         \/ (fst a = fst b /\ (snd a < snd b)%Z))).
    + exact month_key_leb_strict.
    + apply (sort_sorted by_month). intros x y. apply month_key_leb_total.
    + rewrite (Permutation_map key_of Hperm), Hkeys. exact Hnd.
  - intros m Hin. apply (Permutation_in _ Hperm) in Hin.
    apply in_map_iff in Hin as ([k e] & Heq & Hin). simpl in Heq. subst e.
    apply list_elem_of_In in Hin.
    apply (dict_In_get _ _ _ Hnd) in Hin.
    specialize (Hhold k). rewrite Hin in Hhold.
    destruct Hhold as (Hkey & Hdays & Hdist & Hdur & Hne).
    rewrite Hkey. cbv zeta. split; [exact Hdays |].
    split; [| split; [exact Hdist | exact Hdur]].
    rewrite Hdays.
    destruct (List.filter (in_month int_of_str k) daily_list);
      [contradiction | simpl; lia].
  - unfold monthly_days.
    rewrite (sumZ_perm _ _ (Permutation_map Monthly.days Hperm)). exact Hn.
Qed.

(** A date that does not split into three parts at ["-"], or whose year
    or month is not an integer, makes [build_monthly] raise
    [ValueError]. *)
Theorem build_monthly_bad_date (daily_list : list Daily.t) (day : Daily.t) :
  In day daily_list ->
  month_of int_of_str (Daily.date day) = None ->
  build_monthly int_of_str daily_list = Raise ValueError.
Proof.
  intros Hin Hbad. unfold build_monthly.
  rewrite (monthly_loop_bad daily_list [] day Hin Hbad). reflexivity.
Qed.

End MonthlyFacts.

(* ===================================================================== *)
(** * Histograms                                                          *)
(* ===================================================================== *)

Section BinFacts.

Lemma py_trunc_inject (z : Z) : py_trunc (inject_Z z) = z.
Proof.
  unfold py_trunc. destruct (Qltb (inject_Z z) 0).
  - apply Qceiling_Z.
  - apply Qfloor_Z.
Qed.

(** A value lies in the bin it is sent to. *)
Lemma bin_start_bounds (bin_size : Z) (v : Q) :
  (0 < bin_size)%Z ->
  inject_Z (bin_start bin_size v) <= v /\
  v < inject_Z (bin_start bin_size v + bin_size) /\
  (bin_start bin_size v mod bin_size = 0)%Z.
Proof.
  intros Hpos. unfold bin_start.
  assert (Hs : 0 < inject_Z bin_size).
  { unfold Qlt. simpl. lia. }
  assert (Hv : v == v / inject_Z bin_size * inject_Z bin_size).
  { field. intros E. rewrite E in Hs. discriminate Hs. }
  set (x := v / inject_Z bin_size) in *.
  split; [| split].
  - rewrite inject_Z_mult, Hv at 1.
    apply Qmult_le_compat_r; [apply Qfloor_le | apply Qlt_le_weak, Hs].
  - replace (Qfloor x * bin_size + bin_size)%Z
      with ((Qfloor x + 1) * bin_size)%Z by lia.
    rewrite inject_Z_mult. rewrite Hv at 1.
    apply Qmult_lt_compat_r; [exact Hs | apply Qlt_floor].
  - apply Z_mod_mult.
Qed.

Lemma add_bin_value (bin_map : list (Z * Bin.t)) (v : Q)
    (distance_m : option Q) (bin_size : Z) :
  bin_size <> 0%Z ->
  add_bin bin_map (Some v) distance_m bin_size =
    Ret (Dict.set bin_map (bin_start bin_size v)
           (let entry :=
              match Dict.get bin_map (bin_start bin_size v) with
              | Some e => e
              | None => Bin.mk (bin_start bin_size v)
                               (bin_start bin_size v + bin_size) 0 0
              end in
            {| Bin.start := Bin.start entry;
               Bin.end_ := Bin.end_ entry;
               Bin.count := (Bin.count entry + 1)%Z;
               Bin.distanceM :=
                 match distance_m with
                 | Some d => if Qtruthy d then Bin.distanceM entry + d
                             else Bin.distanceM entry
                 | None => Bin.distanceM entry
                 end |})).
Proof.
  intros Hnz. unfold add_bin, py_floordiv.
  apply Z.eqb_neq in Hnz. rewrite Hnz. cbv [bind].
  rewrite py_trunc_inject. reflexivity.
Qed.

(** [add_bin] puts a value into the bin [[start, start + bin_size)]
    that contains it, creating the bin with count 1 or adding 1 to its
    count, and leaves every other bin alone; an absent value changes
    nothing, and a bin size of zero raises [ZeroDivisionError]. *)
Theorem add_bin_places (bin_map : list (Z * Bin.t)) (v : Q)
    (distance_m : option Q) (bin_size : Z) :
  (0 < bin_size)%Z ->
  let start := bin_start bin_size v in
  inject_Z start <= v /\ v < inject_Z (start + bin_size) /\
  (exists bin_map' b,
     add_bin bin_map (Some v) distance_m bin_size = Ret bin_map' /\
     Dict.get bin_map' start = Some b /\
     match Dict.get bin_map start with
     | Some old =>
         Bin.start b = Bin.start old /\ Bin.end_ b = Bin.end_ old /\
         Bin.count b = (Bin.count old + 1)%Z
     | None =>
         Bin.start b = start /\ Bin.end_ b = (start + bin_size)%Z /\
         Bin.count b = 1%Z
     end /\
     forall k, k <> start -> Dict.get bin_map' k = Dict.get bin_map k) /\
  add_bin bin_map None distance_m bin_size = Ret bin_map /\
  add_bin bin_map (Some v) distance_m 0 = Raise ZeroDivisionError.
Proof.
  intros Hpos start.
  destruct (bin_start_bounds bin_size v Hpos) as (Hlo & Hhi & _).
  split; [exact Hlo |]. split; [exact Hhi |]. split; [| split; reflexivity].
  rewrite add_bin_value by lia. fold start.
  eexists. eexists. split; [reflexivity |].
  split; [apply dict_get_set_eq |]. split.
  - destruct (Dict.get bin_map start); simpl; repeat split; lia.
  - intros k Hk. apply dict_get_set_ne. congruence.
Qed.

Lemma bin_distance_snoc (samples : list sample) (s : sample) :
  bin_distance (samples ++ [s]) =
    match snd s with
    | Some d => if Qtruthy d then bin_distance samples + d
                else bin_distance samples
    | None => bin_distance samples
    end.
Proof. unfold bin_distance. rewrite fold_left_app. reflexivity. Qed.

Lemma add_bin_holds (bin_size : Z) (samples : list sample)
    (bin_map : list (Z * Bin.t)) (value distance_m : option Q) :
  bin_size <> 0%Z ->
  bins_hold bin_size samples bin_map ->
  NoDup (Dict.keys bin_map) ->
  exists bin_map',
    add_bin bin_map value distance_m bin_size = Ret bin_map' /\
    bins_hold bin_size (samples ++ [(value, distance_m)]) bin_map' /\
    NoDup (Dict.keys bin_map').
Proof.
  intros Hnz Hhold Hnd. destruct value as [v |].
  - rewrite add_bin_value by exact Hnz.
    eexists. split; [reflexivity |]. split; [| apply dict_set_NoDup, Hnd].
    intros k. rewrite List.filter_app.
    change (List.filter (in_bin bin_size k) [(Some v, distance_m)])
      with (if (bin_start bin_size v =? k)%Z
            then [(Some v, distance_m)] else []).
    destruct (decide (bin_start bin_size v = k)) as [<- | Hne].
    + rewrite dict_get_set_eq, Z.eqb_refl.
      specialize (Hhold (bin_start bin_size v)).
      destruct (Dict.get bin_map (bin_start bin_size v)) as [e |]; simpl.
      * destruct Hhold as (Hs & He & Hc & Hd & _).
        rewrite length_app, bin_distance_snoc, Hc, Hd. simpl.
        repeat split; [exact Hs | exact He | lia |].
        intros E. apply app_eq_nil in E as [_ E]. discriminate.
      * rewrite Hhold. simpl. repeat split. discriminate.
    + rewrite dict_get_set_ne by exact Hne.
      apply Z.eqb_neq in Hne. rewrite Hne, app_nil_r. apply Hhold.
  - exists bin_map. split; [reflexivity |]. split; [| exact Hnd].
    intros k. rewrite List.filter_app. simpl. rewrite app_nil_r. apply Hhold.
Qed.

Lemma bin_lt_transitive : Transitive bin_lt.
Proof. intros x y z. unfold bin_lt. lia. Qed.

Lemma to_list_histogram (bin_size : Z) (samples : list sample)
    (bin_map : list (Z * Bin.t)) :
  (0 < bin_size)%Z ->
  bins_hold bin_size samples bin_map ->
  NoDup (Dict.keys bin_map) ->
  histogram_of bin_size samples (Histogram.mk bin_size (to_list bin_map)).
Proof.
  intros Hpos Hhold Hnd. unfold histogram_of, to_list. simpl.
  set (by_start := fun a b => (Bin.start a <=? Bin.start b)%Z).
  pose proof (sort_perm by_start (Dict.values bin_map)) as Hperm.
  assert (Hkeys : map Bin.start (Dict.values bin_map) = Dict.keys bin_map).
  { apply dict_values_keys; [exact Hnd |].
    intros k e Hget. specialize (Hhold k). rewrite Hget in Hhold.
    apply Hhold. }
  assert (Hentry : forall b, In b (PySort.sort by_start (Dict.values bin_map))
                             -> Dict.get bin_map (Bin.start b) = Some b).
  { intros b Hin. apply (Permutation_in _ Hperm) in Hin.
    apply in_map_iff in Hin as ([k e] & Heq & Hin). simpl in Heq. subst e.
    apply list_elem_of_In in Hin. apply (dict_In_get _ _ _ Hnd) in Hin.
    pose proof (Hhold k) as Hk. rewrite Hin in Hk.
    destruct Hk as [-> _]. exact Hin. }
  split; [reflexivity |]. split; [| split].
  - apply Sorted_StronglySorted; [exact bin_lt_transitive |].
    apply (sorted_strict Bin.start Z.leb Z.lt).
    + intros x y Hle Hne. apply Z.leb_le in Hle. lia.
    + apply (sort_sorted by_start). intros x y.
      unfold by_start. rewrite !Z.leb_le. lia.
    + rewrite (Permutation_map Bin.start Hperm), Hkeys. exact Hnd.
  - intros b Hin. apply Hentry in Hin.
    pose proof (Hhold (Bin.start b)) as Hk. rewrite Hin in Hk.
    destruct Hk as (_ & He & Hc & Hd & Hne).
    split; [exact He |]. split; [| split; [| split; [exact Hc | exact Hd]]].
    + destruct (List.filter (in_bin bin_size (Bin.start b)) samples)
        as [| [v d] rest] eqn:Hf; [contradiction |].
      assert (Hs : In (v, d)
                     (List.filter (in_bin bin_size (Bin.start b)) samples))
        by (rewrite Hf; left; reflexivity).
      apply filter_In in Hs as [_ Hs]. unfold in_bin in Hs. simpl in Hs.
      destruct v as [v |]; [| discriminate].
      apply Z.eqb_eq in Hs. rewrite <- Hs.
      apply (bin_start_bounds bin_size v Hpos).
    + rewrite Hc.
      destruct (List.filter (in_bin bin_size (Bin.start b)) samples);
        [contradiction | simpl; lia].
  - intros v d Hin.
    pose proof (Hhold (bin_start bin_size v)) as Hk.
    destruct (Dict.get bin_map (bin_start bin_size v)) as [b |] eqn:Hget.
    + destruct Hk as (Hs & He & _).
      exists b. split.
      * apply (Permutation_in _ (Permutation_sym Hperm)).
        apply dict_get_In, list_elem_of_In in Hget.
        apply (in_map snd _ _ Hget).
      * rewrite He, Hs.
        destruct (bin_start_bounds bin_size v Hpos) as (Hlo & Hhi & _).
        split; assumption.
    + exfalso.
      assert (Hs : In (Some v, d)
                     (List.filter (in_bin bin_size (bin_start bin_size v))
                                  samples)).
      { apply filter_In. split; [exact Hin |].
        unfold in_bin. simpl. apply Z.eqb_refl. }
      rewrite Hk in Hs. destruct Hs.
Qed.

Lemma distributions_step_holds (activities : list Activity.t)
    (st : bin_maps) (a : Activity.t) :
  distributions_hold activities st ->
  NoDup (Dict.keys (fst (fst st))) /\ NoDup (Dict.keys (snd (fst st)))
    /\ NoDup (Dict.keys (snd st)) ->
  exists st',
    distributions_step st a = Ret st' /\
    distributions_hold (activities ++ [a]) st' /\
    NoDup (Dict.keys (fst (fst st'))) /\ NoDup (Dict.keys (snd (fst st')))
      /\ NoDup (Dict.keys (snd st')).
Proof.
  destruct st as [[pace_bins hr_bins] distance_bins].
  intros (Hp & Hh & Hd) (Np & Nh & Nd). simpl in *.
  destruct (add_bin_holds PACE_BIN_SEC _ pace_bins (Activity.paceSecPerKm a)
              (Activity.distanceM a) ltac:(discriminate) Hp Np)
    as (pace' & Ep & Hp' & Np').
  destruct (add_bin_holds HR_BIN_BPM _ hr_bins (Activity.avgHr a)
              (Activity.distanceM a) ltac:(discriminate) Hh Nh)
    as (hr' & Eh & Hh' & Nh').
  destruct (add_bin_holds DIST_BIN_M _ distance_bins (Activity.distanceM a)
              (Activity.distanceM a) ltac:(discriminate) Hd Nd)
    as (dist' & Ed & Hd' & Nd').
  exists (pace', hr', dist'). unfold distributions_step.
  rewrite Ep, Eh. cbv [bind].
  assert (Edist : match Activity.distanceM a with
                  | Some _ => add_bin distance_bins (Activity.distanceM a)
                                (Activity.distanceM a) DIST_BIN_M
                  | None => Ret distance_bins
                  end = Ret dist').
  { destruct (Activity.distanceM a); [exact Ed |]. exact Ed. }
  rewrite Edist. split; [reflexivity |].
  unfold distributions_hold, pace_samples, hr_samples, distance_samples.
  rewrite !map_app. simpl. auto.
Qed.

Lemma distributions_loop_holds (rest activities : list Activity.t)
    (st : bin_maps) :
  distributions_hold activities st ->
  NoDup (Dict.keys (fst (fst st))) /\ NoDup (Dict.keys (snd (fst st)))
    /\ NoDup (Dict.keys (snd st)) ->
  exists st',
    distributions_loop st rest = Ret st' /\
    distributions_hold (activities ++ rest) st' /\
    NoDup (Dict.keys (fst (fst st'))) /\ NoDup (Dict.keys (snd (fst st')))
      /\ NoDup (Dict.keys (snd st')).
Proof.
  revert activities st.
  induction rest as [| a rest IH]; intros activities st Hhold Hnd.
  - exists st. rewrite app_nil_r. auto.
  - destruct (distributions_step_holds activities st a Hhold Hnd)
      as (st1 & Hstep & Hhold1 & Hnd1).
    destruct (IH (activities ++ [a])%list st1 Hhold1 Hnd1)
      as (st2 & Hloop & Hhold2 & Hnd2).
    exists st2. simpl. rewrite Hstep. simpl.
    rewrite <- app_assoc in Hhold2. auto.
Qed.

(** [build_distributions] never raises. Each of its three histograms
    (pace in bins of 15, heart rate in bins of 5, distance in bins of
    1000) has strictly increasing bins that start at multiples of the
    bin size and end one bin size later; a bin's count is the number of
    activities whose value falls in it, never zero, and its distance is
    the total of their non-zero distances; every activity with a value
    has its bin. *)
Theorem build_distributions_histograms (activities : list Activity.t) :
  exists d,
    build_distributions activities = Ret d /\
    histogram_of 15 (pace_samples activities) (Distributions.paceSecPerKm d) /\
    histogram_of 5 (hr_samples activities) (Distributions.avgHr d) /\
    histogram_of 1000 (distance_samples activities)
                 (Distributions.distanceM d).
Proof.
  assert (Hinit : distributions_hold [] ([], [], [])).
  { repeat split; intros k; reflexivity. }
  destruct (distributions_loop_holds activities [] ([], [], []) Hinit)
    as ([[pace_bins hr_bins] distance_bins] & Hloop & (Hp & Hh & Hd)
        & Np & Nh & Nd).
  { simpl. repeat split; constructor. }
  simpl in *. unfold build_distributions. rewrite Hloop. cbv [bind].
  eexists. split; [reflexivity |]. simpl.
  split; [| split]; apply to_list_histogram; auto; reflexivity.
Qed.

End BinFacts.

(** A pace of 247 s/km falls in the bin [[240, 255)]. *)
Example bin_of_247 :
  bin_start PACE_BIN_SEC 247 = 240%Z /\
  exists m b, add_bin [] (Some 247) (Some 5000) PACE_BIN_SEC = Ret m /\
              Dict.get m 240%Z = Some b /\
              (Bin.start b, Bin.end_ b, Bin.count b) = (240, 255, 1)%Z.
Proof. split; [reflexivity |]. eexists. eexists. repeat split. Qed.

(* ===================================================================== *)
(** * Synchronisation                                                     *)
(* ===================================================================== *)

Section ProxyFacts.

Lemma proxy_set_lookup (p : string) (environ : gmap string string)
    (k : string) :
  fold_left (fun env key => <[key := p]> env) Sync.PROXY_ENV_KEYS environ !! k
  = if bool_decide (In k Sync.PROXY_ENV_KEYS) then Some p else environ !! k.
Proof.
  unfold Sync.PROXY_ENV_KEYS. simpl.
  repeat (rewrite lookup_insert; case_decide;
          [subst k; reflexivity |]).
  rewrite bool_decide_eq_false_2; [reflexivity |].
  simpl. intuition congruence.
Qed.

Lemma proxy_clear_lookup (environ : gmap string string) (k : string) :
  fold_left (fun env key => <[key := "*"]> env) Sync.NO_PROXY_KEYS
    (fold_left (fun env key => delete key env) Sync.PROXY_ENV_KEYS environ)
    !! k
  = if bool_decide (In k Sync.NO_PROXY_KEYS) then Some "*"
    else if bool_decide (In k Sync.PROXY_ENV_KEYS) then None
    else environ !! k.
Proof.
  unfold Sync.PROXY_ENV_KEYS, Sync.NO_PROXY_KEYS. simpl.
  repeat (rewrite lookup_insert; case_decide;
          [subst k; reflexivity |]).
  rewrite (bool_decide_eq_false_2 (_ \/ _)) by (simpl; intuition congruence).
  repeat (rewrite lookup_delete; case_decide;
          [subst k; reflexivity |]).
  rewrite bool_decide_eq_false_2; [reflexivity |].
  simpl. intuition congruence.
Qed.

Lemma apply_proxy_env_set (p : string) (use_env_proxy : bool)
    (environ : gmap string string) :
  p <> "" ->
  Sync.apply_proxy_env (Some p) use_env_proxy environ
  = fold_left (fun env key => <[key := p]> env) Sync.PROXY_ENV_KEYS environ.
Proof.
  intros Hp. unfold Sync.apply_proxy_env.
  apply String.eqb_neq in Hp. rewrite Hp. reflexivity.
Qed.

Lemma apply_proxy_env_clear (proxy : option string)
    (environ : gmap string string) :
  proxy = None \/ proxy = Some "" ->
  Sync.apply_proxy_env proxy false environ
  = fold_left (fun env key => <[key := "*"]> env) Sync.NO_PROXY_KEYS
      (fold_left (fun env key => delete key env) Sync.PROXY_ENV_KEYS environ).
Proof. intros [-> | ->]; reflexivity. Qed.

Lemma apply_proxy_env_same (proxy : option string)
    (environ : gmap string string) :
  proxy = None \/ proxy = Some "" ->
  Sync.apply_proxy_env proxy true environ = environ.
Proof. intros [-> | ->]; reflexivity. Qed.

Lemma proxy_keys_disjoint (k : string) :
  In k Sync.PROXY_ENV_KEYS -> ~ In k Sync.NO_PROXY_KEYS.
Proof.
  unfold Sync.PROXY_ENV_KEYS, Sync.NO_PROXY_KEYS. simpl.
  intuition (subst; discriminate).
Qed.

(** [apply_proxy_env] touches only the six proxy variables and the two
    no-proxy variables. With a proxy, each of the six holds the proxy;
    with no proxy and the environment proxy not wanted, the six are
    unset and the two hold ["*"]; otherwise nothing changes. Applying
    it twice is the same as applying it once. *)
Theorem apply_proxy_env_effect (proxy : option string) (use_env_proxy : bool)
    (environ : gmap string string) :
  let after := Sync.apply_proxy_env proxy use_env_proxy environ in
  (forall k, ~ In k Sync.PROXY_ENV_KEYS -> ~ In k Sync.NO_PROXY_KEYS ->
             after !! k = environ !! k) /\
  (forall p, proxy = Some p -> p <> "" ->
     (forall k, In k Sync.PROXY_ENV_KEYS -> after !! k = Some p) /\
     (forall k, ~ In k Sync.PROXY_ENV_KEYS -> after !! k = environ !! k)) /\
  (proxy = None \/ proxy = Some "" ->
     if use_env_proxy then after = environ
     else (forall k, In k Sync.PROXY_ENV_KEYS -> after !! k = None) /\
          (forall k, In k Sync.NO_PROXY_KEYS -> after !! k = Some "*")) /\
  Sync.apply_proxy_env proxy use_env_proxy after = after.
Proof.
  cbv zeta.
  assert (Hcases : (exists p, proxy = Some p /\ p <> "")
                   \/ proxy = None \/ proxy = Some "").
  { destruct proxy as [p |]; [| auto].
    destruct (String.eqb_spec p ""); [subst; auto | left; eauto]. }
  destruct Hcases as [(p & -> & Hp) | Hfalsy].
  - rewrite !(apply_proxy_env_set p) by exact Hp.
    split; [| split; [| split]].
    + intros k Hk _.
      rewrite proxy_set_lookup, bool_decide_eq_false_2 by exact Hk.
      reflexivity.
    + intros q [= <-] _. split; intros k Hk; rewrite proxy_set_lookup.
      * rewrite bool_decide_eq_true_2 by exact Hk. reflexivity.
      * rewrite bool_decide_eq_false_2 by exact Hk. reflexivity.
    + intros [Hn | Hn]; [discriminate | congruence].
    + apply map_eq. intros k. rewrite !proxy_set_lookup.
      case_bool_decide; reflexivity.
  - destruct use_env_proxy.
    + rewrite !(apply_proxy_env_same proxy) by exact Hfalsy.
      split; [| split; [| split]]; auto.
      intros p -> Hp. destruct Hfalsy as [Hn | Hn]; congruence.
    + rewrite !(apply_proxy_env_clear proxy) by exact Hfalsy.
      split; [| split; [| split]].
      * intros k Hk1 Hk2.
        rewrite proxy_clear_lookup, !bool_decide_eq_false_2 by assumption.
        reflexivity.
      * intros p -> Hp. destruct Hfalsy as [Hn | Hn]; congruence.
      * intros _. split; intros k Hk; rewrite proxy_clear_lookup.
        -- rewrite bool_decide_eq_false_2 by (apply proxy_keys_disjoint, Hk).
           rewrite bool_decide_eq_true_2 by exact Hk. reflexivity.
        -- rewrite bool_decide_eq_true_2 by exact Hk. reflexivity.
      * apply map_eq. intros k. rewrite !proxy_clear_lookup.
        repeat case_bool_decide; reflexivity.
Qed.

End ProxyFacts.

Section NetworkFacts.
Context `{PyLib}.

Lemma page_ids_app (l l' : list fields) :
  Sync.page_ids (l ++ l') = (Sync.page_ids l ++ Sync.page_ids l')%list.
Proof. unfold Sync.page_ids. rewrite List.filter_app, map_app. reflexivity. Qed.

(** The comprehension gives [str()] of the truthy ids. *)
Lemma page_ids_truthy_ids (page : list fields) :
  Sync.page_ids page = truthy_ids page.
Proof.
  unfold Sync.page_ids, truthy_ids.
  induction page as [| item page IH]; [reflexivity |].
  cbn [List.filter omap list_omap].
  change (get item "activityId")
    with (match item !! "activityId" with Some v => v | None => PyNone end).
  destruct (item !! "activityId") as [v |] eqn:Hv; cbn [truthy].
  - destruct (truthy v); cbn [map]; [f_equal |]; [| exact IH | exact IH].
    unfold get. rewrite Hv. reflexivity.
  - exact IH.
Qed.

Lemma firstn_add_skipn {A : Type} (n m : nat) (l : list A) :
  firstn (n + m) l = (firstn n l ++ firstn m (skipn n l))%list.
Proof.
  revert l. induction n as [| n IH]; intros l; [reflexivity |].
  destruct l as [| x l]; simpl.
  - rewrite firstn_nil. reflexivity.
  - f_equal. apply IH.
Qed.

Lemma list_activity_ids_loop_complete
    (fetch : Z -> Z -> py (list fields)) (all : list fields) (fuel : nat) :
  serves fetch all ->
  forall (start : nat) (ids : list string),
    (length all - start < 100 * fuel)%nat ->
    ids = Sync.page_ids (firstn start all) ->
    Sync.list_activity_ids_loop fetch fuel ids (Z.of_nat start)
      = Some (Ret (Sync.page_ids all)).
Proof.
  intros Hserves. induction fuel as [| fuel IH]; intros start ids Hfuel Hids.
  - lia.
  - cbn [Sync.list_activity_ids_loop].
    rewrite (Hserves (Z.of_nat start) 100%Z) by lia.
    rewrite Nat2Z.id. change (Z.to_nat 100) with 100%nat.
    pose proof (firstn_add_skipn start 100 all) as Hsplit.
    pose proof (length_firstn 100 (skipn start all)) as Hlen.
    rewrite length_skipn in Hlen.
    destruct (firstn 100 (skipn start all)) as [| item page] eqn:Hpage.
    + cbn [length] in Hlen.
      assert (Hall : firstn start all = all)
        by (apply firstn_all2; lia).
      rewrite Hids, Hall. reflexivity.
    + rewrite <- Hpage in *. clear Hpage.
      assert (Hids' : (ids ++ Sync.page_ids (firstn 100 (skipn start all)))%list
                      = Sync.page_ids (firstn (start + 100) all)).
      { rewrite Hids, <- page_ids_app, Hsplit. reflexivity. }
      destruct (Z.ltb_spec (Z.of_nat (length (firstn 100 (skipn start all))))
                  100) as [Hshort | Hfull].
      * assert (Hall : firstn (start + 100) all = all)
          by (apply firstn_all2; lia).
        rewrite Hids', Hall. reflexivity.
      * replace (Z.of_nat start + 100)%Z with (Z.of_nat (start + 100))
          by lia.
        apply IH; [lia | exact Hids'].
Qed.

(** Against a server that answers each request with the matching slice
    of a fixed activity list, [list_activity_ids] returns, given enough
    fuel, [str()] of the [activityId] of every activity that has a
    truthy one, in the server's order, each once; an activity without
    an id, or with a falsy one, is left out. *)
Theorem list_activity_ids_complete
    (fetch : Z -> Z -> py (list fields)) (all : list fields) (fuel : nat) :
  serves fetch all ->
  (length all < 100 * fuel)%nat ->
  Sync.list_activity_ids fetch fuel = Some (Ret (truthy_ids all)).
Proof.
  intros Hserves Hfuel. unfold Sync.list_activity_ids.
  rewrite <- page_ids_truthy_ids.
  apply (list_activity_ids_loop_complete fetch all fuel Hserves 0%nat []);
    [lia | reflexivity].
Qed.

(** ** The download loop *)

Lemma string_length_app (s t : string) :
  String.length (s +:+ t) = (String.length s + String.length t)%nat.
Proof.
  induction s as [| c s IH]; [reflexivity |].
  change (String c s +:+ t) with (String c (s +:+ t)).
  cbn [String.length]. rewrite IH. reflexivity.
Qed.

Lemma strip_suffix_app (suffix s : string) :
  Sync.strip_suffix suffix (s +:+ suffix) = Some s.
Proof.
  induction s as [| c s IH].
  - change ("" +:+ suffix) with suffix.
    destruct suffix; cbn [Sync.strip_suffix]; rewrite String.eqb_refl;
      reflexivity.
  - change (String c s +:+ suffix) with (String c (s +:+ suffix)).
    cbn [Sync.strip_suffix].
    destruct (String.eqb (String c (s +:+ suffix)) suffix) eqn:E.
    + apply String.eqb_eq in E.
      apply (f_equal String.length) in E.
      cbn [String.length] in E. rewrite string_length_app in E. lia.
    + rewrite IH. reflexivity.
Qed.

(** The file written for a non-empty id has the id as its stem. *)
Lemma fit_stem_of_id (activity_id : string) :
  activity_id <> "" ->
  Sync.fit_stem (activity_id +:+ ".fit") = Some activity_id.
Proof.
  intros Hne. unfold Sync.fit_stem. rewrite strip_suffix_app.
  destruct activity_id; [contradiction | reflexivity].
Qed.

Lemma sync_loop_spec (download : string -> py (option string))
    (existing : gset string) (activity_ids : list string)
    (files : gmap string string) (n : Z) :
  (forall activity_id, In activity_id activity_ids ->
                       Sync.plain activity_id = true) ->
  exists files' r,
    Sync.sync_loop download existing activity_ids files n = Some (files', r) /\
    (forall name, (forall activity_id, In activity_id activity_ids ->
                     activity_id ∉ existing ->
                     name <> activity_id +:+ ".fit") ->
                  files' !! name = files !! name) /\
    (forall m, r = Ret m ->
       m = (n + Z.of_nat (length (List.filter (fetched download existing)
                                              activity_ids)))%Z /\
       forall activity_id data,
         download activity_id = Ret (Some data) ->
         activity_id ∉ existing ->
         In activity_id activity_ids
         \/ files !! (activity_id +:+ ".fit") = Some data ->
         files' !! (activity_id +:+ ".fit") = Some data).
Proof.
  revert files n.
  induction activity_ids as [| id rest IH]; intros files n Hplain.
  - exists files, (Ret n). split; [reflexivity |]. split; [reflexivity |].
    intros m [= <-]. split; [simpl; lia |].
    intros a data _ _ [[] | Hf]. exact Hf.
  - assert (Hrest : forall a, In a rest -> Sync.plain a = true)
      by (intros a Ha; apply Hplain; right; exact Ha).
    cbn [Sync.sync_loop]. cbn [List.filter]. unfold fetched at 1.
    destruct (decide (id ∈ existing)) as [Hin | Hout].
    + destruct (IH files n Hrest) as (files' & r & Hloop & Hkeep & Hret).
      exists files', r. split; [exact Hloop |]. split.
      * intros name Hname. apply Hkeep.
        intros a Ha. apply Hname. right. exact Ha.
      * intros m Hm. destruct (Hret m Hm) as [Hcount Hdata].
        split; [exact Hcount |].
        intros a data Hd Ha [[<- | Hr] | Hf]; [contradiction | |];
          apply (Hdata a data Hd Ha); auto.
    + destruct (download id) as [[d |] | e] eqn:Hdl.
      * unfold Sync.write_fit.
        rewrite (Hplain id) by (left; reflexivity).
        destruct (IH (<[id +:+ ".fit" := d]> files) (n + 1)%Z Hrest)
          as (files' & r & Hloop & Hkeep & Hret).
        exists files', r. split; [exact Hloop |]. split.
        -- intros name Hname. rewrite Hkeep.
           ++ apply lookup_insert_ne. intros E. symmetry in E. revert E.
              apply Hname; [left; reflexivity | exact Hout].
           ++ intros a Ha. apply Hname. right. exact Ha.
        -- intros m Hm. destruct (Hret m Hm) as [Hcount Hdata].
           split; [cbn [length]; lia |].
           intros a data Hd Ha Hor. apply (Hdata a data Hd Ha).
           destruct (decide (id = a)) as [<- | Hne].
           ++ right. rewrite lookup_insert_eq. congruence.
           ++ destruct Hor as [[E | Hr] | Hf]; [contradiction | auto |].
              right. rewrite lookup_insert_ne; [exact Hf |].
              intros E. apply Hne.
              apply (f_equal (Sync.strip_suffix ".fit")) in E.
              rewrite !strip_suffix_app in E. congruence.
      * destruct (IH files n Hrest) as (files' & r & Hloop & Hkeep & Hret).
        exists files', r. split; [exact Hloop |]. split.
        -- intros name Hname. apply Hkeep.
           intros a Ha. apply Hname. right. exact Ha.
        -- intros m Hm. destruct (Hret m Hm) as [Hcount Hdata].
           split; [exact Hcount |].
           intros a data Hd Ha [[<- | Hr] | Hf]; [congruence | |];
             apply (Hdata a data Hd Ha); auto.
      * exists files, (Raise e). split; [reflexivity |].
        split; [reflexivity | discriminate].
Qed.

(** With ids that are non-empty and hold no path separator,
    [sync_fit_files] leaves every entry that was in the directory as it
    was, whether or not a download fails. When it returns, the count is
    the number of listed ids whose stem was not in the directory and
    that were served (a repeated id counts each time), at most the
    number of ids, and each such id has its file [id.fit] with the
    served content. *)
Theorem sync_fit_files_keeps_existing
    (download : string -> py (option string)) (activity_ids : list string)
    (files : gmap string string) :
  (forall activity_id, In activity_id activity_ids ->
     Sync.plain activity_id = true /\ activity_id <> "") ->
  exists files' r,
    Sync.sync_fit_files download activity_ids files = Some (files', r) /\
    (forall name v, files !! name = Some v -> files' !! name = Some v) /\
    (forall downloaded, r = Ret downloaded ->
       downloaded
         = Z.of_nat (length (List.filter
                               (fetched download (Sync.existing_stems files))
                               activity_ids)) /\
       (0 <= downloaded <= Z.of_nat (length activity_ids))%Z /\
       forall activity_id data,
         In activity_id activity_ids ->
         activity_id ∉ Sync.existing_stems files ->
         download activity_id = Ret (Some data) ->
         files' !! (activity_id +:+ ".fit") = Some data).
Proof.
  intros Hids. unfold Sync.sync_fit_files.
  destruct (sync_loop_spec download (Sync.existing_stems files) activity_ids
              files 0%Z) as (files' & r & Hloop & Hkeep & Hret).
  { intros a Ha. apply Hids. exact Ha. }
  exists files', r. split; [exact Hloop |]. split.
  - intros name v Hname. rewrite Hkeep; [exact Hname |].
    intros a Ha Hnew ->. apply Hnew.
    unfold Sync.existing_stems. apply elem_of_set_omap.
    exists (a +:+ ".fit"). split.
    + apply elem_of_dom. eauto.
    + apply fit_stem_of_id. apply Hids. exact Ha.
  - intros m Hm. destruct (Hret m Hm) as [Hcount Hdata].
    split; [lia |]. split.
    + pose proof (List.filter_length_le
                    (fetched download (Sync.existing_stems files))
                    activity_ids). lia.
    + intros a data Hin Hnew Hd. apply (Hdata a data Hd Hnew). auto.
Qed.

End NetworkFacts.

(* ===================================================================== *)
(** * The further statements at sample inputs                             *)
(* ===================================================================== *)


Lemma returned_activity_is_running_witness :
  exists a c,
    Sample.extract Sample2.timed_run = Ret (Some a, c) /\
    Activity.sport a = "running" /\ Activity.id a = "run_0".
Proof.
  destruct (Sample.extract Sample2.timed_run) as [[[a |] c] | e] eqn:E;
    try (vm_compute in E; discriminate E).
  exists a, c. split; [reflexivity |].
  destruct (@returned_activity_is_running Sample.lib "run" "run.fit"
              Sample2.timed_run None ∅ c (Some 100) a
              (Sample.session_fields [])
              (map list_to_map Sample2.timed_records) E)
    as (_ & _ & Hsport & _ & t & Ht & Hid & _).
  { vm_compute. reflexivity. }
  split; [exact Hsport |].
  vm_compute in Ht. injection Ht as <-. rewrite Hid. vm_compute. reflexivity.
Defined.

Lemma duration_prefers_session_witness :
  exists a c,
    Sample.extract Sample2.timed_run = Ret (Some a, c) /\
    Activity.durationS a = Some (inject_Z (61000000 - 1000000) / 1000000).
Proof.
  destruct (Sample.extract Sample2.timed_run) as [[[a |] c] | e] eqn:E;
    try (vm_compute in E; discriminate E).
  exists a, c. split; [reflexivity |].
  assert (Hframes : @read_frames Sample2.timed_run
                    = (Some (Sample.session_fields []),
                       map list_to_map Sample2.timed_records))
    by (vm_compute; reflexivity).
  etransitivity.
  - apply (proj2 (@duration_prefers_session Sample.lib "run" "run.fit"
                    Sample2.timed_run None ∅ c (Some 100) a
                    (Sample.session_fields [])
                    (map list_to_map Sample2.timed_records) E Hframes)).
    vm_compute. reflexivity.
  - vm_compute. reflexivity.
Defined.

Lemma avg_hr_prefers_session_witness :
  exists a c,
    Sample.extract Sample2.timed_run = Ret (Some a, c) /\
    Activity.avgHr a = Some ((0 + 140 + 150) / 2).
Proof.
  destruct (Sample.extract Sample2.timed_run) as [[[a |] c] | e] eqn:E;
    try (vm_compute in E; discriminate E).
  exists a, c. split; [reflexivity |].
  assert (Hframes : @read_frames Sample2.timed_run
                    = (Some (Sample.session_fields []),
                       map list_to_map Sample2.timed_records))
    by (vm_compute; reflexivity).
  etransitivity.
  - apply (proj2 (@avg_hr_prefers_session Sample.lib "run" "run.fit"
                    Sample2.timed_run None ∅ c (Some 100) a
                    (Sample.session_fields [])
                    (map list_to_map Sample2.timed_records) E Hframes)).
    vm_compute. reflexivity.
  - vm_compute. reflexivity.
Defined.

Lemma parse_fit_file_keeps_cache_witness :
  exists r c,
    @parse_fit_file Sample.lib "run" "run.fit" (Some Sample.at_one_one)
      (Some Sample.two_cities) {[ (0, 0)%Z := (None, None) ]} (Some 100)
      = Ret (r, c) /\
    c !! (0, 0)%Z = Some (None, None).
Proof.
  destruct (@parse_fit_file Sample.lib "run" "run.fit"
              (Some Sample.at_one_one) (Some Sample.two_cities)
              {[ (0, 0)%Z := (None, None) ]} (Some 100))
    as [[r c] | e] eqn:E; [| vm_compute in E; discriminate E].
  exists r, c. split; [reflexivity |].
  apply (proj1 (@parse_fit_file_keeps_cache Sample.lib _ _ _ _ _ _ _ _ E)).
  reflexivity.
Defined.

Lemma load_activities_same_key_same_labels_witness :
  exists activities a b,
    @load_activities Sample.lib Sample2.two_files (Some Sample.two_cities)
      (Some 100) = Ret activities /\
    activities = [a; b] /\ Activity.lat a <> Activity.lat b /\
    labels a = labels b.
Proof.
  destruct (@load_activities Sample.lib Sample2.two_files
              (Some Sample.two_cities) (Some 100)) as [acts | e] eqn:E;
    [| vm_compute in E; discriminate E].
  pose proof E as E'. vm_compute in E'. injection E' as E'.
  destruct acts as [| a [| b [| ? ?]]]; try discriminate E'.
  exists [a; b], a, b. split; [reflexivity |]. split; [reflexivity |].
  injection E' as Ha Hb. split.
  - rewrite <- Ha, <- Hb. discriminate.
  - apply (@load_activities_same_key_same_labels Sample.lib
             Sample2.two_files (Some Sample.two_cities) (Some 100)
             [a; b] a b (1000, 1000)%Z E).
    + left. reflexivity.
    + right. left. reflexivity.
    + rewrite <- Ha. vm_compute. reflexivity.
    + rewrite <- Hb. vm_compute. reflexivity.
Defined.

Lemma load_activities_sorted_running_witness :
  exists activities,
    @load_activities Sample.lib Sample2.two_files None None = Ret activities /\
    (length activities <= 2)%nat /\
    forall a, In a activities -> Activity.sport a = "running".
Proof.
  destruct (@load_activities Sample.lib Sample2.two_files None None)
    as [acts | e] eqn:E; [| vm_compute in E; discriminate E].
  exists acts. split; [reflexivity |].
  destruct (@load_activities_sorted_running Sample.lib _ _ _ _ E)
    as (_ & Hrun & Hlen).
  split; [exact Hlen | exact Hrun].
Defined.

Lemma normalize_lat_lon_in_range_witness :
  exists y, @normalize_lat_lon Sample.lib (PyInt 1073741824) = Some y /\
            -180 <= y /\ y <= 180 /\
            @normalize_lat_lon Sample.lib (PyFloat y) = Some y.
Proof.
  apply (@normalize_lat_lon_in_range Sample.lib (PyInt 1073741824)
           (inject_Z 1073741824)).
  - reflexivity.
  - vm_compute. discriminate.
Defined.

Lemma find_nearest_city_sound_witness :
  In (Sample.city "A" 1 1) Sample.two_cities /\
  forall m, Some 200 = Some m ->
            @km_to Sample.lib 0 0 (Sample.city "A" 1 1) <= m.
Proof.
  destruct (@find_nearest_city_sound Sample.lib 0 0 Sample.two_cities
              (Some 200) (Some (Sample.city "A" 1 1))
              (Some (@km_to Sample.lib 0 0 (Sample.city "A" 1 1))))
    as (Hin & _ & _ & Hmax).
  - vm_compute. reflexivity.
  - split; [exact Hin | exact Hmax].
Defined.

Lemma find_nearest_city_distance_order_free_witness :
  match snd (@find_nearest_city Sample.lib 0 0 Sample.two_cities None),
        snd (@find_nearest_city Sample.lib 0 0 (rev Sample.two_cities)
               (Some 1)) with
  | Some d, Some d' => d == d'
  | None, None => True
  | _, _ => False
  end.
Proof.
  apply (@find_nearest_city_distance_order_free Sample.lib 0 0
           Sample.two_cities (rev Sample.two_cities) None (Some 1)).
  apply Permutation_rev.
Defined.

Lemma build_monthly_totals_witness :
  exists months,
    build_monthly Sample2.int_of_str Sample2.three_days = Ret months /\
    map (fun m => (Monthly.year m, Monthly.month m, Monthly.days m)) months
      = [(2024, 4, 1); (2024, 5, 2)]%Z /\
    monthly_days months = 3%Z.
Proof.
  destruct (build_monthly_totals Sample2.int_of_str Sample2.three_days)
    as (months & Hret & _ & _ & Hdays).
  - intros day Hin. simpl in Hin.
    destruct Hin as [<- | [<- | [<- | []]]]; vm_compute; discriminate.
  - exists months. split; [exact Hret |]. split; [| exact Hdays].
    vm_compute in Hret. injection Hret as <-. reflexivity.
Defined.

Lemma build_monthly_bad_date_witness :
  build_monthly Sample2.int_of_str
    (Sample2.three_days ++ [Sample2.day "20240503" 1 1])
  = Raise ValueError.
Proof.
  apply (build_monthly_bad_date Sample2.int_of_str _
           (Sample2.day "20240503" 1 1)).
  - apply in_or_app. right. left. reflexivity.
  - vm_compute. reflexivity.
Defined.

Lemma add_bin_places_witness :
  inject_Z 240 <= 247 /\ 247 < inject_Z (240 + 15).
Proof.
  destruct (add_bin_places [] 247 (Some 5000) PACE_BIN_SEC)
    as (Hlo & Hhi & _).
  - reflexivity.
  - split; [exact Hlo | exact Hhi].
Defined.

(** The ids of the sample server: the decimal numbers from 1 to 250. *)
Lemma list_activity_ids_complete_witness :
  @Sync.list_activity_ids Sample.lib Sample2.server 3
  = Some (Ret (map (fun n => pretty (Z.of_nat (S n))) (seq 0 250))).
Proof.
  rewrite (@list_activity_ids_complete Sample.lib Sample2.server
             Sample2.server_items 3).
  - vm_compute. reflexivity.
  - intros start limit _ _. reflexivity.
  - vm_compute. lia.
Defined.

(** A directory that holds [7.fit]: of the ids 7, 404, 8 and 9 the first
    is there and the second is not served; two files are written. *)
Lemma sync_fit_files_keeps_existing_witness :
  exists files' n,
    Sync.sync_fit_files Sample2.download ["7"; "404"; "8"; "9"]
      {[ "7.fit" := "old" ]} = Some (files', Ret n) /\
    files' !! "7.fit" = Some "old" /\ n = 2%Z /\
    files' !! "8.fit" = Some "FIT".
Proof.
  destruct (sync_fit_files_keeps_existing Sample2.download
              ["7"; "404"; "8"; "9"] {[ "7.fit" := "old" ]})
    as (files' & r & Hrun & Hkeep & Hret).
  { intros a Ha. simpl in Ha.
    destruct Ha as [<- | [<- | [<- | [<- | []]]]];
      (split; [reflexivity | discriminate]). }
  destruct r as [n | e]; [| vm_compute in Hrun; discriminate Hrun].
  exists files', n. split; [exact Hrun |].
  destruct (Hret n eq_refl) as (Hcount & _ & Hdata).
  split; [apply Hkeep; reflexivity |]. split.
  - rewrite Hcount. vm_compute. reflexivity.
  - apply (Hdata "8" "FIT"); [right; right; left; reflexivity | | reflexivity].
    intros Hin. unfold Sync.existing_stems in Hin.
    apply elem_of_set_omap in Hin as (name & Hdom & Hstem).
    apply elem_of_dom in Hdom as [v Hv].
    apply lookup_singleton_Some in Hv as [<- _].
    vm_compute in Hstem. discriminate Hstem.
Defined.
